(** * Cost-awareness experiment analysis: a shallow embedding

    The development embeds the analysis scripts of
    [CostAwarenessExperimentAndAnalysis] ([Utils/util.py],
    [analyze_experiments.py], [more_analysis.py]) and proves properties of
    the loader, the aggregation engine, the task statistics, the comparative
    reporter and the two drivers.

    Modelling conventions.
    - A pandas [DataFrame] is a list of column names and a list of rows; a
      row is a finite map from column names to cells, an absent entry
      reading as NaN (as [pd.concat] and [DataFrame(list_of_dicts)] fill
      it).
    - Numbers are exact rationals ([Q]); IEEE rounding of the floating
      point operations is not modelled.  NaN is a cell of its own, Python's
      [None] is [option]'s [None].
    - Exceptions are the [Raise] branch of [Result].
    - A Python list that a callee mutates lives in a store of list objects
      and is passed by reference.
    - The file system is read only and is an argument: the registry file
      and the tree under [raw-output] of each cost pattern.  Names are
      ASCII strings.
    - Plotting, logging handlers and CSV writing are external and are
      taken to succeed on the data computed for them, except that a frame
      without a column is refused by the plotting call; the drivers keep
      the log lines of [main] and the names of the files written. *)

From Stdlib Require Import ZArith QArith Qround String Ascii List Lia.
From stdpp Require Import base option list strings gmap.

Local Open Scope string_scope.
Local Open Scope list_scope.

(** ** Exceptions and results *)

Inductive exn :=
  | KeyError (key : string)
  | IndexError
  | ValueError (msg : string)
  | TypeError (msg : string)
  | OutOfBoundsDatetime
  | FileNotFoundError
  | NotADirectoryError
  | JSONDecodeError
  | ReadError.

Inductive Result (A : Type) :=
  | Ok (a : A)
  | Raise (e : exn).
Arguments Ok {A} a.
Arguments Raise {A} e.

Definition rbind {A B} (m : Result A) (k : A -> Result B) : Result B :=
  match m with
  | Ok a => k a
  | Raise e => Raise e
  end.

#[global] Instance Result_ret : MRet Result := fun _ a => Ok a.
#[global] Instance Result_bind : MBind Result := fun _ _ k m => rbind m k.

Definition is_ok {A} (m : Result A) : bool :=
  match m with Ok _ => true | Raise _ => false end.

(** ** Cells and numbers *)

Inductive cell :=
  | NaN
  | Num (q : Q)
  | Str (s : string).

Definition is_nan (c : cell) : bool :=
  match c with NaN => true | _ => false end.

(** [==] on two cells: NaN equals nothing, numbers compare by value. *)
Definition cell_eqb (a b : cell) : bool :=
  match a, b with
  | Num x, Num y => Qeq_bool x y
  | Str x, Str y => String.eqb x y
  | _, _ => false
  end.

(** Order used to sort group keys: numbers before strings. *)
Definition cell_leb (a b : cell) : bool :=
  match a, b with
  | NaN, _ => true
  | Num _, NaN => false
  | Num x, Num y => Qle_bool x y
  | Num _, Str _ => true
  | Str _, NaN => false
  | Str _, Num _ => false
  | Str x, Str y => String.leb x y
  end.

(** Rounding to the nearest integer, ties to even (numpy's [round]). *)
Definition round_half_even (q : Q) : Z :=
  let f := Qfloor q in
  match Qcompare (q - inject_Z f) (1 # 2) with
  | Lt => f
  | Gt => (f + 1)%Z
  | Eq => if Z.even f then f else (f + 1)%Z
  end.

(** [.round(4)] *)
Definition round4 (q : Q) : Q :=
  Qred (round_half_even (q * 10000) # 10000).

(** The multiple of 1/10000 nearest to the square root of [v] (ties to
    even), for [0 <= v]: the exact value of [sqrt(v).round(4)]. *)
Definition sqrt_round4 (v : Q) : Q :=
  let x := (v * 100000000)%Q in
  let k := Z.sqrt (Qfloor x) in
  let up :=
    match Qcompare (4 * x) (inject_Z ((2 * k + 1) * (2 * k + 1))) with
    | Lt => false
    | Gt => true
    | Eq => negb (Z.even k)
    end in
  Qred ((if up then k + 1 else k)%Z # 10000).

Definition Qsum (xs : list Q) : Q := fold_right Qplus 0%Q xs.

Definition Qlen (xs : list Q) : Q := inject_Z (Z.of_nat (length xs)).

Definition Qmean (xs : list Q) : Q := (Qsum xs / Qlen xs)%Q.

(** Sample variance, [ddof = 1]. *)
Definition Qvar (xs : list Q) : Q :=
  let m := Qmean xs in
  (Qsum (map (fun x => (x - m) * (x - m))%Q xs) / (Qlen xs - 1))%Q.

(** ** Data frames *)

Abbreviation row := (gmap string cell).

Record DataFrame := mkDF {
  columns : list string;
  rows : list row
}.

Definition get_cell (r : row) (c : string) : cell := default NaN (r !! c).

Definition has_column (df : DataFrame) (c : string) : bool :=
  bool_decide (c ∈ columns df).

(** [df[c] = v] with a scalar [v]. *)
Definition set_column (c : string) (v : cell) (df : DataFrame) : DataFrame :=
  {| columns := if has_column df c then columns df else columns df ++ [c];
     rows := map (fun r : row => <[c := v]> r) (rows df) |}.

(** Keys of a dict built by inserting [l] in order: first occurrences. *)
Fixpoint dict_keys (l : list string) : list string :=
  match l with
  | [] => []
  | x :: l' => x :: filter (fun y => y ≠ x) (dict_keys l')
  end.

(** [pd.concat(dfs, ignore_index=True)] *)
Definition concat_frames (dfs : list DataFrame) : DataFrame :=
  {| columns := dict_keys (concat (map columns dfs));
     rows := concat (map rows dfs) |}.

(** [df[mask]] *)
Definition filter_rows (p : row -> bool) (df : DataFrame) : DataFrame :=
  {| columns := columns df; rows := List.filter p (rows df) |}.

(** ** Grouping *)

Definition row_key (keys : list string) (r : row) : list cell :=
  map (get_cell r) keys.

Fixpoint key_eqb (k1 k2 : list cell) : bool :=
  match k1, k2 with
  | [], [] => true
  | a :: k1', b :: k2' => cell_eqb a b && key_eqb k1' k2'
  | _, _ => false
  end.

(** Lexicographic order on key tuples. *)
Fixpoint key_leb (k1 k2 : list cell) : bool :=
  match k1, k2 with
  | [], _ => true
  | _ :: _, [] => false
  | a :: k1', b :: k2' =>
      if cell_eqb a b then key_leb k1' k2' else cell_leb a b
  end.

(** Rows with a NaN in a key are dropped ([dropna=True]). *)
Definition key_valid (k : list cell) : bool := forallb (fun c => negb (is_nan c)) k.

Fixpoint distinct_keys (ks : list (list cell)) : list (list cell) :=
  match ks with
  | [] => []
  | k :: ks' => k :: List.filter (fun k' => negb (key_eqb k k')) (distinct_keys ks')
  end.

Fixpoint insert_key (k : list cell) (ks : list (list cell)) : list (list cell) :=
  match ks with
  | [] => [k]
  | k' :: ks' => if key_leb k k' then k :: ks else k' :: insert_key k ks'
  end.

(** [sort=True] *)
Definition sort_keys (ks : list (list cell)) : list (list cell) :=
  fold_right insert_key [] ks.

Definition group_rows (keys : list string) (k : list cell) (rs : list row) : list row :=
  List.filter (fun r => key_eqb k (row_key keys r)) rs.

Definition group_keys_of (keys : list string) (rs : list row) : list (list cell) :=
  sort_keys (distinct_keys (List.filter key_valid (map (row_key keys) rs))).

(** The index of a grouping: one named level per key column, or a single
    level without a name when the rows are grouped by an array of labels. *)
Inductive Index :=
  | NamedLevels (names : list string)
  | UnnamedLevel.

Definition level_names (i : Index) : list string :=
  match i with
  | NamedLevels names => names
  | UnnamedLevel => []
  end.

Record GroupBy := mkGroupBy {
  gb_index : Index;
  gb_columns : list string;
  gb_groups : list (list cell * list row)
}.

(** The key columns of a grouping: they are left out of its values. *)
Definition gb_keys (g : GroupBy) : list string := level_names (gb_index g).

(** [df.groupby(key)] for one column name: one group per distinct value
    of the column, groups sorted by key, rows of a group in table order. *)
Definition groupby_column (df : DataFrame) (key : string) : Result GroupBy :=
  if has_column df key
  then Ok {| gb_index := NamedLevels [key];
             gb_columns := columns df;
             gb_groups :=
               map (fun k => (k, group_rows [key] k (rows df)))
                   (group_keys_of [key] (rows df)) |}
  else Raise (KeyError key).

(** The groups of the rows by an array of labels, one label per row. *)
Definition label_groups (labels : list string) (rs : list row)
    : list (list cell * list row) :=
  map (fun k => (k, map snd (List.filter (fun p : string * row => key_eqb k [Str p.1])
                                         (zip labels rs))))
      (sort_keys (distinct_keys (map (fun l => [Str l]) labels))).

(** [df.groupby(keys)] for a list of names.  A list as long as the frame
    with a name that is not a column is read as an array of row labels:
    row [i] goes to the group of [keys[i]], and the index has no name.
    Otherwise every name must be a column, and there is one group per
    distinct key tuple, groups sorted by key, rows of a group in table
    order.  An empty list is refused unless the frame has no row. *)
Definition groupby (df : DataFrame) (keys : list string) : Result GroupBy :=
  if (length keys =? length (rows df))%nat && negb (forallb (has_column df) keys)
  then Ok {| gb_index := UnnamedLevel;
             gb_columns := columns df;
             gb_groups := label_groups keys (rows df) |}
  else
    match keys with
    | [] =>
        match rows df with
        | [] => Ok {| gb_index := UnnamedLevel; gb_columns := columns df; gb_groups := [] |}
        | _ => Raise (ValueError "No group keys passed!")
        end
    | _ =>
        match List.find (fun k => negb (has_column df k)) keys with
        | Some k => Raise (KeyError k)
        | None =>
            Ok {| gb_index := NamedLevels keys;
                  gb_columns := columns df;
                  gb_groups :=
                    map (fun k => (k, group_rows keys k (rows df)))
                        (group_keys_of keys (rows df)) |}
        end
    end.

(** ** Aggregation: mean and sample standard deviation *)

(** The numeric values of a column, NaN skipped; a string is a type error. *)
Fixpoint numeric_values (cs : list cell) : Result (list Q) :=
  match cs with
  | [] => Ok []
  | NaN :: cs' => numeric_values cs'
  | Num q :: cs' => xs ← numeric_values cs'; Ok (q :: xs)
  | Str _ :: _ => Raise (TypeError "agg function failed")
  end.

Definition agg_mean (xs : list Q) : cell :=
  match xs with
  | [] => NaN
  | _ => Num (round4 (Qmean xs))
  end.

(** Fewer than two values: undefined. *)
Definition agg_std (xs : list Q) : cell :=
  match xs with
  | [] | [_] => NaN
  | _ => Num (sqrt_round4 (Qvar xs))
  end.

Record MetricAgg := mkMetricAgg {
  metric : string;
  mean : cell;
  std : cell
}.

Record AggRow := mkAggRow {
  group_key : list cell;
  metrics_of : list MetricAgg
}.

Record AggTable := mkAggTable {
  agg_index : Index;
  agg_rows : list AggRow
}.

(** The names of the index levels of an aggregate: the key columns. *)
Definition index_names (t : AggTable) : list string := level_names (agg_index t).

Definition agg_metric (rs : list row) (col : string) : Result MetricAgg :=
  xs ← numeric_values (map (fun r => get_cell r col) rs);
  Ok {| metric := col; mean := agg_mean xs; std := agg_std xs |}.

Fixpoint mapM {A B} (f : A -> Result B) (l : list A) : Result (list B) :=
  match l with
  | [] => Ok []
  | x :: l' => y ← f x; ys ← mapM f l'; Ok (y :: ys)
  end.

(** [.agg({col: ['mean', 'std'] ...}).round(4)]; a requested column must
    be a column of the frame. *)
Definition agg_mean_std (g : GroupBy) (agg_dict : list string) : Result AggTable :=
  match agg_dict with
  | [] => Raise (ValueError "No objects to concatenate")
  | _ =>
      match List.find (fun c => negb (bool_decide (c ∈ gb_columns g))) agg_dict with
      | Some c => Raise (KeyError c)
      | None =>
          rs ← mapM (fun kg : list cell * list row =>
                       ms ← mapM (agg_metric kg.2) agg_dict;
                       Ok {| group_key := kg.1; metrics_of := ms |})
                    (gb_groups g);
          Ok {| agg_index := gb_index g; agg_rows := rs |}
      end
  end.

(** ** State and exceptions

    A computation over a state [S] that may raise; the state reached
    before a raise survives it. *)

Definition ST (S A : Type) : Type := S -> S * Result A.

#[global] Instance ST_ret {S} : MRet (ST S) := fun _ a σ => (σ, Ok a).
#[global] Instance ST_bind {S} : MBind (ST S) := fun _ _ k m σ =>
  match m σ with
  | (σ', Ok a) => k a σ'
  | (σ', Raise e) => (σ', Raise e)
  end.

Definition lift {S A} (r : Result A) : ST S A := fun σ => (σ, r).

Definition modify {S} (f : S -> S) : ST S unit := fun σ => (f σ, Ok tt).

Definition when {S} (b : bool) (m : ST S unit) : ST S unit :=
  if b then m else mret tt.

(** [for x in l: body(x)] *)
Fixpoint for_each {S A} (l : list A) (body : A -> ST S unit) : ST S unit :=
  match l with
  | [] => mret tt
  | x :: l' => body x;; for_each l' body
  end.

(** ** The store of list objects *)

Definition loc := positive.
Abbreviation store := (gmap loc (list string)).
Definition M := ST store.

(** The list at a location (a location is always that of a list). *)
Definition deref (l : loc) (σ : store) : list string := default [] (σ !! l).

(** [x in l] *)
Definition py_in (x : string) (l : loc) : M bool :=
  fun σ => (σ, Ok (bool_decide (x ∈ deref l σ))).

(** [l.append(x)] *)
Definition py_append (l : loc) (x : string) : M unit :=
  fun σ => (<[l := deref l σ ++ [x]]> σ, Ok tt).

Definition py_read (l : loc) : M (list string) :=
  fun σ => (σ, Ok (deref l σ)).

(** ** Column access and the pandas helpers of the task statistics *)

(** [df[c]] *)
Definition column (df : DataFrame) (c : string) : Result (list cell) :=
  if has_column df c then Ok (map (fun r => get_cell r c) (rows df))
  else Raise (KeyError c).

(** Identity of two values as [unique()] sees it: NaN is one value. *)
Definition cell_same (a b : cell) : bool :=
  match a, b with
  | NaN, NaN => true
  | _, _ => cell_eqb a b
  end.

(** [Series.unique()]: the distinct values in order of first appearance. *)
Fixpoint unique (cs : list cell) : list cell :=
  match cs with
  | [] => []
  | c :: cs' => c :: List.filter (fun c' => negb (cell_same c c')) (unique cs')
  end.

(** The last non-null entry, NaN when there is none. *)
Fixpoint last_non_null (cs : list cell) : cell :=
  match cs with
  | [] => NaN
  | c :: cs' =>
      match last_non_null cs' with
      | NaN => c
      | c' => c'
      end
  end.

(** [GroupBy.last()]: per group and per non-key column the last non-null
    entry.  One row per group, in group order. *)
Definition groupby_last (g : GroupBy) : DataFrame :=
  let cols := List.filter (fun c => negb (bool_decide (c ∈ gb_keys g))) (gb_columns g) in
  {| columns := cols;
     rows := map (fun kg : list cell * list row =>
                    list_to_map (map (fun c => (c, last_non_null (map (fun r => get_cell r c) kg.2))) cols))
                 (gb_groups g) |}.

(** [Series.value_counts()]: the number of occurrences of each non-null
    value.  Only [.get] reads the result, so the order of the entries (by
    decreasing count in pandas) is left as the order of first appearance. *)
Definition value_counts (cs : list cell) : list (cell * nat) :=
  map (fun v => (v, length (List.filter (cell_eqb v) cs)))
      (unique (List.filter (fun c => negb (is_nan c)) cs)).

(** [Series.value_counts(normalize=True)]: each count over the number of
    non-null entries. *)
Definition value_counts_normalized (cs : list cell) : list (cell * Q) :=
  let counts := value_counts cs in
  let total := sum_list (map snd counts) in
  map (fun p : cell * nat =>
         (p.1, (inject_Z (Z.of_nat p.2) / inject_Z (Z.of_nat total))%Q))
      counts.

(** [counts.get(k, d)] *)
Definition counts_get (vc : list (cell * nat)) (k : cell) (d : nat) : nat :=
  match List.find (fun p : cell * nat => cell_eqb p.1 k) vc with
  | Some p => p.2
  | None => d
  end.

(** [a - b] on two entries *)
Definition cell_sub (a b : cell) : Result cell :=
  match a, b with
  | Str _, _ | _, Str _ => Raise (TypeError "unsupported operand type(s) for -")
  | Num x, Num y => Ok (Num (x - y))
  | _, _ => Ok NaN
  end.

Definition cell_div (c : cell) (d : Q) : cell :=
  match c with
  | Num x => Num (x / d)
  | _ => NaN
  end.

Fixpoint zipM (f : cell -> cell -> Result cell) (xs ys : list cell) : Result (list cell) :=
  match xs, ys with
  | x :: xs', y :: ys' => z ← f x y; zs ← zipM f xs' ys'; Ok (z :: zs)
  | _, _ => Ok []
  end.

(** A statistic of a series: NaN, a rational, or the square root of a
    rational (the standard deviation is not rounded here). *)
Inductive stat :=
  | SNaN
  | SRat (q : Q)
  | SSqrt (q : Q).

Fixpoint non_null_values (cs : list cell) : list Q :=
  match cs with
  | [] => []
  | Num q :: cs' => q :: non_null_values cs'
  | _ :: cs' => non_null_values cs'
  end.

Fixpoint Qinsert (x : Q) (xs : list Q) : list Q :=
  match xs with
  | [] => [x]
  | y :: xs' => if Qle_bool x y then x :: xs else y :: Qinsert x xs'
  end.

Definition Qsort (xs : list Q) : list Q := fold_right Qinsert [] xs.

Definition series_mean (cs : list cell) : stat :=
  match non_null_values cs with
  | [] => SNaN
  | xs => SRat (Qmean xs)
  end.

Definition series_median (cs : list cell) : stat :=
  let xs := Qsort (non_null_values cs) in
  let n := length xs in
  match xs with
  | [] => SNaN
  | _ =>
      if Nat.even n
      then SRat ((nth (n / 2 - 1) xs 0 + nth (n / 2) xs 0) / 2)%Q
      else SRat (nth (n / 2) xs 0%Q)
  end.

Definition series_std (cs : list cell) : stat :=
  match non_null_values cs with
  | [] | [_] => SNaN
  | xs => SSqrt (Qvar xs)
  end.

Definition series_min (cs : list cell) : stat :=
  match Qsort (non_null_values cs) with
  | [] => SNaN
  | x :: _ => SRat x
  end.

Definition series_max (cs : list cell) : stat :=
  match Qsort (non_null_values cs) with
  | [] => SNaN
  | x :: xs => SRat (List.last xs x)
  end.

(** [Series.empty] *)
Definition series_empty (cs : list cell) : bool :=
  match cs with [] => true | _ => false end.

(** ** Python strings *)

Definition is_digit (c : ascii) : bool :=
  ((48 <=? nat_of_ascii c) && (nat_of_ascii c <=? 57))%nat.

Definition digit_value (c : ascii) : Z := Z.of_nat (nat_of_ascii c) - 48.

(** The whitespace that [int()] strips (ASCII). *)
Definition is_space (c : ascii) : bool :=
  let n := nat_of_ascii c in
  ((n =? 32) || ((9 <=? n) && (n <=? 13)) || ((28 <=? n) && (n <=? 31)))%nat.

Fixpoint all_chars (p : ascii -> bool) (s : string) : bool :=
  match s with
  | EmptyString => true
  | String c s' => p c && all_chars p s'
  end.

(** [s.isdigit()]: true for a non-empty string of digits.  Names are
    ASCII; the digits of other scripts are not modelled. *)
Definition isdigit (s : string) : bool :=
  match s with
  | EmptyString => false
  | _ => all_chars is_digit s
  end.

Fixpoint lstrip (s : string) : string :=
  match s with
  | String c s' => if is_space c then lstrip s' else s
  | EmptyString => EmptyString
  end.

Fixpoint rstrip (s : string) : string :=
  match s with
  | EmptyString => EmptyString
  | String c s' =>
      match rstrip s' with
      | EmptyString => if is_space c then EmptyString else String c EmptyString
      | t => String c t
      end
  end.

(** Decimal digits, single underscores allowed between two digits. *)
Fixpoint parse_digits (s : string) (acc : Z) (after_digit : bool) : option Z :=
  match s with
  | EmptyString => if after_digit then Some acc else None
  | String c s' =>
      if is_digit c then parse_digits s' (acc * 10 + digit_value c) true
      else if Ascii.eqb c "_" && after_digit then parse_digits s' acc false
      else None
  end.

(** [int(s)] for a string: optional surrounding whitespace, an optional
    sign, decimal digits. *)
Definition py_int (s : string) : Result Z :=
  let t := rstrip (lstrip s) in
  let r :=
    match t with
    | String "+" t' => parse_digits t' 0 false
    | String "-" t' => Z.opp <$> parse_digits t' 0 false
    | _ => parse_digits t 0 false
    end in
  match r with
  | Some z => Ok z
  | None => Raise (ValueError "invalid literal for int() with base 10")
  end.

(** [needle in hay] *)
Fixpoint str_contains (needle hay : string) : bool :=
  String.prefix needle hay ||
  match hay with
  | EmptyString => false
  | String _ hay' => str_contains needle hay'
  end.

Definition lower_char (c : ascii) : ascii :=
  let n := nat_of_ascii c in
  if ((65 <=? n) && (n <=? 90))%nat then ascii_of_nat (n + 32) else c.

(** [s.lower()] (ASCII) *)
Fixpoint lower (s : string) : string :=
  match s with
  | EmptyString => EmptyString
  | String c s' => String (lower_char c) (lower s')
  end.

(** [s.split(sep)] for a one-character separator *)
Fixpoint split_char (sep : ascii) (s : string) : list string :=
  match s with
  | EmptyString => [EmptyString]
  | String c s' =>
      if Ascii.eqb c sep then EmptyString :: split_char sep s'
      else
        match split_char sep s' with
        | [] => [String c EmptyString]
        | t :: ts => String c t :: ts
        end
  end.

(** [os.path.basename(p)]: what follows the last slash *)
Definition basename (p : string) : string :=
  List.last (split_char "/" p) EmptyString.

(** [os.path.join(a, b)] *)
Definition path_join (a b : string) : string :=
  if String.prefix "/" b then b
  else
    match a with
    | EmptyString => b
    | _ => if String.eqb (basename a) "" then a +:+ b else a +:+ "/" +:+ b
    end.

(** [l[i]] *)
Definition list_index {A} (l : list A) (i : Z) : Result A :=
  let n := Z.of_nat (length l) in
  let j := (if i <? 0 then i + n else i)%Z in
  if ((0 <=? j) && (j <? n))%Z
  then match l !! Z.to_nat j with Some a => Ok a | None => Raise IndexError end
  else Raise IndexError.

(** [d[key]] on a JSON object, [None] standing for an absent key *)
Definition dict_get {A} (o : option A) (key : string) : Result A :=
  match o with
  | Some a => Ok a
  | None => Raise (KeyError key)
  end.

(** ** The registry and the run-output tree *)

(** An entry of [trackr.json]: the two nested objects the scripts read. *)
Record TopologyCfg := mkTopologyCfg { pathToFile : option string }.
Record PolicyCfg := mkPolicyCfg { policyType : option string }.
Record ScenarioInfo := mkScenarioInfo {
  topology : option TopologyCfg;
  allocationPolicy : option PolicyCfg
}.

Inductive TrackrFile :=
  | TrackrMissing
  | TrackrMalformed
  | TrackrLoaded (configs : list ScenarioInfo).

Inductive FileContent :=
  | Table (df : DataFrame)
  | Unreadable.

(** The files of a [seed=...] directory by name (none when the entry is
    not a directory). *)
Abbreviation SeedDir := (gmap string FileContent).

Inductive ScenarioNode :=
  | NotADirectory
  | ScenarioDir (entries : list (string * SeedDir)).

(** [<base>/cost_comparison/<pattern>/cost_experiment_<pattern>]: the
    registry file and the listing of [raw-output], in the order
    [os.listdir] yields it ([None] when the directory does not exist). *)
Record PatternDir := mkPatternDir {
  trackr : TrackrFile;
  raw_output : option (list (string * ScenarioNode))
}.

(** The file system, read only: base path and cost pattern to the
    pattern's directory. *)
Definition FS := string -> string -> PatternDir.

Definition pattern_path (base_path cost_pattern : string) : string :=
  path_join (path_join (path_join (path_join base_path "cost_comparison") cost_pattern)
                       ("cost_experiment_" +:+ cost_pattern)) "raw-output".

(** [os.listdir] *)
Definition listdir_root (d : PatternDir) : Result (list (string * ScenarioNode)) :=
  match raw_output d with
  | Some l => Ok l
  | None => Raise FileNotFoundError
  end.

Definition listdir (n : ScenarioNode) : Result (list (string * SeedDir)) :=
  match n with
  | ScenarioDir l => Ok l
  | NotADirectory => Raise NotADirectoryError
  end.

(** [pd.read_parquet] *)
Definition read_parquet (c : FileContent) : Result DataFrame :=
  match c with
  | Table df => Ok df
  | Unreadable => Raise ReadError
  end.

(** [int(seed_dir.split('=')[1])] *)
Definition seed_of (seed_dir : string) : Result Z :=
  s ← list_index (split_char "=" seed_dir) 1;
  py_int s.

(** * [Utils/util.py] *)

Module Util.

Definition read_trackr (fs : FS) (base_path cost_pattern : string)
    : Result (list ScenarioInfo) :=
  match trackr (fs base_path cost_pattern) with
  | TrackrMissing => Raise FileNotFoundError
  | TrackrMalformed => Raise JSONDecodeError
  | TrackrLoaded data => Ok data
  end.

(** [re.search(r'topology_(small|medium|large)', path)], then
    [match.group(1) if match else 'unknown'] *)
Fixpoint topology_of_path (path : string) : string :=
  if String.prefix "topology_small" path then "small"
  else if String.prefix "topology_medium" path then "medium"
  else if String.prefix "topology_large" path then "large"
  else
    match path with
    | EmptyString => "unknown"
    | String _ path' => topology_of_path path'
    end.

(** [scenario_info['allocationPolicy']['policyType']] *)
Definition scheduler_of (scenario_info : ScenarioInfo) : Result string :=
  policy ← dict_get (allocationPolicy scenario_info) "allocationPolicy";
  dict_get (policyType policy) "policyType".

(** The body of the loop over the seed directories; the state is [dfs]. *)
Definition read_seed (file_type topology scheduler scenario_num : string)
    (entry : string * SeedDir) : ST (list DataFrame) unit :=
  let '(seed_dir, files) := entry in
  if negb (String.prefix "seed=" seed_dir) then mret tt
  else
    match files !! (file_type +:+ ".parquet") with
    | None => mret tt
    | Some content =>
        df ← lift (read_parquet content);
        let df := set_column "topology" (Str topology) df in
        let df := set_column "scheduler" (Str scheduler) df in
        scenario ← lift (py_int scenario_num);
        let df := set_column "scenario" (Num (inject_Z scenario)) df in
        seed ← lift (seed_of seed_dir);
        let df := set_column "seed" (Num (inject_Z seed)) df in
        modify (fun dfs => dfs ++ [df])
    end.

(** The body of the loop over the entries of [raw-output]. *)
Definition read_scenario (trackr_data : list ScenarioInfo) (file_type : string)
    (entry : string * ScenarioNode) : ST (list DataFrame) unit :=
  let '(scenario_num, node) := entry in
  if negb (isdigit scenario_num) then mret tt
  else
    index ← lift (py_int scenario_num);
    scenario_info ← lift (list_index trackr_data index);
    topo ← lift (dict_get (topology scenario_info) "topology");
    path ← lift (dict_get (pathToFile topo) "pathToFile");
    let topology := topology_of_path path in
    scheduler ← lift (scheduler_of scenario_info);
    seeds ← lift (listdir node);
    for_each seeds (read_seed file_type topology scheduler scenario_num).

(** The loop of [read_parquet_files] over [entries], started on [dfs]. *)
Definition collect_tables (trackr_data : list ScenarioInfo) (file_type : string)
    (entries : list (string * ScenarioNode)) : ST (list DataFrame) unit :=
  for_each entries (read_scenario trackr_data file_type).

Definition read_parquet_files (fs : FS) (base_path cost_pattern file_type : string)
    : Result DataFrame :=
  trackr_data ← read_trackr fs base_path cost_pattern;
  entries ← listdir_root (fs base_path cost_pattern);
  match collect_tables trackr_data file_type entries [] with
  | (_, Raise e) => Raise e
  | ([], Ok _) =>
      Raise (ValueError ("No " +:+ file_type +:+ ".parquet files found for "
                         +:+ cost_pattern +:+ " pattern."))
  | (dfs, Ok _) => Ok (concat_frames dfs)
  end.

Definition get_scenario_label (topology cost_pattern scheduler : string) : string :=
  topology +:+ "_cost_" +:+ cost_pattern +:+ "_" +:+ scheduler.

Definition aggregate_runs (df : DataFrame) (group_cols : loc)
    (metric_cols : list string) : M AggTable :=
  let agg_dict := dict_keys metric_cols in
  b ← py_in "topology" group_cols;
  when (negb b && has_column df "topology") (py_append group_cols "topology");;
  b ← py_in "scheduler" group_cols;
  when (negb b && has_column df "scheduler") (py_append group_cols "scheduler");;
  keys ← py_read group_cols;
  lift (g ← groupby df keys; agg_mean_std g agg_dict).

(** [enumerate(l)] *)
Definition enumerate {A} (l : list A) : list (nat * A) := imap pair l.

(** [pd.DataFrame(records)] for dicts that all have the keys [keys]: a
    frame without any column when there is no record. *)
Definition frame_of_records (keys : list string) (records : list row) : DataFrame :=
  {| columns := match records with [] => [] | _ => keys end;
     rows := records |}.

(** The dict appended for entry [i] of the registry. *)
Definition mapping_entry (i : nat) (scenario : ScenarioInfo) : Result row :=
  topo ← dict_get (topology scenario) "topology";
  path ← dict_get (pathToFile topo) "pathToFile";
  let topology := topology_of_path path in
  scheduler ← scheduler_of scenario;
  Ok (list_to_map [("scenario", Num (inject_Z (Z.of_nat i)));
                   ("topology", Str topology);
                   ("scheduler", Str scheduler)]).

Definition get_experiment_mapping (fs : FS) (base_path cost_pattern : string)
    : Result DataFrame :=
  trackr_data ← read_trackr fs base_path cost_pattern;
  mapping ← mapM (fun p : nat * ScenarioInfo => mapping_entry p.1 p.2)
                 (enumerate trackr_data);
  Ok (frame_of_records ["scenario"; "topology"; "scheduler"] mapping).

End Util.

(** ** Logs, written files and exit status of the drivers *)

Inductive LogEntry :=
  | Info (msg : string)
  | Warning (msg : string)
  | Error (msg : string).

(** [str(e)] *)
Definition exn_message (e : exn) : string :=
  match e with
  | KeyError k => "'" +:+ k +:+ "'"
  | IndexError => "list index out of range"
  | ValueError msg => msg
  | TypeError msg => msg
  | OutOfBoundsDatetime => "cannot convert input with the unit 'ms'"
  | FileNotFoundError => "No such file or directory"
  | NotADirectoryError => "Not a directory"
  | JSONDecodeError => "Expecting value"
  | ReadError => "Could not open Parquet input source"
  end.

(** The status the interpreter exits with when [main()] returns or lets
    an exception escape. *)
Definition exit_status {A} (r : Result A) : Z :=
  match r with
  | Ok _ => 0
  | Raise _ => 1
  end.

(** [v in values] for an entry, as [isin] tests it *)
Definition isin (c : cell) (values : list string) : bool :=
  match c with
  | Str s => bool_decide (s ∈ values)
  | _ => false
  end.

Definition newline : string := String (ascii_of_nat 10) EmptyString.

(** * [analyze_experiments.py] *)

Module AnalyzeExperiments.

Definition VALID_SCHEDULERS : list string := ["CostEfficient"; "PredictiveCost"].

(** ** [ExperimentAnalyzer.analyze_task_completion] *)

Record TaskMetrics := mkTaskMetrics {
  total_tasks : nat;
  completion_rate : Q;
  termination_rate : Q;
  error_rate : Q;
  avg_completion_time : option stat;
  median_completion_time : option stat;
  std_completion_time : option stat;
  min_completion_time : option stat;
  max_completion_time : option stat
}.

(** [state_counts.get(state, 0) / total_tasks if total_tasks > 0 else 0] *)
Definition rate (count total : nat) : Q :=
  if (0 <? total)%nat
  then (inject_Z (Z.of_nat count) / inject_Z (Z.of_nat total))%Q
  else 0%Q.

Definition opt_stat (cs : list cell) (f : list cell -> stat) : option stat :=
  if negb (series_empty cs) then Some (f cs) else None.

(** The body of the loop over the scenario labels. *)
Definition scenario_metrics (task_df : DataFrame) (scenario : cell) : Result TaskMetrics :=
  _ ← column task_df "scenario_label";
  let scenario_tasks :=
    filter_rows (fun r => cell_eqb (get_cell r "scenario_label") scenario) task_df in
  g ← groupby_column scenario_tasks "task_id";
  let task_final_states := groupby_last g in
  states ← column task_final_states "task_state";
  let state_counts := value_counts states in
  let total := length (rows task_final_states) in
  let completed_tasks :=
    filter_rows (fun r => cell_eqb (get_cell r "task_state") (Str "COMPLETED"))
                task_final_states in
  completion_times ←
    (if (0 <? length (rows completed_tasks))%nat
     then
       f ← column completed_tasks "finish_time";
       c ← column completed_tasks "creation_time";
       d ← zipM cell_sub f c;
       Ok (map (fun x => cell_div x 1000) d)
     else Ok []);
  Ok {| total_tasks := total;
        completion_rate := rate (counts_get state_counts (Str "COMPLETED") 0) total;
        termination_rate := rate (counts_get state_counts (Str "TERMINATED") 0) total;
        error_rate := rate (counts_get state_counts (Str "ERROR") 0) total;
        avg_completion_time := opt_stat completion_times series_mean;
        median_completion_time := opt_stat completion_times series_median;
        std_completion_time := opt_stat completion_times series_std;
        min_completion_time := opt_stat completion_times series_min;
        max_completion_time := opt_stat completion_times series_max |}.

(** The data of the box plot for one scenario label: the completion
    times of the rows in state COMPLETED, when there are any. *)
Definition boxplot_times (task_df : DataFrame) (scenario : cell) : Result (list cell) :=
  _ ← column task_df "scenario_label";
  _ ← column task_df "task_state";
  let scenario_tasks :=
    filter_rows (fun r => cell_eqb (get_cell r "scenario_label") scenario
                          && cell_eqb (get_cell r "task_state") (Str "COMPLETED"))
                task_df in
  match rows scenario_tasks with
  | [] => Ok []
  | _ =>
      f ← column scenario_tasks "finish_time";
      c ← column scenario_tasks "creation_time";
      d ← zipM cell_sub f c;
      Ok (map (fun x => cell_div x 1000) d)
  end.

(** The data of the third chart for one scenario label: the final
    states of its tasks, each with its share of the tasks that have one. *)
Definition state_distribution (task_df : DataFrame) (scenario : cell)
    : Result (list (cell * Q)) :=
  _ ← column task_df "scenario_label";
  let scenario_tasks :=
    filter_rows (fun r => cell_eqb (get_cell r "scenario_label") scenario) task_df in
  g ← groupby_column scenario_tasks "task_id";
  final_states ← column (groupby_last g) "task_state";
  Ok (value_counts_normalized final_states).

(** The columns of the frame built from the state distributions: the
    states that occur in one of them. *)
Definition state_columns (state_distributions : list (list (cell * Q))) : list cell :=
  unique (concat (map (map fst) state_distributions)).

(** The statistics per scenario label, in the order of the labels' first
    appearance.  The frame built from them is read at ['completion_rate']
    for the first chart, which an empty frame does not have; the data of
    the box plot are computed next, then the state distributions of the
    third chart, and a frame without a column cannot be plotted.  Drawing
    the charts is external. *)
Definition analyze_task_completion (task_df : DataFrame)
    : Result (list (cell * TaskMetrics)) :=
  labels ← column task_df "scenario_label";
  let unique_scenarios := unique labels in
  scenario_stats ← mapM (fun s => m ← scenario_metrics task_df s; Ok (s, m))
                        unique_scenarios;
  match scenario_stats with
  | [] => Raise (KeyError "completion_rate")
  | _ =>
      _ ← mapM (boxplot_times task_df) unique_scenarios;
      state_distributions ← mapM (state_distribution task_df) unique_scenarios;
      match state_columns state_distributions with
      | [] => Raise (TypeError "no numeric data to plot")
      | _ => Ok scenario_stats
      end
  end.

(** ** [ExperimentAnalyzer.comparative_analysis] *)

Record ComparisonRow := mkComparisonRow {
  cmp_scenario_label : cell;
  cmp_topology : cell;
  cmp_scheduler : cell;
  cmp_avg_cost : cell;
  cmp_cost_std : cell;
  cmp_cpu_utilization : cell;
  cmp_cost_efficiency : cell;
  cmp_completion_rate : option Q
}.

(** [row[c]] for a row yielded by [iterrows()] *)
Definition row_get (df : DataFrame) (r : row) (c : string) : Result cell :=
  if has_column df c then Ok (get_cell r c) else Raise (KeyError c).

(** [label in completion_stats_df.index] and
    [completion_stats_df.loc[label, 'completion_rate']]; the frame of the
    statistics is indexed by the (string) scenario labels. *)
Definition lookup_completion_rate (completion_stats_df : gmap string TaskMetrics)
    (scen_label : cell) : option Q :=
  match scen_label with
  | Str s => completion_rate <$> completion_stats_df !! s
  | _ => None
  end.

Definition comparison_row (cost_metrics_df : DataFrame)
    (completion_stats_df : gmap string TaskMetrics) (r : row) : Result ComparisonRow :=
  scen_label ← row_get cost_metrics_df r "scenario_label";
  topology ← row_get cost_metrics_df r "topology";
  scheduler ← row_get cost_metrics_df r "scheduler";
  let comp_rate := lookup_completion_rate completion_stats_df scen_label in
  avg_cost ← row_get cost_metrics_df r "cost_mean";
  cost_std ← row_get cost_metrics_df r "cost_std";
  cpu ← row_get cost_metrics_df r "cpu_utilization_mean";
  eff ← row_get cost_metrics_df r "cost_efficiency";
  Ok {| cmp_scenario_label := scen_label;
        cmp_topology := topology;
        cmp_scheduler := scheduler;
        cmp_avg_cost := avg_cost;
        cmp_cost_std := cost_std;
        cmp_cpu_utilization := cpu;
        cmp_cost_efficiency := eff;
        cmp_completion_rate := comp_rate |}.

(** The comparison table; the bar charts drawn from it are external. *)
Definition comparative_analysis (cost_metrics_df : DataFrame)
    (completion_stats_df : gmap string TaskMetrics) : Result (list ComparisonRow) :=
  mapM (comparison_row cost_metrics_df completion_stats_df) (rows cost_metrics_df).

(** ** [ExperimentAnalyzer.__init__] *)

Record ExperimentAnalyzer := mkExperimentAnalyzer {
  base_path : string;
  cost_pattern : string;
  host_df : DataFrame;
  task_df : DataFrame;
  trackr_data : list ScenarioInfo
}.

(** [df[df[col].isin(values)]] *)
Definition keep_isin (col : string) (values : list string) (df : DataFrame)
    : Result DataFrame :=
  _ ← column df col;
  Ok (filter_rows (fun r => isin (get_cell r col) values) df).

(** [df[c] = f(row)] row by row *)
Definition assign (c : string) (f : row -> Result cell) (df : DataFrame)
    : Result DataFrame :=
  rs ← mapM (fun r : row => v ← f r; Ok (<[c := v]> r)) (rows df);
  Ok {| columns := if has_column df c then columns df else columns df ++ [c];
        rows := rs |}.

(** The instants of [datetime64[ns]], in milliseconds: those whose
    number of nanoseconds fits a signed 64-bit integer, the least one
    apart. *)
Definition in_datetime_range (ms : Q) : bool :=
  Qle_bool (inject_Z (- 9223372036854775807)) (ms * inject_Z 1000000)
  && Qle_bool (ms * inject_Z 1000000) (inject_Z 9223372036854775807).

(** [pd.to_datetime(x, unit='ms')] on an entry: the instant stays the
    number of milliseconds, and must be in range. *)
Definition to_datetime (c : cell) : Result cell :=
  match c with
  | Str _ => Raise (ValueError "non convertible value with the unit 'ms'")
  | Num ms => if in_datetime_range ms then Ok c else Raise OutOfBoundsDatetime
  | NaN => Ok c
  end.

(** [a + b] on strings, entry by entry *)
Definition str_add (a b : cell) : Result cell :=
  match a, b with
  | Str x, Str y => Ok (Str (x +:+ y))
  | Num _, _ | _, Num _ => Raise (TypeError "unsupported operand type(s) for +")
  | _, _ => Ok NaN
  end.

Definition add_datetime (df : DataFrame) : Result DataFrame :=
  _ ← column df "timestamp_absolute";
  assign "datetime" (fun r => to_datetime (get_cell r "timestamp_absolute")) df.

(** [df['topology'] + '_cost_' + pattern + '_' + df['scheduler']], summed
    from the left. *)
Definition add_scenario_label (pattern : string) (df : DataFrame) : Result DataFrame :=
  _ ← column df "topology";
  prefixes ← mapM (fun r : row =>
                     a ← str_add (get_cell r "topology") (Str "_cost_");
                     b ← str_add a (Str pattern);
                     str_add b (Str "_"))
                  (rows df);
  _ ← column df "scheduler";
  assign "scenario_label"
         (fun r =>
            a ← str_add (get_cell r "topology") (Str "_cost_");
            b ← str_add a (Str pattern);
            c ← str_add b (Str "_");
            str_add c (get_cell r "scheduler"))
         df.

Definition ExperimentAnalyzer_init (fs : FS) (base_path cost_pattern : string)
    : Result ExperimentAnalyzer :=
  host ← Util.read_parquet_files fs base_path cost_pattern "host";
  task ← Util.read_parquet_files fs base_path cost_pattern "task";
  host ← keep_isin "scheduler" VALID_SCHEDULERS host;
  task ← keep_isin "scheduler" VALID_SCHEDULERS task;
  trackr ← Util.read_trackr fs base_path cost_pattern;
  host ← add_datetime host;
  task ← add_datetime task;
  host ← add_scenario_label cost_pattern host;
  task ← add_scenario_label cost_pattern task;
  Ok {| base_path := base_path; cost_pattern := cost_pattern;
        host_df := host; task_df := task; trackr_data := trackr |}.

(** ** [main] *)

Record World := mkWorld {
  log : list LogEntry;
  files : list string
}.

Definition logger (e : LogEntry) : ST World unit :=
  modify (fun w => {| log := log w ++ [e]; files := files w |}).

(** [table.to_csv(name)] *)
Definition to_csv (name : string) : ST World unit :=
  modify (fun w => {| log := log w; files := files w ++ [name] |}).

(** [pd.DataFrame.from_dict(scenario_stats, orient='index')]: the frame
    indexed by the scenario labels. *)
Definition stats_frame (scenario_stats : list (cell * TaskMetrics))
    : gmap string TaskMetrics :=
  list_to_map (omap (fun p : cell * TaskMetrics =>
                       match p.1 with Str s => Some (s, p.2) | _ => None end)
                    (rev scenario_stats)).

Definition patterns : list string := ["stable"; "volatile"; "diurnal"; "spike"].

Section Main.

Variable fs : FS.
(** The two stages that aggregate and draw the host metrics. *)
Variable analyze_resource_utilization : ExperimentAnalyzer -> Result DataFrame.
Variable analyze_cost_metrics : ExperimentAnalyzer -> Result DataFrame.

(** The body of the loop over the cost patterns. *)
Definition analyze_pattern (pattern : string) : ST World unit :=
  logger (Info (newline +:+ "Analyzing '" +:+ pattern +:+ "' cost pattern..."));;
  analyzer ← lift (ExperimentAnalyzer_init fs "output" pattern);
  _ ← lift (analyze_resource_utilization analyzer);
  cost_stats ← lift (analyze_cost_metrics analyzer);
  task_stats ← lift (analyze_task_completion (task_df analyzer));
  _ ← lift (comparative_analysis cost_stats (stats_frame task_stats));
  logger (Info ("Saving results for '" +:+ pattern +:+ "' pattern..."));;
  to_csv ("results/" +:+ pattern +:+ "_resource_stats.csv");;
  to_csv ("results/" +:+ pattern +:+ "_cost_stats.csv");;
  to_csv ("results/" +:+ pattern +:+ "_task_stats.csv");;
  to_csv ("results/" +:+ pattern +:+ "_comparison.csv").

(** [try: body except Exception as e: logger.error(...); raise] *)
Definition log_and_reraise (body : ST World unit) : ST World unit :=
  fun w =>
    match body w with
    | (w', Raise e) =>
        ({| log := log w' ++ [Error ("Error in main analysis: " +:+ exn_message e)];
            files := files w' |}, Raise e)
    | r => r
    end.

Definition main : ST World unit :=
  log_and_reraise (
    logger (Info "Starting experiment analysis (main)...");;
    for_each patterns analyze_pattern;;
    logger (Info "Analysis completed successfully.")).

End Main.

(** ** [analyze_resource_utilization] and [analyze_cost_metrics]

    Both aggregate the host table with [aggregate_runs], passing a fresh
    list of keys, turn the index of the aggregate into columns and
    flatten the two-level column labels. *)

(** The column labels of [agg.reset_index()]: a pair [(level, "")] for
    each index level, then [(metric, "mean")] and [(metric, "std")] for
    each aggregated column.  A level without a name is called [index], or
    [level_0] when [index] is taken. *)
Definition reset_index_columns (agg : AggTable) (agg_dict : list string)
    : list (string * string) :=
  match agg_index agg with
  | NamedLevels names => map (fun k => (k, "")) names
  | UnnamedLevel => [(if bool_decide ("index" ∈ agg_dict) then "level_0" else "index", "")]
  end
  ++ flat_map (fun m => [(m, "mean"); (m, "std")]) agg_dict.

(** The entries of a row of [agg.reset_index()], in column order. *)
Definition reset_index_values (r : AggRow) : list cell :=
  group_key r ++ flat_map (fun m => [mean m; std m]) (metrics_of r).

(** The loop over the column labels: [f"{col[0]}_{col[1]}"] when the
    second level is not empty, [f"{col[0]}"] otherwise. *)
Definition flatten_columns (cols : list (string * string)) : list string :=
  map (fun col : string * string =>
         if negb (String.eqb col.2 "") then col.1 +:+ "_" +:+ col.2 else col.1)
      cols.

(** [agg.reset_index()] with its columns renamed to the flattened
    labels.  The aggregated columns are those of [agg_dict]; at both call
    sites the flattened labels are pairwise distinct. *)
Definition reset_and_flatten (agg : AggTable) (agg_dict : list string) : DataFrame :=
  let new_columns := flatten_columns (reset_index_columns agg agg_dict) in
  {| columns := new_columns;
     rows := map (fun r => list_to_map (zip new_columns (reset_index_values r)))
                 (agg_rows agg) |}.

(** [aggregate_runs(df, keys, metrics)] called with a list literal: the
    list object is the caller's only for the call. *)
Definition aggregate_fresh (df : DataFrame) (keys metrics : list string)
    : Result AggTable :=
  (Util.aggregate_runs df 1%positive metrics {[ 1%positive := keys ]}).2.

Definition analyze_resource_utilization (self : ExperimentAnalyzer) : Result DataFrame :=
  let util_metrics := ["cpu_utilization"; "guests_running"; "cpu_time_steal"] in
  avg_utils ← aggregate_fresh (host_df self) ["scenario_label"; "datetime"] util_metrics;
  let avg_utils_reset := reset_and_flatten avg_utils util_metrics in
  if negb (has_column avg_utils_reset "scenario_label")
  then Raise (KeyError "'scenario_label' column is missing after flattening.")
  else
    labels ← column avg_utils_reset "scenario_label";
    _ ← mapM (fun label =>
                let scenario_data :=
                  filter_rows (fun r => cell_eqb (get_cell r "scenario_label") label)
                              avg_utils_reset in
                _ ← column scenario_data "datetime";
                column scenario_data "cpu_utilization_mean")
             (unique labels);
    Ok avg_utils_reset.

(** A float that may be infinite.  The sign of an infinity depends on
    the sign of a zero, which rationals do not have. *)
Inductive xfloat :=
  | XNaN
  | XInf
  | XNum (q : Q).

(** [a / b] on two entries of float columns: a null gives a null, a zero
    divisor an infinity, or a null for [0 / 0]. *)
Definition float_div (a b : cell) : Result xfloat :=
  match a, b with
  | Str _, _ | _, Str _ => Raise (TypeError "unsupported operand type(s) for /")
  | Num x, Num y =>
      if Qeq_bool y 0 then Ok (if Qeq_bool x 0 then XNaN else XInf)
      else Ok (XNum (x / y))
  | _, _ => Ok XNaN
  end.

Fixpoint zip_div (xs ys : list cell) : Result (list xfloat) :=
  match xs, ys with
  | x :: xs', y :: ys' => z ← float_div x y; zs ← zip_div xs' ys'; Ok (z :: zs)
  | _, _ => Ok []
  end.

(** The frame [analyze_cost_metrics] returns: the flattened aggregate
    and, apart, the column [cost_efficiency] added to it, whose entries a
    [cell] cannot hold. *)
Record CostMetrics := mkCostMetrics {
  avg_costs_reset : DataFrame;
  cost_efficiency : list xfloat
}.

Definition analyze_cost_metrics (self : ExperimentAnalyzer) : Result CostMetrics :=
  let cost_metrics := ["cost"; "cpu_utilization"] in
  avg_costs ← aggregate_fresh (host_df self) ["scenario_label"; "topology"; "scheduler"]
                              cost_metrics;
  let avg_costs_reset := reset_and_flatten avg_costs cost_metrics in
  let required_cols := ["cpu_utilization_mean"; "cpu_utilization_std";
                        "cost_mean"; "cost_std"] in
  match List.find (fun rc => negb (has_column avg_costs_reset rc)) required_cols with
  | Some rc =>
      Raise (KeyError ("Required column '" +:+ rc +:+ "' is missing after flattening."))
  | None =>
      cpu ← column avg_costs_reset "cpu_utilization_mean";
      cost ← column avg_costs_reset "cost_mean";
      efficiency ← zip_div cpu cost;
      _ ← column avg_costs_reset "scenario_label";
      _ ← column avg_costs_reset "cost_mean";
      _ ← column avg_costs_reset "cost_std";
      _ ← mapM (fun r : row =>
                  _ ← row_get avg_costs_reset r "scenario_label";
                  _ ← row_get avg_costs_reset r "topology";
                  _ ← row_get avg_costs_reset r "scheduler";
                  _ ← row_get avg_costs_reset r "cost_mean";
                  row_get avg_costs_reset r "cost_std")
               (rows avg_costs_reset);
      Ok {| avg_costs_reset := avg_costs_reset; cost_efficiency := efficiency |}
  end.

End AnalyzeExperiments.

(** * [more_analysis.py] *)

Module MoreAnalysis.

(** [config.get('allocationPolicy', {}).get('policyType', 'Unknown')] *)
Definition scheduler_label_of (config : ScenarioInfo) : string :=
  match allocationPolicy config with
  | Some policy => default "Unknown" (policyType policy)
  | None => "Unknown"
  end.

(** [config.get('topology', {}).get('pathToFile', '')] *)
Definition topology_path_of (config : ScenarioInfo) : string :=
  match topology config with
  | Some topo => default "" (pathToFile topo)
  | None => ""
  end.

(** The registry entry of the scenario directory [scenario_path], when
    [trackr.json] exists and the directory's number is below the number of
    entries.  [trackr_file] is the file two levels above [scenario_path]. *)
Definition registry_entry (trackr_file : TrackrFile) (scenario_path : string)
    : Result (option ScenarioInfo) :=
  match trackr_file with
  | TrackrMissing => Ok None
  | TrackrMalformed => Raise JSONDecodeError
  | TrackrLoaded configs =>
      scenario_num ← py_int (basename scenario_path);
      if (scenario_num <? Z.of_nat (length configs))%Z
      then config ← list_index configs scenario_num; Ok (Some config)
      else Ok None
  end.

Definition scheduler_from_path (scenario_path : string) : string :=
  if str_contains "simplecost" (lower scenario_path) then "SimpleCost"
  else if str_contains "costefficient" (lower scenario_path) then "CostEfficient"
  else if str_contains "predictivecost" (lower scenario_path) then "PredictiveCost"
  else "Unknown".

Definition get_scheduler_info (trackr_file : TrackrFile) (scenario_path : string) : string :=
  match registry_entry trackr_file scenario_path with
  | Ok (Some config) => scheduler_label_of config
  | Ok None => scheduler_from_path scenario_path
  | Raise _ => "Unknown"
  end.

Definition size_from (s : string) : option string :=
  if str_contains "small" (lower s) then Some "small"
  else if str_contains "medium" (lower s) then Some "medium"
  else if str_contains "large" (lower s) then Some "large"
  else None.

Definition parse_topology_size (trackr_file : TrackrFile) (scenario_path : string) : string :=
  let from_registry :=
    match registry_entry trackr_file scenario_path with
    | Ok (Some config) => size_from (topology_path_of config)
    | _ => None
    end in
  match from_registry with
  | Some size => size
  | None => default "unknown" (size_from scenario_path)
  end.

(** [try: body except Exception: continue] around a loop body: what the
    body did before it raised stays done. *)
Definition catch {S} (body : ST S unit) : ST S unit :=
  fun σ => ((body σ).1, Ok tt).

(** Reading and tagging one table. *)
Definition load_table (trackr_file : TrackrFile) (scenario_path scenario seed_dir : string)
    (content : FileContent) : Result DataFrame :=
  df ← read_parquet content;
  let df := set_column "scheduler" (Str (get_scheduler_info trackr_file scenario_path)) df in
  let df := set_column "topology" (Str (parse_topology_size trackr_file scenario_path)) df in
  n ← py_int scenario;
  let df := set_column "scenario" (Num (inject_Z n)) df in
  seed ← seed_of seed_dir;
  Ok (set_column "seed" (Num (inject_Z seed)) df).

(** The state of the loops of [load_data]: [(host_dfs, task_dfs)]. *)
Definition Loaded : Type := list DataFrame * list DataFrame.

Definition load_seed (trackr_file : TrackrFile) (scenario_path scenario : string)
    (entry : string * SeedDir) : ST Loaded unit :=
  let '(seed_dir, files) := entry in
  if negb (String.prefix "seed=" seed_dir) then mret tt
  else
    catch (
      match files !! "host.parquet" with
      | Some content =>
          df ← lift (load_table trackr_file scenario_path scenario seed_dir content);
          modify (fun s : Loaded => (s.1 ++ [df], s.2))
      | None => mret tt
      end;;
      match files !! "task.parquet" with
      | Some content =>
          df ← lift (load_table trackr_file scenario_path scenario seed_dir content);
          modify (fun s : Loaded => (s.1, s.2 ++ [df]))
      | None => mret tt
      end).

Definition load_scenario (trackr_file : TrackrFile) (root : string)
    (entry : string * ScenarioNode) : ST Loaded unit :=
  let '(scenario, node) := entry in
  if negb (isdigit scenario) then mret tt
  else
    let scenario_path := path_join root scenario in
    seeds ← lift (listdir node);
    for_each seeds (load_seed trackr_file scenario_path scenario).

Definition load_data (fs : FS) (base_path cost_pattern : string)
    : Result (DataFrame * DataFrame) :=
  let dir := fs base_path cost_pattern in
  match raw_output dir with
  | None => Raise FileNotFoundError
  | Some entries =>
      match for_each entries
              (load_scenario (trackr dir) (pattern_path base_path cost_pattern))
              ([], []) with
      | (_, Raise e) => Raise e
      | ((host_dfs, task_dfs), Ok _) =>
          match host_dfs, task_dfs with
          | [], _ | _, [] => Raise (ValueError "No data loaded")
          | _, _ => Ok (concat_frames host_dfs, concat_frames task_dfs)
          end
      end
  end.

Definition EXCLUDED : list string := ["SimpleCost"; "Unknown"].

(** [df[~df[col].isin(values)]] *)
Definition drop_isin (col : string) (values : list string) (df : DataFrame)
    : Result DataFrame :=
  _ ← column df col;
  Ok (filter_rows (fun r => negb (isin (get_cell r col) values)) df).

(** ** [analyze_task_completion] *)

(** A row of the frame of completion metrics. *)
Record CompletionMetrics := mkCompletionMetrics {
  cm_scheduler : cell;
  cm_topology : cell;
  cm_total_tasks : nat;
  cm_completed_tasks : nat;
  cm_completion_rate : Q;
  cm_avg_completion_time : stat;
  cm_median_completion_time : stat;
  cm_std_completion_time : stat
}.

(** The values of an array, unless one of them is NaN. *)
Fixpoint array_values (cs : list cell) : option (list Q) :=
  match cs with
  | [] => Some []
  | Num q :: cs' => cons q <$> array_values cs'
  | _ :: _ => None
  end.

(** Population variance ([np.std] has [ddof = 0]). *)
Definition Qpvar (xs : list Q) : Q :=
  let m := Qmean xs in
  (Qsum (map (fun x => (x - m) * (x - m))%Q xs) / Qlen xs)%Q.

Definition median_of (xs : list Q) : Q :=
  let sorted := Qsort xs in
  let n := length sorted in
  if Nat.even n
  then ((nth (n / 2 - 1) sorted 0 + nth (n / 2) sorted 0) / 2)%Q
  else nth (n / 2) sorted 0%Q.

(** [np.f(a) if len(a) > 0 else np.nan]; a NaN in the array makes the
    result NaN. *)
Definition np_stat (f : list Q -> stat) (cs : list cell) : stat :=
  match cs with
  | [] => SNaN
  | _ =>
      match array_values cs with
      | Some xs => f xs
      | None => SNaN
      end
  end.

(** [group[c]] inside the loop over the groups *)
Definition group_column (cols : list string) (c : string) : Result unit :=
  if bool_decide (c ∈ cols) then Ok tt else Raise (KeyError c).

(** [(scheduler, topology) = key] for the key of a group: a key of two
    levels is a pair; a label of an unnamed level is a string, which
    unpacks character by character. *)
Definition unpack_pair (index : Index) (key : list cell) : Result (cell * cell) :=
  match index, key with
  | NamedLevels _, [a; b] => Ok (a, b)
  | UnnamedLevel, [Str (String a (String b EmptyString))] =>
      Ok (Str (String a EmptyString), Str (String b EmptyString))
  | _, _ => Raise (ValueError "wrong number of values to unpack (expected 2)")
  end.

(** The body of the loop over the groups. *)
Definition group_metrics (index : Index) (cols : list string) (kg : list cell * list row)
    : Result CompletionMetrics :=
  key ← unpack_pair index kg.1;
  let group := kg.2 in
  _ ← group_column cols "task_state";
  let completed :=
    List.filter (fun r : row => cell_eqb (get_cell r "task_state") (Str "COMPLETED")) group in
  _ ← group_column cols "finish_time";
  _ ← group_column cols "creation_time";
  d ← zipM cell_sub (map (fun r : row => get_cell r "finish_time") completed)
                    (map (fun r : row => get_cell r "creation_time") completed);
  let completion_times := map (fun x => cell_div x 1000) d in
  Ok {| cm_scheduler := key.1;
        cm_topology := key.2;
        cm_total_tasks := length group;
        cm_completed_tasks := length completed;
        cm_completion_rate :=
          (inject_Z (Z.of_nat (length completed)) / inject_Z (Z.of_nat (length group))
           * 100)%Q;
        cm_avg_completion_time := np_stat (fun xs => SRat (Qmean xs)) completion_times;
        cm_median_completion_time := np_stat (fun xs => SRat (median_of xs)) completion_times;
        cm_std_completion_time := np_stat (fun xs => SSqrt (Qpvar xs)) completion_times |}.

(** The frame of the metrics, one row per (scheduler, topology) group;
    the empty frame when anything raised. *)
Definition analyze_task_completion (task_df : DataFrame) : list CompletionMetrics :=
  let body : Result (list CompletionMetrics) :=
    task_df ← drop_isin "scheduler" EXCLUDED task_df;
    g ← groupby task_df ["scheduler"; "topology"];
    mapM (group_metrics (gb_index g) (gb_columns g)) (gb_groups g) in
  match body with
  | Ok metrics => metrics
  | Raise _ => []
  end.

(** [frame['pattern'] = pattern] on the frame of the metrics *)
Definition with_pattern (pattern : string) (metrics : list CompletionMetrics)
    : list (string * CompletionMetrics) :=
  map (fun m => (pattern, m)) metrics.

(** ** [main] *)

Record MainState := mkMainState {
  log : list LogEntry;
  all_efficiency_metrics : list DataFrame;
  all_completion_metrics : list (list (string * CompletionMetrics));
  files : list string
}.

Definition logger (e : LogEntry) : ST MainState unit :=
  modify (fun s => {| log := log s ++ [e];
                      all_efficiency_metrics := all_efficiency_metrics s;
                      all_completion_metrics := all_completion_metrics s;
                      files := files s |}).

Definition append_efficiency (df : DataFrame) : ST MainState unit :=
  modify (fun s => {| log := log s;
                      all_efficiency_metrics := all_efficiency_metrics s ++ [df];
                      all_completion_metrics := all_completion_metrics s;
                      files := files s |}).

Definition append_completion (metrics : list (string * CompletionMetrics))
    : ST MainState unit :=
  modify (fun s => {| log := log s;
                      all_efficiency_metrics := all_efficiency_metrics s;
                      all_completion_metrics := all_completion_metrics s ++ [metrics];
                      files := files s |}).

Definition write_files (names : list string) : ST MainState unit :=
  modify (fun s => {| log := log s;
                      all_efficiency_metrics := all_efficiency_metrics s;
                      all_completion_metrics := all_completion_metrics s;
                      files := files s ++ names |}).

Definition patterns : list string := ["diurnal"; "spike"; "stable"; "volatile"].

Section Main.

Variable fs : FS.
(** The stages below catch every exception themselves: the calculator
    of the efficiency metrics returns a (possibly empty) frame, the two
    writers return the names of the files they managed to write.  The
    cross-pattern stage may raise, after writing some files.  Of the log,
    the lines of [main] itself are kept, without the table shapes and the
    tracebacks. *)
Variable calculate_efficiency_metrics : DataFrame -> DataFrame.
Variable create_visualizations :
  DataFrame -> list (string * CompletionMetrics) -> string -> list string.
Variable save_results :
  DataFrame -> list (string * CompletionMetrics) -> string -> list string.
Variable cross_pattern_analysis :
  list DataFrame -> list (list (string * CompletionMetrics)) -> list string * Result unit.

(** The [try] block of the loop over the cost patterns. *)
Definition pattern_body (pattern : string) : ST MainState unit :=
  data ← lift (load_data fs "output" pattern);
  host_data ← lift (drop_isin "scheduler" EXCLUDED data.1);
  task_data ← lift (drop_isin "scheduler" EXCLUDED data.2);
  logger (Info ("Loaded data for " +:+ pattern +:+ " pattern"));;
  if ((length (rows host_data) =? 0) || (length (rows task_data) =? 0))%nat
  then logger (Warning ("No valid data found for pattern " +:+ pattern
                        +:+ " after filtering"))
  else
    let efficiency_metrics :=
      set_column "pattern" (Str pattern) (calculate_efficiency_metrics host_data) in
    append_efficiency efficiency_metrics;;
    let completion_metrics := with_pattern pattern (analyze_task_completion task_data) in
    append_completion completion_metrics;;
    logger (Info ("Calculated metrics for " +:+ pattern +:+ " pattern"));;
    write_files (create_visualizations efficiency_metrics completion_metrics pattern);;
    write_files (save_results efficiency_metrics completion_metrics pattern).

(** [try: body except Exception as e: logger.error(msg + str(e))] *)
Definition catch_and_log (msg : string) (body : ST MainState unit) : ST MainState unit :=
  fun s =>
    match body s with
    | (s', Raise e) => logger (Error (msg +:+ exn_message e)) s'
    | r => r
    end.

(** The body of the loop over the cost patterns. *)
Definition analyze_pattern (pattern : string) : ST MainState unit :=
  logger (Info ("Analyzing " +:+ pattern +:+ " pattern"));;
  catch_and_log ("Error analyzing " +:+ pattern +:+ " pattern: ") (pattern_body pattern).

Definition cross_pattern : ST MainState unit :=
  catch_and_log "Error in cross-pattern analysis: " (
    s ← (fun s => (s, Ok s));
    match all_efficiency_metrics s, all_completion_metrics s with
    | [], _ | _, [] => mret tt
    | effs, comps =>
        logger (Info "Performing cross-pattern analysis");;
        let out := cross_pattern_analysis effs comps in
        write_files out.1;;
        lift out.2;;
        logger (Info "Completed cross-pattern analysis")
    end).

Definition main : ST MainState unit :=
  logger (Info "Starting cost analysis - Comparing CostEfficient vs PredictiveCost");;
  for_each patterns analyze_pattern;;
  cross_pattern;;
  logger (Info "Analysis completed");;
  logger (Info "Results saved in results").

End Main.

End MoreAnalysis.

(** * Vocabulary of the statements *)

(** The name [aggregate_runs] appends for column [c]: the column exists
    and the caller did not list it. *)
Definition appended_key (df : DataFrame) (keys : list string) (c : string) : list string :=
  if negb (bool_decide (c ∈ keys)) && has_column df c then [c] else [].

(** The columns [comparative_analysis] reads from a row of the cost
    aggregate. *)
Definition cost_columns : list string :=
  ["scenario_label"; "topology"; "scheduler"; "cost_mean"; "cost_std";
   "cpu_utilization_mean"; "cost_efficiency"].

(** The label of a cost row is a label of the completion statistics. *)
Definition label_matches (completion_stats_df : gmap string AnalyzeExperiments.TaskMetrics)
    (label : cell) : Prop :=
  exists s, label = Str s /\ is_Some (completion_stats_df !! s).

(** The columns the task statistics read. *)
Definition task_columns : list string :=
  ["scenario_label"; "task_id"; "task_state"; "creation_time"; "finish_time"].

Definition is_str (c : cell) : bool :=
  match c with Str _ => true | _ => false end.

(** A task table: the five columns, and times that are numbers or null. *)
Definition task_table_ok (df : DataFrame) : bool :=
  forallb (has_column df) task_columns
  && forallb (fun r : row => negb (is_str (get_cell r "finish_time"))
                           && negb (is_str (get_cell r "creation_time")))
             (rows df).

(** The task rows of a scenario label. *)
Definition rows_of_label (df : DataFrame) (label : cell) : list row :=
  List.filter (fun r => cell_eqb (get_cell r "scenario_label") label) (rows df).

(** The distinct task ids of some rows. *)
Definition task_ids (rs : list row) : list cell :=
  unique (List.filter (fun c => negb (is_nan c)) (map (fun r : row => get_cell r "task_id") rs)).

(** The observations of one task, in table order. *)
Definition observations (rs : list row) (tid : cell) : list row :=
  List.filter (fun r => cell_eqb tid (get_cell r "task_id")) rs.

(** The last state observed for a task: the state of its last row that
    has one. *)
Definition final_state (rs : list row) (tid : cell) : cell :=
  List.last (List.filter (fun c => negb (is_nan c))
                         (map (fun r : row => get_cell r "task_state") (observations rs tid)))
            NaN.

(** Some task of the table has a final state: some row has a scenario
    label, a task id and a state. *)
Definition has_final_state (df : DataFrame) : bool :=
  existsb (fun r : row => negb (is_nan (get_cell r "scenario_label"))
                          && negb (is_nan (get_cell r "task_id"))
                          && negb (is_nan (get_cell r "task_state")))
          (rows df).

(** The number of tasks whose final state is [st]. *)
Definition tasks_in_state (rs : list row) (st : string) : nat :=
  length (List.filter (fun tid => cell_eqb (final_state rs tid) (Str st)) (task_ids rs)).

(** [q] is [count / total], or 0 when [total] is 0, and lies in [0, 1]. *)
Definition is_rate (q : Q) (count total : nat) : Prop :=
  (total = 0%nat -> q == 0)%Q
  /\ ((0 < total)%nat -> q == inject_Z (Z.of_nat count) / inject_Z (Z.of_nat total))%Q
  /\ (0 <= q /\ q <= 1)%Q.

(** The registry has an entry for the scenario directory [name], with a
    topology path and a policy type. *)
Definition registered (trackr_data : list ScenarioInfo) (name : string) : bool :=
  match py_int name with
  | Ok n =>
      match list_index trackr_data n with
      | Ok info =>
          match topology info, allocationPolicy info with
          | Some topo, Some policy =>
              bool_decide (is_Some (pathToFile topo))
              && bool_decide (is_Some (policyType policy))
          | _, _ => false
          end
      | Raise _ => false
      end
  | Raise _ => false
  end.

(** No [seed=...] entry of a scenario directory holds the file
    [<kind>.parquet]; so in particular when no entry is named [seed=...]. *)
Definition no_table (kind : string) (seeds : list (string * SeedDir)) : bool :=
  forallb (fun e : string * SeedDir =>
             negb (String.prefix "seed=" e.1)
             || negb (bool_decide (is_Some (e.2 !! (kind +:+ ".parquet")))))
          seeds.

(** An entry of [raw-output] that [read_parquet_files] walks without
    finding a table: not a number, or a registered scenario directory
    without a table of the kind. *)
Definition walked_without_table (trackr_data : list ScenarioInfo) (kind : string)
    (entry : string * ScenarioNode) : bool :=
  negb (isdigit entry.1)
  || (registered trackr_data entry.1
      && match entry.2 with
         | ScenarioDir seeds => no_table kind seeds
         | NotADirectory => false
         end).

(** The same for [load_data], which does not index the registry. *)
Definition listed_without_table (kind : string) (entry : string * ScenarioNode) : bool :=
  negb (isdigit entry.1)
  || match entry.2 with
     | ScenarioDir seeds => no_table kind seeds
     | NotADirectory => false
     end.

(** What the [try] block of [more_analysis.main] has for a pattern once
    the data are loaded and filtered, or the exception raised until then. *)
Definition prepared (fs : FS) (pattern : string) : Result (DataFrame * DataFrame) :=
  data ← MoreAnalysis.load_data fs "output" pattern;
  host_data ← MoreAnalysis.drop_isin "scheduler" MoreAnalysis.EXCLUDED data.1;
  task_data ← MoreAnalysis.drop_isin "scheduler" MoreAnalysis.EXCLUDED data.2;
  Ok (host_data, task_data).

(** The pair of tables a pattern adds to the cross-pattern lists: none
    when its block raised or its filtered data are empty. *)
Definition contribution (fs : FS) (calculate : DataFrame -> DataFrame) (pattern : string)
    : option (DataFrame * list (string * MoreAnalysis.CompletionMetrics)) :=
  match prepared fs pattern with
  | Ok (host_data, task_data) =>
      if ((length (rows host_data) =? 0) || (length (rows task_data) =? 0))%nat
      then None
      else Some (set_column "pattern" (Str pattern) (calculate host_data),
                 MoreAnalysis.with_pattern pattern
                   (MoreAnalysis.analyze_task_completion task_data))
  | Raise _ => None
  end.

(** The task rows [more_analysis.analyze_task_completion] puts in the
    group of a scheduler and a topology. *)
Definition rows_of_group (task_df : DataFrame) (scheduler topology : cell) : list row :=
  group_rows ["scheduler"; "topology"] [scheduler; topology]
    (List.filter (fun r : row => negb (isin (get_cell r "scheduler") MoreAnalysis.EXCLUDED))
                 (rows task_df)).

(** Of some task rows, those in state COMPLETED. *)
Definition completed_rows (rs : list row) : list row :=
  List.filter (fun r : row => cell_eqb (get_cell r "task_state") (Str "COMPLETED")) rs.

(** The four columns the loaders add to every table they read. *)
Definition tag_columns : list string := ["topology"; "scheduler"; "scenario"; "seed"].

(** Row [r] carries the tags [read_parquet_files] derives from entry [n]
    of the registry: the topology found in the entry's path, its policy
    type, the number [n], and the number of a seed. *)
Definition tagged_by (trackr_data : list ScenarioInfo) (n : nat) (r : row) : Prop :=
  exists info path scheduler seed,
    trackr_data !! n = Some info
    /\ topology info ≫= pathToFile = Some path
    /\ allocationPolicy info ≫= policyType = Some scheduler
    /\ get_cell r "topology" = Str (Util.topology_of_path path)
    /\ get_cell r "scheduler" = Str scheduler
    /\ get_cell r "scenario" = Num (inject_Z (Z.of_nat n))
    /\ get_cell r "seed" = Num (inject_Z seed).

(** A table as the loader of [Utils/util.py] appends it: it has the four
    tag columns and every row carries the tags of a registry entry. *)
Definition tagged_frame (trackr_data : list ScenarioInfo) (df : DataFrame) : Prop :=
  forallb (has_column df) tag_columns = true
  /\ forall r, r ∈ rows df -> exists n, tagged_by trackr_data n r.

(** A registry entry with a topology path and a policy type. *)
Definition complete_entry (info : ScenarioInfo) : bool :=
  bool_decide (is_Some (topology info ≫= pathToFile))
  && bool_decide (is_Some (allocationPolicy info ≫= policyType)).

(** The keys [get_experiment_mapping] reads from a registry entry. *)
Definition entry_keys : list string :=
  ["topology"; "pathToFile"; "allocationPolicy"; "policyType"].

(** The keys [aggregate_runs] groups by: the caller's, followed by the
    names it appends. *)
Definition grouping_keys (df : DataFrame) (keys : list string) : list string :=
  keys ++ appended_key df keys "topology" ++ appended_key df keys "scheduler".

(** The aggregated columns of the table of resource utilization. *)
Definition utilization_columns : list string :=
  ["cpu_utilization_mean"; "cpu_utilization_std";
   "guests_running_mean"; "guests_running_std";
   "cpu_time_steal_mean"; "cpu_time_steal_std"].

(** The aggregate of the first metric of a row of an aggregate table. *)
Definition first_metric (o : AggRow) : MetricAgg :=
  nth 0 (metrics_of o) {| metric := ""; mean := NaN; std := NaN |}.

Definition second_metric (o : AggRow) : MetricAgg :=
  nth 1 (metrics_of o) {| metric := ""; mean := NaN; std := NaN |}.

(** The columns of the two tables of an [ExperimentAnalyzer]. *)
Definition analyzer_columns : list string :=
  tag_columns ++ ["timestamp_absolute"; "datetime"; "scenario_label"].

(** Row [r] of an analyzer for cost pattern [pattern]: its scheduler is
    one of the two compared, and its scenario label is the one
    [get_scenario_label] gives for its topology and scheduler. *)
Definition labelled (pattern : string) (r : row) : Prop :=
  exists topology scheduler,
    get_cell r "topology" = Str topology
    /\ get_cell r "scheduler" = Str scheduler
    /\ scheduler ∈ AnalyzeExperiments.VALID_SCHEDULERS
    /\ get_cell r "scenario_label"
       = Str (Util.get_scenario_label topology pattern scheduler).

(** The five statistics of the completion time. *)
Definition time_statistics (m : AnalyzeExperiments.TaskMetrics) : list (option stat) :=
  [AnalyzeExperiments.avg_completion_time m;
   AnalyzeExperiments.median_completion_time m;
   AnalyzeExperiments.std_completion_time m;
   AnalyzeExperiments.min_completion_time m;
   AnalyzeExperiments.max_completion_time m].

(** The analyses [analyze_experiments.main] runs for a cost pattern, in
    order; the two host stages are arguments. *)
Definition analyses (fs : FS)
    (resource cost : AnalyzeExperiments.ExperimentAnalyzer -> Result DataFrame)
    (pattern : string) : Result unit :=
  analyzer ← AnalyzeExperiments.ExperimentAnalyzer_init fs "output" pattern;
  _ ← resource analyzer;
  cost_stats ← cost analyzer;
  task_stats ← AnalyzeExperiments.analyze_task_completion
                 (AnalyzeExperiments.task_df analyzer);
  _ ← AnalyzeExperiments.comparative_analysis cost_stats
         (AnalyzeExperiments.stats_frame task_stats);
  Ok tt.

(** The four files written for a cost pattern. *)
Definition csv_files (pattern : string) : list string :=
  ["results/" +:+ pattern +:+ "_resource_stats.csv";
   "results/" +:+ pattern +:+ "_cost_stats.csv";
   "results/" +:+ pattern +:+ "_task_stats.csv";
   "results/" +:+ pattern +:+ "_comparison.csv"].

(** The patterns before the first one that is not [ok]. *)
Fixpoint leading (ok : string -> bool) (patterns : list string) : list string :=
  match patterns with
  | [] => []
  | p :: patterns' => if ok p then p :: leading ok patterns' else []
  end.

(** The four topology labels. *)
Definition topology_labels : list string := ["small"; "medium"; "large"; "unknown"].

(** Row [r] carries the tags [load_data] derives for a scenario
    directory [scenario] under [root]: the scheduler and the topology that
    [get_scheduler_info] and [parse_topology_size] give for the
    directory's path, the directory's number, and the number of a seed. *)
Definition tagged_by_path (trackr_file : TrackrFile) (root : string) (r : row) : Prop :=
  exists scenario n seed,
    isdigit scenario = true
    /\ py_int scenario = Ok n
    /\ get_cell r "scheduler"
       = Str (MoreAnalysis.get_scheduler_info trackr_file (path_join root scenario))
    /\ get_cell r "topology"
       = Str (MoreAnalysis.parse_topology_size trackr_file (path_join root scenario))
    /\ get_cell r "scenario" = Num (inject_Z n)
    /\ get_cell r "seed" = Num (inject_Z seed).

(** A table as [load_data] appends it. *)
Definition path_tagged_frame (trackr_file : TrackrFile) (root : string) (df : DataFrame)
    : Prop :=
  forallb (has_column df) tag_columns = true
  /\ forall r, r ∈ rows df -> tagged_by_path trackr_file root r.

(** The columns [more_analysis.analyze_task_completion] reads. *)
Definition completion_columns : list string :=
  ["scheduler"; "topology"; "task_state"; "finish_time"; "creation_time"].

(** A task table for [more_analysis.analyze_task_completion]: the five
    columns, and times that are numbers or null. *)
Definition completion_table_ok (df : DataFrame) : bool :=
  forallb (has_column df) completion_columns
  && forallb (fun r : row => negb (is_str (get_cell r "finish_time"))
                           && negb (is_str (get_cell r "creation_time")))
             (rows df).

(** A task row that [more_analysis.analyze_task_completion] counts: its
    scheduler is not excluded and neither its scheduler nor its topology
    is null. *)
Definition counted (r : row) : bool :=
  negb (isin (get_cell r "scheduler") MoreAnalysis.EXCLUDED)
  && key_valid (row_key ["scheduler"; "topology"] r).

(** The state [more_analysis.main] starts from: nothing logged, the two
    lists empty, nothing written. *)
Definition initial_state : MoreAnalysis.MainState :=
  {| MoreAnalysis.log := [];
     MoreAnalysis.all_efficiency_metrics := [];
     MoreAnalysis.all_completion_metrics := [];
     MoreAnalysis.files := [] |}.

(** The files written for a cost pattern by the two writers: none
    unless the pattern contributes. *)
Definition pattern_files (fs : FS) (calculate : DataFrame -> DataFrame)
    (visualize save :
       DataFrame -> list (string * MoreAnalysis.CompletionMetrics) -> string -> list string)
    (pattern : string) : list string :=
  match contribution fs calculate pattern with
  | Some (efficiency, completion) =>
      visualize efficiency completion pattern ++ save efficiency completion pattern
  | None => []
  end.

(** The files of the cross-pattern stage, which runs when at least one
    pattern contributed. *)
Definition cross_files
    (cross : list DataFrame -> list (list (string * MoreAnalysis.CompletionMetrics))
             -> list string * Result unit)
    (contributions : list (DataFrame * list (string * MoreAnalysis.CompletionMetrics)))
    : list string :=
  match contributions with
  | [] => []
  | _ => (cross (map fst contributions) (map snd contributions)).1
  end.

(** * Sample data

    The two scenarios of a small run: scenario 0 (small topology,
    CostEfficient) with two host rows, scenario 1 (large topology,
    PredictiveCost) with one. *)

Module Examples.

Definition host_row (scenario cost cpu : Z) (topology scheduler : string) : row :=
  list_to_map [("scenario", Num (inject_Z scenario));
               ("cost", Num (inject_Z cost));
               ("cpu_utilization", Num (inject_Z cpu));
               ("topology", Str topology);
               ("scheduler", Str scheduler)].

Definition hosts : DataFrame :=
  {| columns := ["cost"; "cpu_utilization"; "topology"; "scheduler"; "scenario"];
     rows := [host_row 0 100 50 "small" "CostEfficient";
              host_row 0 200 70 "small" "CostEfficient";
              host_row 1 300 90 "large" "PredictiveCost"] |}.

(** The caller's list object [['scenario']] at location 1, and the list
    with the two names appended by the caller. *)
Definition short_keys : store := {[ 1%positive := ["scenario"] ]}.
Definition full_keys : store := {[ 1%positive := ["scenario"; "topology"; "scheduler"] ]}.

Definition empty_agg : AggTable := {| agg_index := NamedLevels []; agg_rows := [] |}.
Definition empty_row : AggRow := {| group_key := []; metrics_of := [] |}.

(** The aggregate of the sample and its second row, the group of
    scenario 1. *)
Definition hosts_agg : AggTable :=
  match (Util.aggregate_runs hosts 1%positive ["cost"; "cpu_utilization"] short_keys).2 with
  | Ok t => t
  | Raise _ => empty_agg
  end.

Definition large_group : AggRow := nth 1 (agg_rows hosts_agg) empty_row.

Definition cost_row (label topology scheduler : string) (cost : Q) : row :=
  list_to_map [("scenario_label", Str label); ("topology", Str topology);
               ("scheduler", Str scheduler); ("cost_mean", Num cost);
               ("cost_std", NaN); ("cpu_utilization_mean", Num 60);
               ("cost_efficiency", Num (60 / cost))].

Definition cost_stats : DataFrame :=
  {| columns := ["scenario_label"; "topology"; "scheduler"; "cost_mean"; "cost_std";
                 "cpu_utilization_mean"; "cost_efficiency"];
     rows := [cost_row "small_cost_stable_CostEfficient" "small" "CostEfficient" 150;
              cost_row "large_cost_stable_PredictiveCost" "large" "PredictiveCost" 300] |}.

(** Completion statistics with an entry for the first label only. *)
Definition small_stats : gmap string AnalyzeExperiments.TaskMetrics :=
  {[ "small_cost_stable_CostEfficient" :=
       {| AnalyzeExperiments.total_tasks := 2;
          AnalyzeExperiments.completion_rate := 1 # 2;
          AnalyzeExperiments.termination_rate := 1 # 2;
          AnalyzeExperiments.error_rate := 0;
          AnalyzeExperiments.avg_completion_time := Some (SRat 5);
          AnalyzeExperiments.median_completion_time := Some (SRat 5);
          AnalyzeExperiments.std_completion_time := Some SNaN;
          AnalyzeExperiments.min_completion_time := Some (SRat 5);
          AnalyzeExperiments.max_completion_time := Some (SRat 5) |} ]}.

Definition task_row (label id state : string) (creation finish : Z) : row :=
  list_to_map [("scenario_label", Str label); ("task_id", Str id);
               ("task_state", Str state);
               ("creation_time", Num (inject_Z creation));
               ("finish_time", Num (inject_Z finish))].

(** Task [a] is observed running, then completed; task [b] ends
    terminated; the only task of the second label fails. *)
Definition tasks : DataFrame :=
  {| columns := ["task_id"; "task_state"; "creation_time"; "finish_time"; "scenario_label"];
     rows := [task_row "small_cost_stable_CostEfficient" "a" "RUNNING" 0 0;
              task_row "small_cost_stable_CostEfficient" "b" "TERMINATED" 0 0;
              task_row "small_cost_stable_CostEfficient" "a" "COMPLETED" 0 5000;
              task_row "large_cost_stable_PredictiveCost" "c" "ERROR" 0 0] |}.

(** Two tasks that were submitted and never observed in a state. *)
Definition submitted_row (label id : string) (creation : Z) : row :=
  list_to_map [("scenario_label", Str label); ("task_id", Str id);
               ("creation_time", Num (inject_Z creation))].

Definition submitted_tasks : DataFrame :=
  {| columns := ["task_id"; "task_state"; "creation_time"; "finish_time"; "scenario_label"];
     rows := [submitted_row "small_cost_stable_CostEfficient" "a" 0;
              submitted_row "small_cost_stable_CostEfficient" "b" 10] |}.

(** A registry of two scenarios and the tables of one seed. *)
Definition registry : list ScenarioInfo :=
  [{| topology := Some {| pathToFile := Some "topologies/topology_small/small.json" |};
      allocationPolicy := Some {| policyType := Some "CostEfficient" |} |};
   {| topology := Some {| pathToFile := Some "topologies/topology_large/large.json" |};
      allocationPolicy := Some {| policyType := Some "PredictiveCost" |} |}].

Definition raw_host (timestamp cost cpu : Z) : row :=
  list_to_map [("timestamp_absolute", Num (inject_Z timestamp));
               ("cost", Num (inject_Z cost));
               ("cpu_utilization", Num (inject_Z cpu))].

Definition raw_hosts : DataFrame :=
  {| columns := ["timestamp_absolute"; "cost"; "cpu_utilization"];
     rows := [raw_host 0 100 50; raw_host 60000 200 70] |}.

Definition raw_task (timestamp : Z) (id state : string) (creation finish : Z) : row :=
  list_to_map [("timestamp_absolute", Num (inject_Z timestamp));
               ("task_id", Str id); ("task_state", Str state);
               ("creation_time", Num (inject_Z creation));
               ("finish_time", Num (inject_Z finish))].

Definition raw_tasks : DataFrame :=
  {| columns := ["timestamp_absolute"; "task_id"; "task_state"; "creation_time";
                 "finish_time"];
     rows := [raw_task 0 "a" "RUNNING" 0 0; raw_task 60000 "a" "COMPLETED" 0 5000] |}.

Definition seed0 : string * SeedDir :=
  ("seed=0", {[ "host.parquet" := Table raw_hosts; "task.parquet" := Table raw_tasks ]}).

(** A complete run: both scenarios with one seed each. *)
Definition run_dir : PatternDir :=
  {| trackr := TrackrLoaded registry;
     raw_output := Some [("0", ScenarioDir [seed0]); ("1", ScenarioDir [seed0])] |}.

(** A run whose scenario directories hold no seed directory. *)
Definition empty_dir : PatternDir :=
  {| trackr := TrackrLoaded registry;
     raw_output := Some [("0", ScenarioDir []); ("1", ScenarioDir [("notes", ∅)])] |}.

(** A run with a directory [5] between the two registered scenarios. *)
Definition stray_dir : PatternDir :=
  {| trackr := TrackrLoaded registry;
     raw_output := Some [("0", ScenarioDir [seed0]); ("5", ScenarioDir [seed0]);
                         ("1", ScenarioDir [seed0])] |}.

(** A registry entry whose allocation policy has no policy type. *)
Definition no_policy_type : ScenarioInfo :=
  {| topology := Some {| pathToFile := Some "topologies/topology_small/small.json" |};
     allocationPolicy := Some {| policyType := None |} |}.

Definition untyped_dir : PatternDir :=
  {| trackr := TrackrLoaded [no_policy_type];
     raw_output := Some [("0", ScenarioDir [seed0])] |}.

Definition fs_complete : FS := fun _ _ => run_dir.
Definition fs_empty : FS := fun _ _ => empty_dir.
Definition fs_stray : FS := fun _ _ => stray_dir.
Definition fs_untyped : FS := fun _ _ => untyped_dir.

(** Every pattern has a complete run, except [stable], which has no seed
    directory. *)
Definition fs_stable_empty : FS :=
  fun _ pattern => if String.eqb pattern "stable" then empty_dir else run_dir.

(** The tables accumulated from scenario 0 of [stray_dir]. *)
Definition loaded_before_stray : list DataFrame :=
  (Util.collect_tables registry "host" [("0", ScenarioDir [seed0])] []).1.

(** Stand-ins for the two host stages of [analyze_experiments.main]. *)
Definition resource_stage (a : AnalyzeExperiments.ExperimentAnalyzer) : Result DataFrame :=
  Ok (AnalyzeExperiments.host_df a).
Definition cost_stage (a : AnalyzeExperiments.ExperimentAnalyzer) : Result DataFrame :=
  Ok cost_stats.

Definition world0 : AnalyzeExperiments.World :=
  {| AnalyzeExperiments.log := []; AnalyzeExperiments.files := [] |}.

(** Stand-ins for the stages of [more_analysis.main]. *)
Definition table_stage (df : DataFrame) : DataFrame := df.
Definition writer_stage (suffix : string) (_ : DataFrame)
    (_ : list (string * MoreAnalysis.CompletionMetrics)) (pattern : string) : list string :=
  ["results/" +:+ pattern +:+ suffix].
Definition cross_stage (_ : list DataFrame)
    (_ : list (list (string * MoreAnalysis.CompletionMetrics))) : list string * Result unit :=
  (["results/cross_pattern_efficiency.csv"], Ok tt).

Definition state0 : MoreAnalysis.MainState :=
  {| MoreAnalysis.log := []; MoreAnalysis.all_efficiency_metrics := [];
     MoreAnalysis.all_completion_metrics := []; MoreAnalysis.files := [] |}.

(** One task of the small scenario, observed running and then completed. *)
Definition observation (state : string) (finish : Z) : row :=
  list_to_map [("task_id", Str "a"); ("task_state", Str state);
               ("creation_time", Num 0); ("finish_time", Num (inject_Z finish));
               ("scheduler", Str "CostEfficient"); ("topology", Str "small");
               ("scenario_label", Str "small_cost_stable_CostEfficient")].

Definition observed_twice : DataFrame :=
  {| columns := ["task_id"; "task_state"; "creation_time"; "finish_time"; "scheduler";
                 "topology"; "scenario_label"];
     rows := [observation "RUNNING" 0; observation "COMPLETED" 5000] |}.

Definition no_metrics : MoreAnalysis.CompletionMetrics :=
  {| MoreAnalysis.cm_scheduler := NaN; MoreAnalysis.cm_topology := NaN;
     MoreAnalysis.cm_total_tasks := 0; MoreAnalysis.cm_completed_tasks := 0;
     MoreAnalysis.cm_completion_rate := 0;
     MoreAnalysis.cm_avg_completion_time := SNaN;
     MoreAnalysis.cm_median_completion_time := SNaN;
     MoreAnalysis.cm_std_completion_time := SNaN |}.

(** The row [more_analysis.analyze_task_completion] returns for it. *)
Definition twice_metrics : MoreAnalysis.CompletionMetrics :=
  nth 0 (MoreAnalysis.analyze_task_completion observed_twice) no_metrics.

Definition empty_frame : DataFrame := {| columns := []; rows := [] |}.

(** The host table of the complete run, as [read_parquet_files] loads
    it, and the mapping of its registry. *)
Definition loaded_hosts : DataFrame :=
  match Util.read_parquet_files fs_complete "output" "stable" "host" with
  | Ok df => df
  | Raise _ => empty_frame
  end.

Definition last_loaded_host : row := List.last (rows loaded_hosts) ∅.

Definition mapping : DataFrame :=
  match Util.get_experiment_mapping fs_complete "output" "stable" with
  | Ok df => df
  | Raise _ => empty_frame
  end.

(** An analyzer whose host table has the three utilization metrics and
    the cost: two rows of one group, one row of another. *)
Definition measured_host (label topology scheduler : string) (datetime cost cpu : Z) : row :=
  list_to_map [("scenario_label", Str label); ("datetime", Num (inject_Z datetime));
               ("topology", Str topology); ("scheduler", Str scheduler);
               ("cost", Num (inject_Z cost)); ("cpu_utilization", Num (inject_Z cpu));
               ("guests_running", Num 2); ("cpu_time_steal", Num 0)].

Definition measured_hosts : DataFrame :=
  {| columns := ["cost"; "cpu_utilization"; "guests_running"; "cpu_time_steal";
                 "topology"; "scheduler"; "datetime"; "scenario_label"];
     rows := [measured_host "small_cost_stable_CostEfficient" "small" "CostEfficient" 0 100 50;
              measured_host "small_cost_stable_CostEfficient" "small" "CostEfficient" 0 200 70;
              measured_host "large_cost_stable_PredictiveCost" "large" "PredictiveCost" 0 0 90] |}.

Definition measured_analyzer : AnalyzeExperiments.ExperimentAnalyzer :=
  {| AnalyzeExperiments.base_path := "output";
     AnalyzeExperiments.cost_pattern := "stable";
     AnalyzeExperiments.host_df := measured_hosts;
     AnalyzeExperiments.task_df := tasks;
     AnalyzeExperiments.trackr_data := registry |}.

Definition utilization_agg : AggTable :=
  match AnalyzeExperiments.aggregate_fresh measured_hosts ["scenario_label"; "datetime"]
          ["cpu_utilization"; "guests_running"; "cpu_time_steal"] with
  | Ok t => t
  | Raise _ => empty_agg
  end.

Definition cost_agg : AggTable :=
  match AnalyzeExperiments.aggregate_fresh measured_hosts
          ["scenario_label"; "topology"; "scheduler"] ["cost"; "cpu_utilization"] with
  | Ok t => t
  | Raise _ => empty_agg
  end.

Definition no_analyzer : AnalyzeExperiments.ExperimentAnalyzer :=
  {| AnalyzeExperiments.base_path := ""; AnalyzeExperiments.cost_pattern := "";
     AnalyzeExperiments.host_df := empty_frame; AnalyzeExperiments.task_df := empty_frame;
     AnalyzeExperiments.trackr_data := [] |}.

(** The analyzer of the complete run. *)
Definition stable_analyzer : AnalyzeExperiments.ExperimentAnalyzer :=
  match AnalyzeExperiments.ExperimentAnalyzer_init fs_complete "output" "stable" with
  | Ok a => a
  | Raise _ => no_analyzer
  end.

(** A run whose only scenario uses the scheduler that is not compared. *)
Definition simple_cost_dir : PatternDir :=
  {| trackr :=
       TrackrLoaded
         [{| topology := Some {| pathToFile := Some "topologies/topology_small/small.json" |};
             allocationPolicy := Some {| policyType := Some "SimpleCost" |} |}];
     raw_output := Some [("0", ScenarioDir [seed0])] |}.

Definition fs_simple_cost : FS := fun _ _ => simple_cost_dir.

Definition simple_cost_analyzer : AnalyzeExperiments.ExperimentAnalyzer :=
  match AnalyzeExperiments.ExperimentAnalyzer_init fs_simple_cost "output" "stable" with
  | Ok a => a
  | Raise _ => no_analyzer
  end.

Definition simple_cost_tasks : DataFrame :=
  match Util.read_parquet_files fs_simple_cost "output" "stable" "task" with
  | Ok df => df
  | Raise _ => empty_frame
  end.

(** The statistics of the sample tasks. *)
Definition task_stats : list (cell * AnalyzeExperiments.TaskMetrics) :=
  match AnalyzeExperiments.analyze_task_completion tasks with
  | Ok stats => stats
  | Raise _ => []
  end.

(** The two tables of the complete run, as [load_data] loads them. *)
Definition loaded : DataFrame * DataFrame :=
  match MoreAnalysis.load_data fs_complete "output" "stable" with
  | Ok tables => tables
  | Raise _ => (empty_frame, empty_frame)
  end.

End Examples.

(** * Properties of the aggregation engine *)

Lemma mapM_Forall2 {A B} (f : A -> Result B) (l : list A) (ys : list B) :
  mapM f l = Ok ys -> Forall2 (fun x y => f x = Ok y) l ys.
Proof.
  revert ys. induction l as [|x l IH]; intros ys H; simpl in H.
  - inversion H. constructor.
  - destruct (f x) as [y|] eqn:Hy; [|discriminate].
    cbn in H. destruct (mapM f l) as [ys'|] eqn:Hys; [|discriminate].
    cbn in H. inversion H; subst. constructor; auto.
Qed.

Lemma mapM_elem {A B} (f : A -> Result B) (l : list A) (ys : list B) (y : B) :
  mapM f l = Ok ys -> y ∈ ys -> exists x, x ∈ l /\ f x = Ok y.
Proof.
  intros H Hy. apply mapM_Forall2 in H.
  induction H as [|x y' l ys Hxy HF IH].
  - inversion Hy.
  - apply elem_of_cons in Hy as [->|Hy].
    + exists x. split; [left|done].
    + destruct (IH Hy) as (x' & Hx' & Hf). exists x'. split; [by right|done].
Qed.

Lemma mapM_length {A B} (f : A -> Result B) (l : list A) (ys : list B) :
  mapM f l = Ok ys -> length ys = length l.
Proof. intros H. apply mapM_Forall2 in H. symmetry. by eapply Forall2_length. Qed.

Lemma mapM_lookup {A B} (f : A -> Result B) (l : list A) (ys : list B) i x :
  mapM f l = Ok ys -> l !! i = Some x -> exists y, ys !! i = Some y /\ f x = Ok y.
Proof.
  intros H Hx. apply mapM_Forall2 in H.
  destruct (Forall2_lookup_l _ _ _ _ _ H Hx) as (y & Hy & Hf). eauto.
Qed.

Lemma mapM_total {A B} (f : A -> Result B) (l : list A) :
  (forall x, x ∈ l -> exists y, f x = Ok y) -> exists ys, mapM f l = Ok ys.
Proof.
  induction l as [|x l IH]; intros H; simpl.
  - eauto.
  - destruct (H x) as [y Hy]; [left|]. rewrite Hy. cbn.
    destruct IH as [ys Hys]; [intros; apply H; by right|].
    rewrite Hys. cbn. eauto.
Qed.

Lemma mapM_map_metric (rs : list row) (cols : list string) (ms : list MetricAgg) :
  mapM (agg_metric rs) cols = Ok ms -> map metric ms = cols.
Proof.
  revert ms. induction cols as [|c cols IH]; intros ms H; simpl in H.
  - by inversion H.
  - destruct (agg_metric rs c) as [m|] eqn:Hm; [|discriminate]. cbn in H.
    destruct (mapM (agg_metric rs) cols) as [ms'|] eqn:Hms; [|discriminate].
    cbn in H. inversion H; subst. simpl. f_equal; [|by apply IH].
    unfold agg_metric in Hm.
    destruct (numeric_values _); [|discriminate]. cbn in Hm. by inversion Hm.
Qed.

(** At most as many numeric values as entries. *)
Lemma numeric_values_length (cs : list cell) (xs : list Q) :
  numeric_values cs = Ok xs -> (length xs <= length cs)%nat.
Proof.
  revert xs. induction cs as [|c cs IH]; intros xs H; simpl in H.
  - inversion H. simpl. lia.
  - destruct c as [|q|s]; [| |discriminate].
    + specialize (IH _ H). simpl. lia.
    + destruct (numeric_values cs) as [xs'|]; [|discriminate].
      cbn in H. inversion H; subst. specialize (IH _ eq_refl). simpl. lia.
Qed.

Lemma agg_std_short (xs : list Q) : (length xs <= 1)%nat -> agg_std xs = NaN.
Proof. destruct xs as [|x [|y xs]]; simpl; try done. lia. Qed.

(** The standard deviation of a metric over a single row is undefined. *)
Lemma agg_metric_single (rs : list row) (c : string) (m : MetricAgg) :
  length rs = 1%nat -> agg_metric rs c = Ok m -> std m = NaN.
Proof.
  intros Hlen H. unfold agg_metric in H.
  destruct (numeric_values _) as [xs|] eqn:Hxs; [|discriminate].
  cbn in H. inversion H; subst. simpl.
  apply agg_std_short. apply numeric_values_length in Hxs.
  rewrite length_map in Hxs. lia.
Qed.

Lemma elem_of_dict_keys (l : list string) (x : string) : x ∈ dict_keys l <-> x ∈ l.
Proof.
  induction l as [|y l IH]; simpl; [done|].
  rewrite !elem_of_cons, list_elem_of_filter, IH.
  destruct (decide (x = y)); tauto.
Qed.

Lemma insert_key_perm (k : list cell) (ks : list (list cell)) :
  insert_key k ks ≡ₚ k :: ks.
Proof.
  induction ks as [|k' ks IH]; simpl; [done|].
  destruct (key_leb k k'); [done|]. rewrite IH. apply perm_swap.
Qed.

Lemma sort_keys_perm (ks : list (list cell)) : sort_keys ks ≡ₚ ks.
Proof.
  induction ks as [|k ks IH]; simpl; [done|].
  unfold sort_keys in *. simpl. rewrite insert_key_perm. by rewrite IH.
Qed.

Lemma distinct_keys_subset (ks : list (list cell)) (k : list cell) :
  In k (distinct_keys ks) -> In k ks.
Proof.
  induction ks as [|a ks IH]; [done|]. cbn [distinct_keys]. intros [->|Hin]; [by left|].
  right. apply IH. by apply filter_In in Hin as [? _].
Qed.

(** ** The two readings of a list of keys *)

(** Keys that are all columns are grouped by as columns. *)
Lemma groupby_columns (df : DataFrame) (keys : list string) :
  keys <> [] ->
  forallb (has_column df) keys = true ->
  groupby df keys
  = Ok {| gb_index := NamedLevels keys;
          gb_columns := columns df;
          gb_groups := map (fun k => (k, group_rows keys k (rows df)))
                           (group_keys_of keys (rows df)) |}.
Proof.
  intros Hne Hall. unfold groupby. rewrite Hall, andb_false_r.
  destruct keys as [|k keys]; [done|].
  destruct (List.find _ (k :: keys)) as [k'|] eqn:Hfind; [|done].
  apply find_some in Hfind as [Hin Hk']. rewrite forallb_forall in Hall.
  by rewrite (Hall _ Hin) in Hk'.
Qed.

(** The key of a group of labels is one label. *)
Lemma label_groups_key (labels : list string) (rs : list row) (kg : list cell * list row) :
  kg ∈ label_groups labels rs -> exists l, l ∈ labels /\ kg.1 = [Str l].
Proof.
  unfold label_groups. intros H. apply list_elem_of_fmap in H as (k & -> & Hk).
  rewrite sort_keys_perm in Hk.
  apply list_elem_of_In, distinct_keys_subset, in_map_iff in Hk as (l & <- & Hl).
  exists l. by rewrite list_elem_of_In.
Qed.

(** A grouping is by key columns, all of them columns of the frame, or
    by labels, under an index without a name. *)
Lemma groupby_inv (df : DataFrame) (keys : list string) (g : GroupBy) :
  groupby df keys = Ok g ->
  (forallb (has_column df) keys = true
   /\ g = {| gb_index := NamedLevels keys;
             gb_columns := columns df;
             gb_groups := map (fun k => (k, group_rows keys k (rows df)))
                              (group_keys_of keys (rows df)) |})
  \/ (gb_index g = UnnamedLevel
      /\ gb_columns g = columns df
      /\ Forall (fun kg : list cell * list row => exists l, l ∈ keys /\ kg.1 = [Str l])
                (gb_groups g)).
Proof.
  unfold groupby.
  destruct ((length keys =? length (rows df))%nat && negb (forallb (has_column df) keys)).
  - intros [= <-]. right. cbn. split; [done|]. split; [done|].
    apply Forall_forall. intros kg. apply label_groups_key.
  - destruct keys as [|k keys].
    + destruct (rows df); [|discriminate]. intros [= <-]. right. cbn.
      split; [done|]. split; [done|]. constructor.
    + destruct (List.find _ (k :: keys)) as [k'|] eqn:Hfind; [discriminate|].
      intros [= <-]. left. split; [|done].
      apply forallb_forall. intros c Hc.
      pose proof (find_none _ _ Hfind c Hc) as H. by apply negb_false_iff in H.
Qed.

(** The aggregate of a grouping, row by row. *)
Lemma agg_mean_std_inv (g : GroupBy) (agg_dict : list string) (out : AggTable) :
  agg_mean_std g agg_dict = Ok out ->
  agg_index out = gb_index g
  /\ Forall2 (fun (kg : list cell * list row) o =>
                group_key o = kg.1
                /\ mapM (agg_metric kg.2) agg_dict = Ok (metrics_of o))
             (gb_groups g) (agg_rows out).
Proof.
  unfold agg_mean_std. destruct agg_dict as [|m0 ms0] eqn:Hd; [discriminate|].
  destruct (List.find _ _); [discriminate|].
  unfold mbind, Result_bind, rbind.
  destruct (mapM _ (gb_groups g)) as [rs|] eqn:Hrs; [|discriminate].
  intros [= <-]. cbn [agg_index agg_rows]. split; [done|].
  apply mapM_Forall2 in Hrs. eapply Forall2_impl; [exact Hrs|].
  intros kg o Ho. cbn beta in Ho.
  destruct (mapM (agg_metric kg.2) (m0 :: ms0)) as [ms|]; [|discriminate].
  by injection Ho as <-.
Qed.

(** What [aggregate_runs] does to the store and which call of the engine
    it makes. *)
Lemma aggregate_runs_unfold (df : DataFrame) (l : loc) (metrics : list string)
    (σ : store) (keys : list string) :
  deref l σ = keys ->
  let keys' := keys ++ appended_key df keys "topology" ++ appended_key df keys "scheduler" in
  Util.aggregate_runs df l metrics σ =
    (if decide (keys' = keys) then σ else <[l := keys']> σ,
     g ← groupby df keys'; agg_mean_std g (dict_keys metrics)).
Proof.
  intros Hl.
  assert (bool_decide ("scheduler" ∈ keys ++ ["topology"])
          = bool_decide ("scheduler" ∈ keys)) as Hmem.
  { apply bool_decide_ext. rewrite elem_of_app, list_elem_of_singleton.
    split; [intros [?|?]; [done|discriminate]|by left]. }
  assert (forall x : list string, x <> [] -> keys ++ x <> keys) as Hne.
  { intros x Hx H. apply (f_equal length) in H. rewrite length_app in H.
    destruct x; [done|simpl in H; lia]. }
  assert (forall (x : list string) τ, deref l (<[l := x]> τ) = x) as Hins.
  { intros x τ. unfold deref. by rewrite lookup_insert_eq. }
  unfold Util.aggregate_runs, appended_key.
  unfold mbind, ST_bind, M, py_in, py_read, when, py_append, lift, mret, ST_ret.
  rewrite Hl.
  destruct (bool_decide ("topology" ∈ keys)), (has_column df "topology");
    cbn [negb andb app]; rewrite ?Hl, ?Hins; rewrite ?Hmem;
    destruct (bool_decide ("scheduler" ∈ keys)), (has_column df "scheduler");
    cbn [negb andb app]; rewrite ?Hl, ?Hins;
    rewrite ?insert_insert_eq, ?app_nil_r, <- ?app_assoc; cbn [app];
    first [ by rewrite decide_True
          | rewrite decide_False; [done | by apply Hne] ].
Qed.

Lemma deref_lookup (l : loc) (σ : store) (keys : list string) :
  σ !! l = Some keys -> deref l σ = keys.
Proof. intros H. unfold deref. by rewrite H. Qed.

(** C2: with [topology] and [scheduler] among the columns and neither
    among the requested keys, [aggregate_runs] augments the keys with the
    two names: the call returns what the engine returns on the keys
    followed by [topology] and [scheduler], which is also what the call
    returns when the caller passes the two names (the same aggregate
    table, or the same exception).  When the caller's keys are columns,
    the table is indexed by the augmented keys and has one row for each
    combination of their values in the table. *)
Theorem aggregate_runs_implicit_keys (df : DataFrame) (keys metrics : list string)
    (l l' : loc) (σ σ' : store) :
  has_column df "topology" = true ->
  has_column df "scheduler" = true ->
  "topology" ∉ keys ->
  "scheduler" ∉ keys ->
  σ !! l = Some keys ->
  σ' !! l' = Some (keys ++ ["topology"; "scheduler"]) ->
  let augmented := keys ++ ["topology"; "scheduler"] in
  let implicit := (Util.aggregate_runs df l metrics σ).2 in
  implicit = (g ← groupby df augmented; agg_mean_std g (dict_keys metrics))
  /\ implicit = (Util.aggregate_runs df l' metrics σ').2
  /\ (forallb (has_column df) keys = true ->
      forall out, implicit = Ok out ->
        index_names out = augmented
        /\ map group_key (agg_rows out) = group_keys_of augmented (rows df)).
Proof.
  intros Ht Hs Hnt Hns Hl Hl'. cbv zeta.
  rewrite (aggregate_runs_unfold df l metrics σ keys (deref_lookup _ _ _ Hl)).
  rewrite (aggregate_runs_unfold df l' metrics σ' _ (deref_lookup _ _ _ Hl')).
  unfold appended_key. rewrite Ht, Hs.
  rewrite (bool_decide_eq_false_2 _ Hnt), (bool_decide_eq_false_2 _ Hns).
  rewrite !bool_decide_eq_true_2 by (rewrite elem_of_app; right; set_solver).
  cbn [negb andb app snd]. rewrite !app_nil_r.
  split; [done|]. split; [done|].
  intros Hcols out Hout.
  rewrite groupby_columns in Hout.
  - cbn [mbind Result_bind rbind] in Hout.
    apply agg_mean_std_inv in Hout as [Hidx Hrows]. cbn [gb_index gb_groups] in *.
    unfold index_names. rewrite Hidx. split; [done|].
    apply Forall2_fmap_l in Hrows. clear -Hrows.
    induction Hrows as [|k o ks os [Hk _] _ IH]; [done|].
    cbn [map]. cbn in Hk. by rewrite Hk, IH.
  - by destruct keys.
  - rewrite forallb_app, Hcols. cbn. by rewrite Ht, Hs.
Qed.

(** C10: the names are appended to the caller's list object itself.  After
    the call, whether it returned or raised, the list at the location the
    caller passed is the old list followed by the names that were missing,
    so it is longer whenever one was missing; no other list changes. *)
Theorem aggregate_runs_mutates_group_cols (df : DataFrame) (keys metrics : list string)
    (l : loc) (σ : store) :
  σ !! l = Some keys ->
  let σ' := (Util.aggregate_runs df l metrics σ).1 in
  let added := appended_key df keys "topology" ++ appended_key df keys "scheduler" in
  σ' !! l = Some (keys ++ added)
  /\ (added <> [] -> (length keys < length (deref l σ'))%nat)
  /\ (forall l0, l0 <> l -> σ' !! l0 = σ !! l0).
Proof.
  intros Hl. cbv zeta.
  rewrite (aggregate_runs_unfold df l metrics σ keys (deref_lookup _ _ _ Hl)). cbn [fst].
  set (added := appended_key df keys "topology" ++ appended_key df keys "scheduler").
  assert ((if decide (keys ++ added = keys) then σ else <[l := keys ++ added]> σ) !! l
          = Some (keys ++ added)) as Hnew.
  { destruct (decide (keys ++ added = keys)) as [->|]; [done|apply lookup_insert_eq]. }
  split; [exact Hnew|]. split.
  - intros Hadd. unfold deref. rewrite Hnew. simpl. rewrite length_app.
    destruct added; [done|simpl; lia].
  - intros l0 Hl0. destruct (decide (keys ++ added = keys)); [done|].
    by rewrite lookup_insert_ne.
Qed.

(** C4: in the table [aggregate_runs] returns, a group made of exactly one
    row of the input has NaN as the standard deviation of every requested
    metric. *)
Theorem aggregate_runs_single_row_std (df : DataFrame) (metrics : list string)
    (l : loc) (σ : store) (out : AggTable) (r : AggRow) :
  (Util.aggregate_runs df l metrics σ).2 = Ok out ->
  r ∈ agg_rows out ->
  length (group_rows (index_names out) (group_key r) (rows df)) = 1%nat ->
  forall c, c ∈ metrics ->
    exists m, m ∈ metrics_of r /\ metric m = c /\ std m = NaN.
Proof.
  intros Hrun Hr Hone c Hc.
  rewrite (aggregate_runs_unfold df l metrics σ _ eq_refl) in Hrun. cbn [snd] in Hrun.
  revert Hrun. generalize (deref l σ ++ appended_key df (deref l σ) "topology"
                                ++ appended_key df (deref l σ) "scheduler").
  intros ks Hrun. unfold mbind, Result_bind, rbind in Hrun.
  destruct (groupby df ks) as [g|] eqn:Hg; [|discriminate].
  apply agg_mean_std_inv in Hrun as [Hidx Hrows].
  apply list_elem_of_lookup in Hr as [i Hr].
  destruct (Forall2_lookup_r _ _ _ _ _ Hrows Hr) as (kg & Hkg & Hgk & Hms).
  unfold index_names in Hone. rewrite Hidx, Hgk in Hone.
  assert (length kg.2 = 1%nat) as Hlen.
  { apply groupby_inv in Hg as [[_ ->]|(Hu & _ & Hlabels)].
    - cbn [gb_index gb_groups level_names] in *.
      apply list_elem_of_lookup_2, list_elem_of_fmap in Hkg as (k & -> & _). done.
    - rewrite Hu in Hone. cbn [level_names] in Hone.
      rewrite Forall_forall in Hlabels.
      destruct (Hlabels kg (list_elem_of_lookup_2 _ _ _ Hkg)) as (lbl & _ & Hlbl).
      rewrite Hlbl in Hone. unfold group_rows in Hone.
      rewrite (filter_ext _ (fun _ => false)) in Hone by done.
      by rewrite filter_false in Hone. }
  assert (c ∈ map metric (metrics_of r)) as Hin.
  { rewrite (mapM_map_metric _ _ _ Hms). by apply elem_of_dict_keys. }
  apply list_elem_of_fmap in Hin as (m & -> & Hm).
  exists m. split; [done|]. split; [done|].
  destruct (mapM_elem _ _ _ _ Hms Hm) as (c' & _ & Hagg).
  by eapply agg_metric_single.
Qed.

Lemma aggregate_runs_implicit_keys_witness :
  let implicit :=
    (Util.aggregate_runs Examples.hosts 1%positive ["cost"] Examples.short_keys).2 in
  implicit = (g ← groupby Examples.hosts ["scenario"; "topology"; "scheduler"];
              agg_mean_std g ["cost"])
  /\ implicit
     = (Util.aggregate_runs Examples.hosts 1%positive ["cost"] Examples.full_keys).2
  /\ (forall out, implicit = Ok out ->
        index_names out = ["scenario"; "topology"; "scheduler"]
        /\ map group_key (agg_rows out)
           = group_keys_of ["scenario"; "topology"; "scheduler"] (rows Examples.hosts)).
Proof.
  destruct (aggregate_runs_implicit_keys Examples.hosts ["scenario"] ["cost"]
              1%positive 1%positive Examples.short_keys Examples.full_keys)
    as (Hengine & Hexplicit & Htable);
    [reflexivity | reflexivity
    | apply (bool_decide_unpack _); vm_compute; exact I
    | apply (bool_decide_unpack _); vm_compute; exact I
    | reflexivity | reflexivity |].
  split; [exact Hengine|]. split; [exact Hexplicit|].
  apply Htable. reflexivity.
Defined.

Lemma aggregate_runs_mutates_group_cols_witness :
  (Util.aggregate_runs Examples.hosts 1%positive ["cost"] Examples.short_keys).1 !! 1%positive
  = Some ["scenario"; "topology"; "scheduler"].
Proof.
  exact (proj1 (aggregate_runs_mutates_group_cols Examples.hosts ["scenario"] ["cost"]
                  1%positive Examples.short_keys eq_refl)).
Defined.

Lemma aggregate_runs_single_row_std_witness :
  exists m, m ∈ metrics_of Examples.large_group /\ metric m = "cost" /\ std m = NaN.
Proof.
  apply (aggregate_runs_single_row_std Examples.hosts ["cost"; "cpu_utilization"]
           1%positive Examples.short_keys Examples.hosts_agg Examples.large_group).
  - vm_compute. reflexivity.
  - apply (list_elem_of_lookup_2 _ 1%nat). vm_compute. reflexivity.
  - vm_compute. reflexivity.
  - apply (bool_decide_unpack _). vm_compute. exact I.
Defined.

(** ** Group keys *)

Lemma filter_length_perm {A} (f : A -> bool) (l l' : list A) :
  l ≡ₚ l' -> length (List.filter f l) = length (List.filter f l').
Proof.
  induction 1 as [|x l l' _ IH|x y l|l l' l'' _ IH1 _ IH2]; simpl.
  - done.
  - destruct (f x); simpl; by rewrite IH.
  - destruct (f x), (f y); done.
  - by rewrite IH1.
Qed.

Lemma filter_map_comm {A B} (f : B -> bool) (g : A -> B) (l : list A) :
  List.filter f (map g l) = map g (List.filter (fun x => f (g x)) l).
Proof.
  induction l as [|x l IH]; simpl; [done|].
  destruct (f (g x)); simpl; by rewrite IH.
Qed.

Lemma cell_eqb_sym (a b : cell) : cell_eqb a b = cell_eqb b a.
Proof.
  destruct a, b; simpl; try done.
  - apply eq_true_iff_eq. rewrite !Qeq_bool_iff. split; intros H; by symmetry.
  - apply String.eqb_sym.
Qed.


Lemma cell_eqb_trans (a b c : cell) :
  cell_eqb a b = true -> cell_eqb b c = true -> cell_eqb a c = true.
Proof.
  destruct a as [|x|x], b as [|y|y], c as [|z|z]; cbn; try done.
  - rewrite !Qeq_bool_iff. intros -> ->. reflexivity.
  - rewrite !String.eqb_eq. by intros -> ->.
Qed.

Lemma cell_eqb_refl (a : cell) : is_nan a = false -> cell_eqb a a = true.
Proof.
  destruct a as [|x|x]; cbn; [done| |].
  - intros _. apply Qeq_bool_iff. reflexivity.
  - intros _. apply String.eqb_refl.
Qed.

Lemma key_eqb_sym (k1 k2 : list cell) : key_eqb k1 k2 = key_eqb k2 k1.
Proof.
  revert k2. induction k1 as [|a k1 IH]; intros [|b k2]; cbn; try done.
  by rewrite cell_eqb_sym, IH.
Qed.

Lemma key_eqb_trans (k1 k2 k3 : list cell) :
  key_eqb k1 k2 = true -> key_eqb k2 k3 = true -> key_eqb k1 k3 = true.
Proof.
  revert k2 k3. induction k1 as [|a k1 IH]; intros [|b k2] [|c k3]; cbn; try done.
  rewrite !andb_true_iff. intros [Hab H12] [Hbc H23]. split.
  - by apply (cell_eqb_trans a b c).
  - by apply (IH k2 k3).
Qed.

Lemma key_eqb_refl (k : list cell) : key_valid k = true -> key_eqb k k = true.
Proof.
  induction k as [|a k IH]; cbn; [done|].
  rewrite !andb_true_iff, negb_true_iff. intros [Ha Hk].
  split; [by apply cell_eqb_refl|by apply IH].
Qed.

(** A key with a null entry equals none. *)
Lemma key_eqb_valid (k1 k2 : list cell) : key_eqb k1 k2 = true -> key_valid k2 = true.
Proof.
  revert k2. induction k1 as [|a k1 IH]; intros [|b k2]; cbn; try done.
  rewrite !andb_true_iff, negb_true_iff. intros [Hab H12]. split; [|by apply IH].
  by destruct a, b.
Qed.

Lemma filter_filter_absorb {A} (p q : A -> bool) (l : list A) :
  (forall x, p x = true -> q x = true) ->
  List.filter p (List.filter q l) = List.filter p l.
Proof.
  intros H. induction l as [|x l IH]; [done|]. cbn [List.filter].
  destruct (q x) eqn:Hq; cbn [List.filter].
  - by rewrite IH.
  - destruct (p x) eqn:Hp; [|done]. by rewrite (H x Hp) in Hq.
Qed.

Lemma filter_filter_disjoint {A} (p q : A -> bool) (l : list A) :
  (forall x, p x = true -> q x = false) ->
  List.filter p (List.filter q l) = [].
Proof.
  intros H. induction l as [|x l IH]; [done|]. cbn [List.filter].
  destruct (q x) eqn:Hq; cbn [List.filter]; [|done].
  destruct (p x) eqn:Hp; [|done]. by rewrite (H x Hp) in Hq.
Qed.

(** Among the distinct keys of a list there is exactly one equal to a
    given key when the list has a key equal to it, and none otherwise. *)
Lemma distinct_keys_count (ks : list (list cell)) (k0 : list cell) :
  length (List.filter (fun k => key_eqb k k0) (distinct_keys ks))
  = if existsb (fun k => key_eqb k k0) ks then 1%nat else 0%nat.
Proof.
  induction ks as [|k ks IH]; [done|].
  cbn [distinct_keys existsb List.filter].
  destruct (key_eqb k k0) eqn:Hk; cbn [orb length].
  - rewrite filter_filter_disjoint; [done|].
    intros k' Hk'. apply negb_false_iff.
    apply (key_eqb_trans k k0 k'); [done|]. by rewrite key_eqb_sym.
  - rewrite filter_filter_absorb; [done|].
    intros k' Hk'. apply negb_true_iff. destruct (key_eqb k k') eqn:Hkk'; [|done].
    by rewrite (key_eqb_trans k k' k0 Hkk' Hk') in Hk.
Qed.

Lemma existsb_valid_keys (keys : list string) (rs : list row) (k0 : list cell) :
  existsb (fun k => key_eqb k k0) (List.filter key_valid (map (row_key keys) rs))
  = existsb (fun r => key_eqb (row_key keys r) k0) rs.
Proof.
  induction rs as [|r rs IH]; [done|]. cbn [map List.filter existsb].
  destruct (key_valid (row_key keys r)) eqn:Hv; cbn [existsb]; [by rewrite IH|].
  rewrite IH. destruct (key_eqb (row_key keys r) k0) eqn:Hk; [|done].
  rewrite key_eqb_sym in Hk. apply key_eqb_valid in Hk. by rewrite Hk in Hv.
Qed.

(** Among the group keys of some rows there is exactly one equal to the
    key of a row when the row's key has no null entry. *)
Lemma group_keys_of_count (keys : list string) (rs : list row) (k0 : list cell) :
  length (List.filter (fun k => key_eqb k k0) (group_keys_of keys rs))
  = if existsb (fun r => key_eqb (row_key keys r) k0) rs then 1%nat else 0%nat.
Proof.
  unfold group_keys_of.
  rewrite (filter_length_perm _ _ _ (sort_keys_perm _)), distinct_keys_count.
  by rewrite existsb_valid_keys.
Qed.

Lemma group_keys_of_valid (keys : list string) (rs : list row) (k : list cell) :
  k ∈ group_keys_of keys rs ->
  key_valid k = true /\ exists r, r ∈ rs /\ k = row_key keys r.
Proof.
  unfold group_keys_of. rewrite (sort_keys_perm _). rewrite list_elem_of_In.
  intros H. apply distinct_keys_subset in H. apply List.filter_In in H as [H Hv].
  split; [done|]. apply in_map_iff in H as (r & <- & Hr).
  exists r. by rewrite list_elem_of_In.
Qed.

(** * Properties of the comparative reporter *)

Lemma comparison_row_ok (cost : DataFrame)
    (comp : gmap string AnalyzeExperiments.TaskMetrics) (r : row) :
  forallb (has_column cost) cost_columns = true ->
  AnalyzeExperiments.comparison_row cost comp r =
    Ok {| AnalyzeExperiments.cmp_scenario_label := get_cell r "scenario_label";
          AnalyzeExperiments.cmp_topology := get_cell r "topology";
          AnalyzeExperiments.cmp_scheduler := get_cell r "scheduler";
          AnalyzeExperiments.cmp_avg_cost := get_cell r "cost_mean";
          AnalyzeExperiments.cmp_cost_std := get_cell r "cost_std";
          AnalyzeExperiments.cmp_cpu_utilization := get_cell r "cpu_utilization_mean";
          AnalyzeExperiments.cmp_cost_efficiency := get_cell r "cost_efficiency";
          AnalyzeExperiments.cmp_completion_rate :=
            AnalyzeExperiments.lookup_completion_rate comp (get_cell r "scenario_label") |}.
Proof.
  intros Hcols.
  assert (forall c, c ∈ cost_columns -> AnalyzeExperiments.row_get cost r c = Ok (get_cell r c)) as Hget.
  { intros c Hc. unfold AnalyzeExperiments.row_get.
    rewrite forallb_forall in Hcols. rewrite Hcols; [done|]. by apply list_elem_of_In. }
  unfold AnalyzeExperiments.comparison_row, cost_columns in *.
  rewrite !Hget by set_solver. reflexivity.
Qed.

Lemma lookup_completion_rate_None
    (comp : gmap string AnalyzeExperiments.TaskMetrics) (label : cell) :
  ~ label_matches comp label ->
  AnalyzeExperiments.lookup_completion_rate comp label = None.
Proof.
  intros Hno. unfold AnalyzeExperiments.lookup_completion_rate.
  destruct label as [|q|s]; try done.
  destruct (comp !! s) as [m|] eqn:Hm; [|done].
  exfalso. apply Hno. exists s. split; [done|]. by rewrite Hm.
Qed.

(** C1: on a cost aggregate the reporter returns a table with one row
    per row of the aggregate, in the same order; the row of a scenario
    label without statistics has [None] as completion rate, the row of a
    label with statistics has their completion rate. *)
Theorem comparative_analysis_one_row_per_cost_row (cost : DataFrame)
    (comp : gmap string AnalyzeExperiments.TaskMetrics) :
  forallb (has_column cost) cost_columns = true ->
  exists out,
    AnalyzeExperiments.comparative_analysis cost comp = Ok out
    /\ length out = length (rows cost)
    /\ forall i r, rows cost !! i = Some r ->
         exists o, out !! i = Some o
           /\ AnalyzeExperiments.cmp_scenario_label o = get_cell r "scenario_label"
           /\ (~ label_matches comp (get_cell r "scenario_label") ->
               AnalyzeExperiments.cmp_completion_rate o = None)
           /\ (forall s m, get_cell r "scenario_label" = Str s -> comp !! s = Some m ->
               AnalyzeExperiments.cmp_completion_rate o
               = Some (AnalyzeExperiments.completion_rate m)).
Proof.
  intros Hcols. unfold AnalyzeExperiments.comparative_analysis.
  destruct (mapM_total (AnalyzeExperiments.comparison_row cost comp) (rows cost))
    as [out Hout].
  { intros r _. rewrite comparison_row_ok by done. eauto. }
  exists out. split; [done|]. split; [by eapply mapM_length|].
  intros i r Hr.
  destruct (mapM_lookup _ _ _ _ _ Hout Hr) as (o & Ho & Hrow).
  rewrite comparison_row_ok in Hrow by done. inversion Hrow; subst o; clear Hrow.
  eexists. split; [exact Ho|]. cbn.
  split; [done|]. split.
  - apply lookup_completion_rate_None.
  - intros s m -> Hm. cbn. by rewrite Hm.
Qed.

Lemma comparative_analysis_one_row_per_cost_row_witness :
  exists out,
    AnalyzeExperiments.comparative_analysis Examples.cost_stats Examples.small_stats = Ok out
    /\ length out = 2%nat
    /\ exists o, out !! 1%nat = Some o /\ AnalyzeExperiments.cmp_completion_rate o = None.
Proof.
  destruct (comparative_analysis_one_row_per_cost_row Examples.cost_stats Examples.small_stats)
    as (out & Hrun & Hlen & Hrows); [reflexivity|].
  exists out. split; [exact Hrun|]. split; [exact Hlen|].
  destruct (Hrows 1%nat _ eq_refl) as (o & Ho & _ & Hnone & _).
  exists o. split; [exact Ho|]. apply Hnone.
  intros (s & Hs & Hsome). vm_compute in Hs. injection Hs as <-.
  vm_compute in Hsome. destruct Hsome as [m Hm]. discriminate Hm.
Defined.

(** * Properties of the task statistics *)

Lemma last_default_irrel {A} (l : list A) (a b : A) :
  l <> [] -> List.last l a = List.last l b.
Proof.
  induction l as [|x l IH]; [done|]. intros _.
  destruct l as [|y l]; [done|]. simpl in *. by apply IH.
Qed.

Lemma last_filter_not_nan (cs : list cell) :
  is_nan (List.last (List.filter (fun c => negb (is_nan c)) cs) NaN) = true ->
  List.filter (fun c => negb (is_nan c)) cs = [].
Proof.
  intros H. destruct (List.filter _ cs) as [|x l] eqn:Hf; [done|]. exfalso.
  assert (In (List.last (x :: l) NaN) (x :: l)) as Hin.
  { clear. revert x. induction l as [|y l IH]; intros x; [by left|].
    right. apply (IH y). }
  rewrite <- Hf in Hin. apply filter_In in Hin as [_ Hin].
  rewrite Hf in Hin. by rewrite H in Hin.
Qed.

(** [GroupBy.last] picks the last entry that is not null. *)
Lemma last_non_null_spec (cs : list cell) :
  last_non_null cs = List.last (List.filter (fun c => negb (is_nan c)) cs) NaN.
Proof.
  induction cs as [|c cs IH]; [done|].
  cbn [last_non_null List.filter]. rewrite IH.
  destruct (List.filter _ cs) as [|x l] eqn:Hf.
  - simpl. by destruct c.
  - assert (is_nan (List.last (x :: l) NaN) = false) as Hnn.
    { destruct (is_nan (List.last (x :: l) NaN)) eqn:E; [|done].
      rewrite <- Hf in E. apply last_filter_not_nan in E. congruence. }
    destruct (List.last (x :: l) NaN) eqn:El; [done| |];
      destruct c; simpl; rewrite <- ?El; try done;
      destruct l; simpl; try done; by apply last_default_irrel.
Qed.

Lemma last_non_null_not_str (cs : list cell) :
  Forall (fun c => is_str c = false) cs -> is_str (last_non_null cs) = false.
Proof.
  induction 1 as [|c cs Hc _ IH]; [done|].
  simpl. destruct (last_non_null cs); try done.
Qed.

Lemma cell_eqb_Str (c : cell) (s : string) : cell_eqb c (Str s) = true <-> c = Str s.
Proof.
  destruct c; simpl; try (split; [discriminate|discriminate]).
  rewrite String.eqb_eq. split; [by intros ->|by inversion 1].
Qed.

Lemma cell_same_not_nan (a b : cell) : is_nan a = false -> cell_same a b = cell_eqb a b.
Proof. by destruct a. Qed.

(** The keys of a grouping by one column are the distinct values of the
    column that are not null. *)
Lemma distinct_singleton_keys (cs : list cell) :
  Forall (fun c => is_nan c = false) cs ->
  distinct_keys (map (fun c => [c]) cs) = map (fun c => [c]) (unique cs).
Proof.
  induction 1 as [|c cs Hc _ IH]; [done|].
  cbn [map distinct_keys unique]. f_equal. rewrite IH.
  rewrite filter_map_comm. f_equal.
  apply filter_ext. intros c'. cbn [key_eqb].
  rewrite andb_true_r. by rewrite cell_same_not_nan.
Qed.

Lemma group_keys_of_task_id (rs : list row) :
  group_keys_of ["task_id"] rs ≡ₚ map (fun c => [c]) (task_ids rs).
Proof.
  unfold group_keys_of, task_ids. rewrite sort_keys_perm.
  replace (map (row_key ["task_id"]) rs)
    with (map (fun c => [c]) (map (fun r : row => get_cell r "task_id") rs))
    by (by rewrite map_map).
  rewrite filter_map_comm.
  erewrite (filter_ext (fun x : cell => key_valid [x])).
  2:{ intros c. unfold key_valid. simpl. apply andb_true_r. }
  rewrite distinct_singleton_keys; [done|].
  apply Forall_forall. intros c Hc. apply list_elem_of_In, filter_In in Hc as [_ Hc].
  by destruct (is_nan c).
Qed.

Lemma unique_keeps_str (cs : list cell) (s : string) :
  In (Str s) cs -> In (Str s) (unique cs).
Proof.
  induction cs as [|c cs IH]; [done|]. intros [->|Hin]; [by left|].
  cbn [unique]. destruct (cell_eqb c (Str s)) eqn:E.
  - left. by apply cell_eqb_Str.
  - right. apply filter_In. split; [by apply IH|].
    destruct c; simpl in *; try done. by rewrite E.
Qed.

Lemma unique_subset (cs : list cell) (c : cell) : In c (unique cs) -> In c cs.
Proof.
  induction cs as [|a cs IH]; [done|]. cbn [unique]. intros [->|Hin]; [by left|].
  right. apply IH. by apply filter_In in Hin as [? _].
Qed.

Lemma filter_cell_eqb_str_nil (cs : list cell) (s : string) :
  ~ In (Str s) cs -> List.filter (cell_eqb (Str s)) cs = [].
Proof.
  induction cs as [|c cs IH]; [done|]. intros Hn. cbn [List.filter].
  destruct (cell_eqb (Str s) c) eqn:E.
  - exfalso. apply Hn. left. rewrite cell_eqb_sym in E. by apply cell_eqb_Str in E.
  - apply IH. intros H. apply Hn. by right.
Qed.

Lemma counts_get_map (cnt : cell -> nat) (U : list cell) (s : string) :
  counts_get (map (fun v => (v, cnt v)) U) (Str s) 0
  = if existsb (fun v => cell_eqb v (Str s)) U then cnt (Str s) else 0%nat.
Proof.
  unfold counts_get. induction U as [|v U IH]; [done|].
  cbn [map List.find existsb fst snd]. destruct (cell_eqb v (Str s)) eqn:E.
  - apply cell_eqb_Str in E. by subst v.
  - simpl. apply IH.
Qed.

(** [value_counts().get(state, 0)] is the number of entries equal to
    [state]. *)
Lemma counts_get_value_counts (cs : list cell) (s : string) :
  counts_get (value_counts cs) (Str s) 0 = length (List.filter (cell_eqb (Str s)) cs).
Proof.
  unfold value_counts.
  rewrite (counts_get_map (fun v => length (List.filter (cell_eqb v) cs))).
  set (U := unique (List.filter (fun c => negb (is_nan c)) cs)).
  destruct (existsb _ U) eqn:E; [done|].
  symmetry. rewrite filter_cell_eqb_str_nil; [done|].
  intros Hin. assert (In (Str s) U) as HU.
  { apply unique_keeps_str. apply filter_In. by split. }
  assert (existsb (fun v => cell_eqb v (Str s)) U = true) as E'.
  { apply existsb_exists. exists (Str s). split; [done|]. by apply cell_eqb_Str. }
  congruence.
Qed.

Lemma get_cell_list_to_map (f : string -> cell) (cols : list string) (c : string) :
  c ∈ cols -> get_cell (list_to_map (map (fun c => (c, f c)) cols)) c = f c.
Proof.
  induction cols as [|a cols IH]; [by intros H; inversion H|].
  intros Hc. cbn [map list_to_map foldr]. unfold get_cell in *.
  destruct (decide (a = c)) as [->|Hne].
  - by rewrite lookup_insert_eq.
  - rewrite lookup_insert_ne by done. apply IH.
    apply elem_of_cons in Hc as [->|]; done.
Qed.

Lemma zipM_cell_sub_ok (xs ys : list cell) :
  Forall (fun c => is_str c = false) xs ->
  Forall (fun c => is_str c = false) ys ->
  exists zs, zipM cell_sub xs ys = Ok zs.
Proof.
  intros Hx. revert ys. induction Hx as [|x xs Hx _ IH]; intros ys Hy; [by eexists|].
  destruct Hy as [|y ys Hy Hys]; [by eexists|].
  simpl. destruct (IH _ Hys) as [zs ->].
  destruct x, y; try done; cbn; eauto.
Qed.

Lemma has_column_filter_rows (p : row -> bool) (df : DataFrame) (c : string) :
  has_column (filter_rows p df) c = has_column df c.
Proof. done. Qed.

Lemma has_column_task (df : DataFrame) (c : string) :
  task_table_ok df = true -> c ∈ task_columns -> has_column df c = true.
Proof.
  unfold task_table_ok. intros H Hc. apply andb_prop in H as [H _].
  rewrite forallb_forall in H. apply H. by apply list_elem_of_In.
Qed.

Lemma times_not_str (df : DataFrame) (r : row) :
  task_table_ok df = true -> In r (rows df) ->
  is_str (get_cell r "finish_time") = false /\ is_str (get_cell r "creation_time") = false.
Proof.
  unfold task_table_ok. intros H Hr. apply andb_prop in H as [_ H].
  rewrite forallb_forall in H. specialize (H r Hr).
  apply andb_prop in H as [H1 H2]. split; by apply negb_true_iff.
Qed.

(** The final states as the statistics compute them, and as the
    vocabulary states them. *)
Lemma final_state_group (rs : list row) (tid : cell) :
  last_non_null (map (fun r : row => get_cell r "task_state")
                     (group_rows ["task_id"] [tid] rs))
  = final_state rs tid.
Proof.
  rewrite last_non_null_spec. unfold final_state, observations, group_rows.
  do 3 f_equal. apply filter_ext. intros r. simpl. apply andb_true_r.
Qed.

Lemma rate_is_rate (count total : nat) :
  (count <= total)%nat -> is_rate (AnalyzeExperiments.rate count total) count total.
Proof.
  intros Hle. unfold is_rate, AnalyzeExperiments.rate.
  destruct total as [|t].
  - simpl. repeat split; try done. lia.
  - replace (0 <? S t)%nat with true by (symmetry; apply Nat.ltb_lt; lia).
    split; [done|]. split; [done|].
    assert (0 < inject_Z (Z.of_nat (S t)))%Q as Hpos.
    { change 0%Q with (inject_Z 0). rewrite <- Zlt_Qlt. lia. }
    split.
    + apply Qle_shift_div_l; [done|]. rewrite Qmult_0_l.
      change 0%Q with (inject_Z 0). rewrite <- Zle_Qle. lia.
    + apply Qle_shift_div_r; [done|]. rewrite Qmult_1_l.
      rewrite <- Zle_Qle. lia.
Qed.

Lemma groupby_last_get (g : GroupBy) (c : string) :
  c ∈ gb_columns g -> c ∉ gb_keys g ->
  map (fun r : row => get_cell r c) (rows (groupby_last g))
  = map (fun kg : list cell * list row =>
           last_non_null (map (fun r : row => get_cell r c) kg.2))
        (gb_groups g).
Proof.
  intros Hc Hk. unfold groupby_last. cbn [rows]. rewrite map_map.
  apply map_ext. intros kg.
  apply (get_cell_list_to_map
           (fun c => last_non_null (map (fun r : row => get_cell r c) kg.2))).
  apply list_elem_of_In, filter_In. split; [by apply list_elem_of_In|].
  by rewrite bool_decide_eq_false_2.
Qed.

Lemma Forall_map_filter {A B} (P : B -> Prop) (f : A -> B) (p : A -> bool) (l : list A) :
  Forall P (map f l) -> Forall P (map f (List.filter p l)).
Proof.
  induction l as [|x l IH]; simpl; [done|]. intros H.
  apply Forall_cons in H as [Hx Hl].
  destruct (p x); simpl; [constructor|]; auto.
Qed.

Lemma last_non_null_nan (cs : list cell) :
  last_non_null cs = NaN <-> Forall (fun c => is_nan c = true) cs.
Proof.
  split.
  - rewrite last_non_null_spec. intros H. apply Forall_forall. intros c Hc.
    destruct (is_nan c) eqn:E; [done|]. exfalso.
    assert (In c (List.filter (fun c => negb (is_nan c)) cs)) as Hin.
    { apply filter_In. split; [by apply list_elem_of_In|by rewrite E]. }
    rewrite last_filter_not_nan in Hin; [done|by rewrite H].
  - induction 1 as [|c cs Hc _ IH]; [done|].
    cbn [last_non_null]. rewrite IH. by destruct c.
Qed.

(** The states that occur in a distribution are the distinct states of
    the series. *)
Lemma value_counts_normalized_keys (cs : list cell) :
  map fst (value_counts_normalized cs)
  = unique (List.filter (fun c => negb (is_nan c)) cs).
Proof.
  unfold value_counts_normalized, value_counts. rewrite !map_map. apply map_id.
Qed.

Lemma value_counts_normalized_nil (cs : list cell) :
  Forall (fun c => is_nan c = true) cs -> value_counts_normalized cs = [].
Proof.
  intros H. unfold value_counts_normalized, value_counts.
  assert (List.filter (fun c => negb (is_nan c)) cs = []) as ->; [|done].
  induction H as [|c cs Hc _ IH]; [done|]. cbn [List.filter]. by rewrite Hc.
Qed.

Lemma value_counts_normalized_not_nil (cs : list cell) (c : cell) :
  c ∈ cs -> is_nan c = false -> value_counts_normalized cs <> [].
Proof.
  intros Hc Hn H. apply (f_equal (map fst)) in H.
  rewrite value_counts_normalized_keys in H. cbn [map] in H.
  destruct (List.filter (fun c => negb (is_nan c)) cs) as [|x l] eqn:Hf; [|discriminate].
  assert (In c (List.filter (fun c => negb (is_nan c)) cs)) as Hin.
  { apply filter_In. split; [by apply list_elem_of_In|by rewrite Hn]. }
  by rewrite Hf in Hin.
Qed.

Section ScenarioMetrics.

Variable df : DataFrame.
Variable s : cell.
Hypothesis Hok : task_table_ok df = true.

Let rs := rows_of_label df s.
Let scenario_tasks :=
  filter_rows (fun r => cell_eqb (get_cell r "scenario_label") s) df.
Let g := {| gb_index := NamedLevels ["task_id"];
            gb_columns := columns df;
            gb_groups := map (fun k => (k, group_rows ["task_id"] k rs))
                             (group_keys_of ["task_id"] rs) |}.
Let tfs := groupby_last g.

Local Lemma groupby_task_id : groupby_column scenario_tasks "task_id" = Ok g.
Proof.
  unfold groupby_column, scenario_tasks.
  rewrite has_column_filter_rows, (has_column_task df "task_id" Hok) by set_solver.
  reflexivity.
Qed.

Local Lemma tfs_has (c : string) :
  c ∈ task_columns -> c <> "task_id" -> has_column tfs c = true.
Proof.
  intros Hc Hne.
  assert (c ∈ columns df) as Hcol.
  { pose proof (has_column_task df c Hok Hc) as H. by apply bool_decide_eq_true in H. }
  unfold has_column, tfs, groupby_last, gb_keys.
  cbn [columns gb_index gb_columns g level_names].
  apply bool_decide_eq_true. apply list_elem_of_In, filter_In.
  split; [by apply list_elem_of_In|].
  rewrite bool_decide_eq_false_2; [done|].
  rewrite list_elem_of_singleton. done.
Qed.

Local Lemma tfs_values (c : string) :
  c ∈ task_columns -> c <> "task_id" ->
  map (fun r : row => get_cell r c) (rows tfs)
  = map (fun k => last_non_null (map (fun r : row => get_cell r c)
                                     (group_rows ["task_id"] k rs)))
        (group_keys_of ["task_id"] rs).
Proof.
  intros Hc Hne.
  assert (c ∈ columns df) as Hcol.
  { pose proof (has_column_task df c Hok Hc) as H. by apply bool_decide_eq_true in H. }
  transitivity (map (fun kg : list cell * list row =>
                       last_non_null (map (fun r : row => get_cell r c) kg.2))
                    (gb_groups g)).
  { apply groupby_last_get; [done|].
    unfold gb_keys. cbn [gb_index g level_names]. by rewrite list_elem_of_singleton. }
  cbn [gb_groups g]. by rewrite map_map.
Qed.

Local Lemma tfs_column (c : string) :
  c ∈ task_columns -> c <> "task_id" ->
  column tfs c = Ok (map (fun r : row => get_cell r c) (rows tfs)).
Proof. intros Hc Hne. unfold column. by rewrite tfs_has. Qed.

Local Lemma tfs_length : length (rows tfs) = length (task_ids rs).
Proof.
  unfold tfs, groupby_last. cbn [rows gb_groups g]. rewrite !length_map.
  rewrite (Permutation_length (group_keys_of_task_id rs)). by rewrite length_map.
Qed.

Local Lemma task_columns_mem (c : string) :
  In c task_columns -> c ∈ task_columns.
Proof. apply list_elem_of_In. Qed.

Local Lemma state_count (st : string) :
  length (List.filter (cell_eqb (Str st))
                      (map (fun r : row => get_cell r "task_state") (rows tfs)))
  = tasks_in_state rs st.
Proof.
  rewrite (tfs_values "task_state"), filter_map_comm, length_map;
    [|apply task_columns_mem; simpl; tauto|done].
  rewrite (filter_length_perm _ _ _ (group_keys_of_task_id rs)).
  rewrite filter_map_comm, length_map. unfold tasks_in_state. f_equal.
  apply filter_ext. intros tid. rewrite final_state_group. apply cell_eqb_sym.
Qed.

Local Lemma completed_length :
  length (List.filter (fun r : row => cell_eqb (get_cell r "task_state") (Str "COMPLETED"))
                      (rows tfs))
  = tasks_in_state rs "COMPLETED".
Proof.
  rewrite <- state_count, filter_map_comm, length_map. f_equal.
  apply filter_ext. intros r. apply cell_eqb_sym.
Qed.

Local Lemma tfs_times_not_str (c : string) :
  c = "finish_time" \/ c = "creation_time" ->
  Forall (fun x => is_str x = false) (map (fun r : row => get_cell r c) (rows tfs)).
Proof.
  intros Hc. rewrite tfs_values.
  2:{ apply task_columns_mem. destruct Hc as [->| ->]; simpl; tauto. }
  2:{ destruct Hc as [->| ->]; done. }
  apply Forall_forall. intros x Hx.
  apply list_elem_of_fmap in Hx as (k & -> & _).
  apply last_non_null_not_str. apply Forall_forall. intros y Hy.
  apply list_elem_of_fmap in Hy as (r & -> & Hr).
  apply list_elem_of_In, filter_In in Hr as [Hr _].
  apply filter_In in Hr as [Hr _].
  destruct (times_not_str df r Hok Hr) as [H1 H2].
  by destruct Hc as [->| ->].
Qed.

Lemma scenario_metrics_spec :
  exists m,
    AnalyzeExperiments.scenario_metrics df s = Ok m
    /\ AnalyzeExperiments.total_tasks m = length (task_ids rs)
    /\ AnalyzeExperiments.completion_rate m
       = AnalyzeExperiments.rate (tasks_in_state rs "COMPLETED") (length (task_ids rs))
    /\ AnalyzeExperiments.termination_rate m
       = AnalyzeExperiments.rate (tasks_in_state rs "TERMINATED") (length (task_ids rs))
    /\ AnalyzeExperiments.error_rate m
       = AnalyzeExperiments.rate (tasks_in_state rs "ERROR") (length (task_ids rs))
    /\ (tasks_in_state rs "COMPLETED" = 0%nat ->
        AnalyzeExperiments.avg_completion_time m = None
        /\ AnalyzeExperiments.median_completion_time m = None
        /\ AnalyzeExperiments.std_completion_time m = None
        /\ AnalyzeExperiments.min_completion_time m = None
        /\ AnalyzeExperiments.max_completion_time m = None).
Proof.
  unfold AnalyzeExperiments.scenario_metrics.
  assert (column df "scenario_label"
          = Ok (map (fun r : row => get_cell r "scenario_label") (rows df))) as ->.
  { unfold column. rewrite (has_column_task df "scenario_label" Hok); [done|].
    apply task_columns_mem. simpl. tauto. }
  cbn [mbind Result_bind rbind].
  fold scenario_tasks. rewrite groupby_task_id. cbn [mbind Result_bind rbind].
  change (groupby_last g) with tfs.
  rewrite (tfs_column "task_state"); [|apply task_columns_mem; simpl; tauto|done].
  cbn [mbind Result_bind rbind].
  rewrite !counts_get_value_counts, !state_count, tfs_length.
  cbn [rows filter_rows]. rewrite completed_length.
  destruct (tasks_in_state rs "COMPLETED") as [|n] eqn:Hn.
  - cbn [Nat.ltb Nat.leb mbind Result_bind rbind]. eexists. split; [reflexivity|]. cbn.
    repeat split; done.
  - replace (0 <? S n)%nat with true by done.
    unfold column. rewrite !has_column_filter_rows.
    rewrite (tfs_has "finish_time"), (tfs_has "creation_time");
      [|apply task_columns_mem; simpl; tauto|done|apply task_columns_mem; simpl; tauto|done].
    cbn [mbind Result_bind rbind rows filter_rows].
    destruct (zipM_cell_sub_ok
                (map (fun r : row => get_cell r "finish_time")
                     (List.filter (fun r : row => cell_eqb (get_cell r "task_state") (Str "COMPLETED")) (rows tfs)))
                (map (fun r : row => get_cell r "creation_time")
                     (List.filter (fun r : row => cell_eqb (get_cell r "task_state") (Str "COMPLETED")) (rows tfs))))
      as [zs Hzs].
    { apply Forall_map_filter, tfs_times_not_str. by left. }
    { apply Forall_map_filter, tfs_times_not_str. by right. }
    rewrite Hzs. cbn [mbind Result_bind rbind]. eexists. split; [reflexivity|]. cbn.
    repeat split; done.
Qed.

(** The data of the third chart: the distribution of the final states
    of the label's tasks. *)
Local Lemma state_distribution_run :
  AnalyzeExperiments.state_distribution df s
  = Ok (value_counts_normalized
          (map (fun r : row => get_cell r "task_state") (rows tfs))).
Proof.
  unfold AnalyzeExperiments.state_distribution.
  assert (column df "scenario_label"
          = Ok (map (fun r : row => get_cell r "scenario_label") (rows df))) as ->.
  { unfold column. rewrite (has_column_task df "scenario_label" Hok); [done|].
    apply task_columns_mem. simpl. tauto. }
  cbn [mbind Result_bind rbind].
  fold scenario_tasks. rewrite groupby_task_id. cbn [mbind Result_bind rbind].
  change (groupby_last g) with tfs.
  rewrite (tfs_column "task_state"); [done|apply task_columns_mem; simpl; tauto|done].
Qed.

(** No final state when no row of the label has both a task id and a
    state. *)
Local Lemma final_states_nan :
  (forall r, In r rs ->
     is_nan (get_cell r "task_id") = true \/ is_nan (get_cell r "task_state") = true) ->
  Forall (fun c => is_nan c = true)
         (map (fun r : row => get_cell r "task_state") (rows tfs)).
Proof.
  intros H. rewrite (tfs_values "task_state");
    [|apply task_columns_mem; simpl; tauto|done].
  apply Forall_forall. intros c Hc. apply list_elem_of_fmap in Hc as (k & -> & Hk).
  assert (last_non_null (map (fun r : row => get_cell r "task_state")
                             (group_rows ["task_id"] k rs)) = NaN) as ->; [|done].
  apply last_non_null_nan, Forall_forall. intros c Hc.
  apply list_elem_of_fmap in Hc as (r & -> & Hr).
  apply list_elem_of_In, filter_In in Hr as [Hr Hkey].
  destruct (H r Hr) as [Hid|Hst]; [|done].
  apply key_eqb_valid in Hkey. cbn in Hkey. by rewrite Hid in Hkey.
Qed.

(** A row of the label with a task id and a state gives its task a
    final state. *)
Local Lemma final_states_some (r : row) :
  In r rs ->
  is_nan (get_cell r "task_id") = false ->
  is_nan (get_cell r "task_state") = false ->
  exists c, c ∈ map (fun r : row => get_cell r "task_state") (rows tfs)
            /\ is_nan c = false.
Proof.
  intros Hr Hid Hst. rewrite (tfs_values "task_state");
    [|apply task_columns_mem; simpl; tauto|done].
  pose proof (group_keys_of_count ["task_id"] rs (row_key ["task_id"] r)) as Hcount.
  assert (existsb (fun r' => key_eqb (row_key ["task_id"] r') (row_key ["task_id"] r)) rs
          = true) as Hex.
  { apply existsb_exists. exists r. split; [done|].
    apply key_eqb_refl. cbn. by rewrite Hid. }
  rewrite Hex in Hcount.
  destruct (List.filter (fun k => key_eqb k (row_key ["task_id"] r))
                        (group_keys_of ["task_id"] rs)) as [|k ks] eqn:Hf; [discriminate|].
  assert (In k (List.filter (fun k => key_eqb k (row_key ["task_id"] r))
                            (group_keys_of ["task_id"] rs))) as Hk
    by (rewrite Hf; by left).
  apply filter_In in Hk as [Hk Hkey].
  set (states := map (fun r : row => get_cell r "task_state")
                     (group_rows ["task_id"] k rs)).
  exists (last_non_null states). split.
  - apply list_elem_of_fmap. exists k. split; [done|by apply list_elem_of_In].
  - destruct (last_non_null states) eqn:E; [|done|done]. exfalso.
    apply last_non_null_nan in E. rewrite Forall_forall in E.
    specialize (E (get_cell r "task_state")). rewrite Hst in E.
    discriminate E. apply list_elem_of_fmap. exists r. split; [done|].
    apply list_elem_of_In, filter_In. by split.
Qed.

Lemma state_distribution_spec :
  exists d,
    AnalyzeExperiments.state_distribution df s = Ok d
    /\ ((exists r, In r rs
                   /\ is_nan (get_cell r "task_id") = false
                   /\ is_nan (get_cell r "task_state") = false) ->
        d <> [])
    /\ ((forall r, In r rs ->
           is_nan (get_cell r "task_id") = true
           \/ is_nan (get_cell r "task_state") = true) ->
        d = []).
Proof.
  eexists. split; [apply state_distribution_run|]. split.
  - intros (r & Hr & Hid & Hst).
    destruct (final_states_some r Hr Hid Hst) as (c & Hc & Hn).
    by apply (value_counts_normalized_not_nil _ c).
  - intros H. by apply value_counts_normalized_nil, final_states_nan.
Qed.

End ScenarioMetrics.

Lemma unique_nonempty (cs : list cell) : cs <> [] -> unique cs <> [].
Proof. by destruct cs. Qed.

(** A value that is not null has an equal among the distinct values. *)
Lemma unique_has (cs : list cell) (c : cell) :
  In c cs -> is_nan c = false -> exists c', In c' (unique cs) /\ cell_eqb c' c = true.
Proof.
  intros Hin Hn. induction cs as [|a cs IH]; [done|]. cbn [unique].
  destruct Hin as [->|Hin].
  { exists c. split; [by left|by apply cell_eqb_refl]. }
  destruct (IH Hin) as (c' & Hc' & Heq).
  destruct (cell_same a c') eqn:Hsame.
  - exists a. split; [by left|].
    assert (cell_eqb a c' = true) as Hac.
    { destruct a; [|done|done]. destruct c'; [|done|done]. by destruct c. }
    by apply (cell_eqb_trans a c' c).
  - exists c'. split; [|done]. right. apply filter_In. split; [done|by rewrite Hsame].
Qed.

Lemma tasks_in_state_le (rs : list row) (st : string) :
  (tasks_in_state rs st <= length (task_ids rs))%nat.
Proof.
  unfold tasks_in_state.
  apply List.filter_length_le.
Qed.

Lemma boxplot_times_ok (df : DataFrame) (s : cell) :
  task_table_ok df = true -> exists ts, AnalyzeExperiments.boxplot_times df s = Ok ts.
Proof.
  intros Hok. unfold AnalyzeExperiments.boxplot_times, column.
  rewrite !has_column_filter_rows.
  rewrite (has_column_task df "scenario_label" Hok),
          (has_column_task df "task_state" Hok),
          (has_column_task df "finish_time" Hok),
          (has_column_task df "creation_time" Hok)
    by (apply list_elem_of_In; simpl; tauto).
  cbn [mbind Result_bind rbind rows filter_rows].
  set (p := fun r : row => cell_eqb (get_cell r "scenario_label") s
                          && cell_eqb (get_cell r "task_state") (Str "COMPLETED")).
  destruct (List.filter p (rows df)) as [|r rs] eqn:Hf; [by eexists|].
  destruct (zipM_cell_sub_ok
              (map (fun r : row => get_cell r "finish_time") (r :: rs))
              (map (fun r : row => get_cell r "creation_time") (r :: rs)))
    as [zs Hzs].
  - apply Forall_forall. intros x Hx. apply list_elem_of_fmap in Hx as (y & -> & Hy).
    apply list_elem_of_In in Hy. rewrite <- Hf in Hy. apply filter_In in Hy as [Hy _].
    by destruct (times_not_str df y Hok Hy).
  - apply Forall_forall. intros x Hx. apply list_elem_of_fmap in Hx as (y & -> & Hy).
    apply list_elem_of_In in Hy. rewrite <- Hf in Hy. apply filter_In in Hy as [Hy _].
    by destruct (times_not_str df y Hok Hy).
  - rewrite Hzs. cbn [rbind]. by eexists.
Qed.

Lemma has_final_state_row (df : DataFrame) :
  has_final_state df = true ->
  exists r, In r (rows df)
            /\ is_nan (get_cell r "scenario_label") = false
            /\ is_nan (get_cell r "task_id") = false
            /\ is_nan (get_cell r "task_state") = false.
Proof.
  unfold has_final_state. intros H. apply existsb_exists in H as (r & Hr & H).
  apply andb_prop in H as [H Hst]. apply andb_prop in H as [Hl Hid].
  exists r. by rewrite <- !negb_true_iff.
Qed.

Lemma has_final_state_none (df : DataFrame) (r : row) :
  has_final_state df = false ->
  In r (rows df) ->
  is_nan (get_cell r "scenario_label") = true
  \/ is_nan (get_cell r "task_id") = true
  \/ is_nan (get_cell r "task_state") = true.
Proof.
  unfold has_final_state. intros H Hr.
  destruct (is_nan (get_cell r "scenario_label")) eqn:Hl; [by left|].
  destruct (is_nan (get_cell r "task_id")) eqn:Hid; [by right; left|].
  destruct (is_nan (get_cell r "task_state")) eqn:Hst; [by right; right|].
  exfalso. apply not_true_iff_false in H. apply H, existsb_exists.
  exists r. by rewrite Hl, Hid, Hst.
Qed.

Lemma state_columns_nil (ds : list (list (cell * Q))) :
  Forall (fun d => d = []) ds -> AnalyzeExperiments.state_columns ds = [].
Proof.
  intros H. unfold AnalyzeExperiments.state_columns.
  assert (concat (map (map fst) ds) = []) as ->; [|done].
  induction H as [|d ds -> _ IH]; [done|]. by cbn.
Qed.

Lemma state_columns_not_nil (ds : list (list (cell * Q))) (d : list (cell * Q)) :
  d ∈ ds -> d <> [] -> AnalyzeExperiments.state_columns ds <> [].
Proof.
  intros Hd Hne. unfold AnalyzeExperiments.state_columns. apply unique_nonempty.
  intros H. destruct d as [|p d]; [done|].
  assert (In p.1 (concat (map (map fst) ds))) as Hin.
  { apply in_concat. exists (map fst (p :: d)). split; [|by left].
    apply in_map. by apply list_elem_of_In. }
  by rewrite H in Hin.
Qed.

(** The statistics and the data of the first two charts are computed
    for every table with the task columns and at least one row: one entry
    per scenario label, each the result of the loop body on that label. *)
Lemma scenario_statistics_total (df : DataFrame) :
  task_table_ok df = true ->
  rows df <> [] ->
  let labels := unique (map (fun r : row => get_cell r "scenario_label") (rows df)) in
  exists stats ts ds,
    mapM (fun s => m ← AnalyzeExperiments.scenario_metrics df s; Ok (s, m)) labels
    = Ok stats
    /\ mapM (AnalyzeExperiments.boxplot_times df) labels = Ok ts
    /\ mapM (AnalyzeExperiments.state_distribution df) labels = Ok ds
    /\ stats <> []
    /\ map fst stats = labels
    /\ forall label m, (label, m) ∈ stats ->
         AnalyzeExperiments.scenario_metrics df label = Ok m.
Proof.
  intros Hok Hrows labels.
  destruct (mapM_total
              (fun s => m ← AnalyzeExperiments.scenario_metrics df s; Ok (s, m)) labels)
    as [stats Hstats].
  { intros s _. destruct (scenario_metrics_spec df s Hok) as (m & -> & _).
    cbn. eauto. }
  pose proof (mapM_Forall2 _ _ _ Hstats) as HF.
  assert (map fst stats = labels) as Hfst.
  { clear -HF. induction HF as [|s p l ps Hsp _ IH]; [done|].
    simpl. f_equal; [|done].
    destruct (AnalyzeExperiments.scenario_metrics df s); [|discriminate].
    cbn in Hsp. by inversion Hsp. }
  assert (stats <> []) as Hne.
  { intros ->. simpl in Hfst. symmetry in Hfst. revert Hfst.
    apply unique_nonempty. by destruct (rows df). }
  destruct (mapM_total (AnalyzeExperiments.boxplot_times df) labels) as [ts Hts].
  { intros s _. by apply boxplot_times_ok. }
  destruct (mapM_total (AnalyzeExperiments.state_distribution df) labels) as [ds Hds].
  { intros s _. destruct (state_distribution_spec df s Hok) as (d & -> & _). eauto. }
  exists stats, ts, ds. repeat split; try done.
  intros label m Hin.
  destruct (mapM_elem _ _ _ _ Hstats Hin) as (s & _ & Hs).
  destruct (AnalyzeExperiments.scenario_metrics df s) eqn:E; [|discriminate].
  cbn in Hs. inversion Hs; subst. done.
Qed.

(** The statistics are returned for every table with the task columns
    in which some task has a final state: one entry per scenario label,
    each the result of the loop body on that label. *)
Lemma analyze_task_completion_total (df : DataFrame) :
  task_table_ok df = true ->
  has_final_state df = true ->
  exists stats,
    AnalyzeExperiments.analyze_task_completion df = Ok stats
    /\ map fst stats = unique (map (fun r : row => get_cell r "scenario_label") (rows df))
    /\ forall label m, (label, m) ∈ stats ->
         AnalyzeExperiments.scenario_metrics df label = Ok m.
Proof.
  intros Hok Hfinal.
  destruct (has_final_state_row df Hfinal) as (r & Hr & Hl & Hid & Hst).
  destruct (scenario_statistics_total df Hok) as (stats & ts & ds & Hstats & Hts & Hds & Hne
                                                  & Hfst & Hbody).
  { by destruct (rows df). }
  exists stats. split; [|done].
  unfold AnalyzeExperiments.analyze_task_completion.
  assert (column df "scenario_label"
          = Ok (map (fun r : row => get_cell r "scenario_label") (rows df))) as ->.
  { unfold column. rewrite (has_column_task df "scenario_label" Hok); [done|].
    apply list_elem_of_In. simpl. tauto. }
  cbn [mbind Result_bind rbind]. rewrite Hstats. cbn [rbind].
  destruct stats as [|st stats]; [done|]. rewrite Hts. cbn [mbind Result_bind rbind].
  rewrite Hds. cbn [mbind Result_bind rbind].
  destruct (AnalyzeExperiments.state_columns ds) eqn:Hcols; [|done]. exfalso.
  destruct (unique_has (map (fun r : row => get_cell r "scenario_label") (rows df))
              (get_cell r "scenario_label")) as (s & Hs & Heq);
    [by apply (in_map (fun r : row => get_cell r "scenario_label"))|done|].
  apply list_elem_of_In, list_elem_of_lookup in Hs as [i Hs].
  destruct (mapM_lookup _ _ _ _ _ Hds Hs) as (d & Hd & Hrun).
  destruct (state_distribution_spec df s Hok) as (d' & Hrun' & Hsome & _).
  rewrite Hrun in Hrun'. injection Hrun' as <-.
  apply (state_columns_not_nil ds d); [by eapply list_elem_of_lookup_2| |done].
  apply Hsome. exists r. split; [|done].
  apply filter_In. split; [done|]. by rewrite cell_eqb_sym.
Qed.

(** When no task of the table has a final state, the frame of the state
    distributions has no column and the third chart raises. *)
Lemma analyze_task_completion_no_state (df : DataFrame) :
  task_table_ok df = true ->
  rows df <> [] ->
  has_final_state df = false ->
  AnalyzeExperiments.analyze_task_completion df
  = Raise (TypeError "no numeric data to plot").
Proof.
  intros Hok Hrows Hfinal.
  destruct (scenario_statistics_total df Hok Hrows)
    as (stats & ts & ds & Hstats & Hts & Hds & Hne & _ & _).
  unfold AnalyzeExperiments.analyze_task_completion.
  assert (column df "scenario_label"
          = Ok (map (fun r : row => get_cell r "scenario_label") (rows df))) as ->.
  { unfold column. rewrite (has_column_task df "scenario_label" Hok); [done|].
    apply list_elem_of_In. simpl. tauto. }
  cbn [mbind Result_bind rbind]. rewrite Hstats. cbn [rbind].
  destruct stats as [|st stats]; [done|]. rewrite Hts. cbn [mbind Result_bind rbind].
  rewrite Hds. cbn [mbind Result_bind rbind].
  rewrite state_columns_nil; [done|].
  apply Forall_forall. intros d Hd.
  destruct (mapM_elem _ _ _ _ Hds Hd) as (s & _ & Hrun).
  destruct (state_distribution_spec df s Hok) as (d' & Hrun' & _ & Hnone).
  rewrite Hrun in Hrun'. injection Hrun' as <-.
  apply Hnone. intros r Hr. apply filter_In in Hr as [Hr Hlabel].
  destruct (has_final_state_none df r Hfinal Hr) as [Hl|[Hid|Hst]]; [|by left|by right].
  by destruct (get_cell r "scenario_label").
Qed.

(** For a task table in which some task has a final state, the
    statistics of [ExperimentAnalyzer.analyze_task_completion] have one
    entry per scenario label; in it the number of tasks is the number of
    distinct task ids among the label's rows, and each rate is the number
    of tasks with the state as last observed state over that number of
    tasks. *)
Lemma experiment_analyzer_rates (df : DataFrame) :
  task_table_ok df = true ->
  has_final_state df = true ->
  exists stats,
    AnalyzeExperiments.analyze_task_completion df = Ok stats
    /\ map fst stats = unique (map (fun r : row => get_cell r "scenario_label") (rows df))
    /\ forall label m, (label, m) ∈ stats ->
         let rs := rows_of_label df label in
         let total := length (task_ids rs) in
         AnalyzeExperiments.total_tasks m = total
         /\ is_rate (AnalyzeExperiments.completion_rate m) (tasks_in_state rs "COMPLETED") total
         /\ is_rate (AnalyzeExperiments.termination_rate m) (tasks_in_state rs "TERMINATED") total
         /\ is_rate (AnalyzeExperiments.error_rate m) (tasks_in_state rs "ERROR") total.
Proof.
  intros Hok Hfinal.
  destruct (analyze_task_completion_total df Hok Hfinal) as (stats & Hrun & Hfst & Hbody).
  exists stats. split; [done|]. split; [done|].
  intros label m Hin. cbv zeta.
  destruct (scenario_metrics_spec df label Hok) as (m' & Hm' & Ht & Hc & Hte & He & _).
  rewrite (Hbody _ _ Hin) in Hm'. inversion Hm'; subst m'.
  rewrite Ht, Hc, Hte, He.
  split; [done|]. repeat split; apply rate_is_rate, tasks_in_state_le.
Qed.

(** C8: for a scenario label none of whose tasks has COMPLETED as final
    state, the loop body computes the five statistics of the completion
    time without raising, and each of them is [None]; these are the
    statistics the call returns for the label, and it returns whenever
    some task of the table has a final state. *)
Theorem no_completed_task_no_time_statistics (df : DataFrame) (label : cell) :
  task_table_ok df = true ->
  tasks_in_state (rows_of_label df label) "COMPLETED" = 0%nat ->
  exists m,
    AnalyzeExperiments.scenario_metrics df label = Ok m
    /\ AnalyzeExperiments.avg_completion_time m = None
    /\ AnalyzeExperiments.median_completion_time m = None
    /\ AnalyzeExperiments.std_completion_time m = None
    /\ AnalyzeExperiments.min_completion_time m = None
    /\ AnalyzeExperiments.max_completion_time m = None
    /\ (has_final_state df = true ->
        label ∈ unique (map (fun r : row => get_cell r "scenario_label") (rows df)) ->
        exists stats,
          AnalyzeExperiments.analyze_task_completion df = Ok stats
          /\ (label, m) ∈ stats).
Proof.
  intros Hok Hzero.
  destruct (scenario_metrics_spec df label Hok) as (m & Hm & _ & _ & _ & _ & Hnone).
  destruct (Hnone Hzero) as (Havg & Hmed & Hstd & Hmin & Hmax).
  exists m. repeat (split; [done|]).
  intros Hfinal Hlabel.
  destruct (analyze_task_completion_total df Hok Hfinal) as (stats & Hrun & Hfst & Hbody).
  exists stats. split; [done|].
  rewrite <- Hfst in Hlabel. apply list_elem_of_fmap in Hlabel as ([l m'] & -> & Hin).
  cbn [fst] in *. rewrite (Hbody _ _ Hin) in Hm. by injection Hm as <-.
Qed.

Lemma no_completed_task_no_time_statistics_witness :
  exists m,
    AnalyzeExperiments.scenario_metrics Examples.tasks
      (Str "large_cost_stable_PredictiveCost") = Ok m
    /\ AnalyzeExperiments.avg_completion_time m = None
    /\ AnalyzeExperiments.median_completion_time m = None
    /\ AnalyzeExperiments.std_completion_time m = None
    /\ AnalyzeExperiments.min_completion_time m = None
    /\ AnalyzeExperiments.max_completion_time m = None
    /\ exists stats,
         AnalyzeExperiments.analyze_task_completion Examples.tasks = Ok stats
         /\ (Str "large_cost_stable_PredictiveCost", m) ∈ stats.
Proof.
  destruct (no_completed_task_no_time_statistics Examples.tasks
              (Str "large_cost_stable_PredictiveCost"))
    as (m & Hm & Havg & Hmed & Hstd & Hmin & Hmax & Hret);
    [vm_compute; reflexivity | vm_compute; reflexivity |].
  exists m. repeat (split; [assumption|]).
  apply Hret; [vm_compute; reflexivity|].
  apply (list_elem_of_lookup_2 _ 1%nat). vm_compute. reflexivity.
Defined.

(** * [more_analysis.analyze_task_completion] *)

(** A group key is the key tuple of a row. *)
Lemma group_keys_of_row_key (keys : list string) (rs : list row) (k : list cell) :
  k ∈ group_keys_of keys rs -> exists r, k = row_key keys r.
Proof.
  unfold group_keys_of. rewrite sort_keys_perm. intros Hk.
  apply list_elem_of_In, distinct_keys_subset, filter_In in Hk as [Hk _].
  apply in_map_iff in Hk as (r & <- & _). eauto.
Qed.

(** A row of the frame [more_analysis.analyze_task_completion] returns
    is the result of the loop body on a group of the kept rows by the two
    key columns: a grouping by labels ends in the [except] branch on its
    first group, whose label does not unpack into two names. *)
Lemma more_analysis_groups (task_df : DataFrame) (m : MoreAnalysis.CompletionMetrics) :
  m ∈ MoreAnalysis.analyze_task_completion task_df ->
  let keys := ["scheduler"; "topology"] in
  let kept :=
    List.filter (fun r : row => negb (isin (get_cell r "scheduler") MoreAnalysis.EXCLUDED))
                (rows task_df) in
  exists r,
    row_key keys r ∈ group_keys_of keys kept
    /\ MoreAnalysis.group_metrics (NamedLevels keys) (columns task_df)
         (row_key keys r, group_rows keys (row_key keys r) kept)
       = Ok m.
Proof.
  unfold MoreAnalysis.analyze_task_completion, MoreAnalysis.drop_isin.
  destruct (column task_df "scheduler") as [cs|]; [|by intros H; inversion H].
  cbn [mbind Result_bind rbind].
  set (kept := filter_rows _ task_df).
  destruct (groupby kept ["scheduler"; "topology"]) as [g|] eqn:Hg;
    [|by intros H; inversion H].
  cbn [mbind Result_bind rbind].
  destruct (mapM (MoreAnalysis.group_metrics _ _) _) as [ms|] eqn:Hms;
    [|by intros H; inversion H].
  intros Hm. destruct (mapM_elem _ _ _ _ Hms Hm) as (kg & Hkg & Hrun).
  apply groupby_inv in Hg as [[_ ->]|(Hu & _ & Hlabels)].
  2:{ exfalso. rewrite Forall_forall in Hlabels.
      destruct (Hlabels kg Hkg) as (lbl & Hlbl & Hkey).
      unfold MoreAnalysis.group_metrics in Hrun. rewrite Hu, Hkey in Hrun.
      apply elem_of_cons in Hlbl as [->|Hlbl]; [discriminate Hrun|].
      apply list_elem_of_singleton in Hlbl as ->. discriminate Hrun. }
  cbn [gb_index gb_columns gb_groups] in *.
  apply list_elem_of_fmap in Hkg as (k & -> & Hk).
  destruct (group_keys_of_row_key _ _ _ Hk) as (r & ->).
  cbv zeta. by exists r.
Qed.

(** The loop body on a group of the two key columns. *)
Lemma group_metrics_inv (cols : list string) (a b : cell) (group : list row)
    (m : MoreAnalysis.CompletionMetrics) :
  MoreAnalysis.group_metrics (NamedLevels ["scheduler"; "topology"]) cols ([a; b], group)
  = Ok m ->
  MoreAnalysis.cm_scheduler m = a
  /\ MoreAnalysis.cm_topology m = b
  /\ MoreAnalysis.cm_total_tasks m = length group
  /\ MoreAnalysis.cm_completed_tasks m = length (completed_rows group)
  /\ MoreAnalysis.cm_completion_rate m
     = (inject_Z (Z.of_nat (length (completed_rows group)))
        / inject_Z (Z.of_nat (length group)) * 100)%Q.
Proof.
  unfold MoreAnalysis.group_metrics.
  cbn [fst snd MoreAnalysis.unpack_pair mbind Result_bind rbind].
  destruct (MoreAnalysis.group_column _ "task_state"); [|discriminate].
  destruct (MoreAnalysis.group_column _ "finish_time"); [|discriminate].
  destruct (MoreAnalysis.group_column _ "creation_time"); [|discriminate].
  cbn [mbind Result_bind rbind].
  destruct (zipM _ _ _) as [d|]; [|discriminate].
  cbn [rbind]. intros [= <-]. cbn. done.
Qed.

(** What [more_analysis.analyze_task_completion] reports for a group:
    the number of its task rows, the number of those in state COMPLETED,
    and their ratio as a percentage. *)
Lemma more_analysis_completion_metrics (task_df : DataFrame)
    (m : MoreAnalysis.CompletionMetrics) :
  m ∈ MoreAnalysis.analyze_task_completion task_df ->
  let group := rows_of_group task_df (MoreAnalysis.cm_scheduler m) (MoreAnalysis.cm_topology m) in
  MoreAnalysis.cm_total_tasks m = length group
  /\ MoreAnalysis.cm_completed_tasks m = length (completed_rows group)
  /\ MoreAnalysis.cm_completion_rate m
     = (inject_Z (Z.of_nat (length (completed_rows group)))
        / inject_Z (Z.of_nat (length group)) * 100)%Q.
Proof.
  intros Hm. destruct (more_analysis_groups task_df m Hm) as (r & _ & Hrun).
  cbn [row_key map] in Hrun. apply group_metrics_inv in Hrun as (Hs & Ht & Hrest).
  cbv zeta. unfold rows_of_group. by rewrite Hs, Ht.
Qed.

(** C3, as the two functions have it.  For a task table in which some
    task has a final state, [ExperimentAnalyzer.analyze_task_completion]
    returns statistics in which every scenario label has
    an entry whose number of tasks is the number of distinct task ids of
    the label, and whose completion, termination and error rates are the
    numbers of tasks with COMPLETED, TERMINATED, ERROR as last observed
    state over that number: fractions between 0 and 1, and 0 when there is
    no task.  [more_analysis.analyze_task_completion] reports for each
    (scheduler, topology) group the percentage of the group's task rows
    that are in state COMPLETED. *)
Theorem task_completion_statistics :
  (forall df : DataFrame,
     task_table_ok df = true ->
     has_final_state df = true ->
     exists stats,
       AnalyzeExperiments.analyze_task_completion df = Ok stats
       /\ map fst stats = unique (map (fun r : row => get_cell r "scenario_label") (rows df))
       /\ forall label m, (label, m) ∈ stats ->
            let rs := rows_of_label df label in
            let total := length (task_ids rs) in
            AnalyzeExperiments.total_tasks m = total
            /\ is_rate (AnalyzeExperiments.completion_rate m)
                       (tasks_in_state rs "COMPLETED") total
            /\ is_rate (AnalyzeExperiments.termination_rate m)
                       (tasks_in_state rs "TERMINATED") total
            /\ is_rate (AnalyzeExperiments.error_rate m)
                       (tasks_in_state rs "ERROR") total)
  /\ (forall (task_df : DataFrame) (m : MoreAnalysis.CompletionMetrics),
        m ∈ MoreAnalysis.analyze_task_completion task_df ->
        let group :=
          rows_of_group task_df (MoreAnalysis.cm_scheduler m) (MoreAnalysis.cm_topology m) in
        MoreAnalysis.cm_total_tasks m = length group
        /\ MoreAnalysis.cm_completed_tasks m = length (completed_rows group)
        /\ MoreAnalysis.cm_completion_rate m
           = (inject_Z (Z.of_nat (length (completed_rows group)))
              / inject_Z (Z.of_nat (length group)) * 100)%Q).
Proof.
  split.
  - apply experiment_analyzer_rates.
  - apply more_analysis_completion_metrics.
Qed.

Lemma task_completion_statistics_witness :
  (exists stats,
     AnalyzeExperiments.analyze_task_completion Examples.tasks = Ok stats
     /\ map fst stats = [Str "small_cost_stable_CostEfficient";
                         Str "large_cost_stable_PredictiveCost"])
  /\ MoreAnalysis.cm_total_tasks Examples.twice_metrics = 2%nat.
Proof.
  split.
  - destruct (proj1 task_completion_statistics Examples.tasks)
      as (stats & Hrun & Hfst & _); [vm_compute; reflexivity | vm_compute; reflexivity |].
    exists stats. split; [exact Hrun | exact Hfst].
  - destruct (proj2 task_completion_statistics Examples.observed_twice
                Examples.twice_metrics) as (Ht & _).
    + apply (list_elem_of_lookup_2 _ 0%nat). vm_compute. reflexivity.
    + rewrite Ht. vm_compute. reflexivity.
Defined.

(** The claim of C3 fails on [more_analysis.analyze_task_completion]: for
    one task observed running and then completed, the only task of its
    scenario, the claim gives the completion rate 1 (which is what
    [ExperimentAnalyzer.analyze_task_completion] computes), and the
    function reports 50. *)
Lemma more_analysis_rate_counts_rows :
  let rs := rows_of_label Examples.observed_twice (Str "small_cost_stable_CostEfficient") in
  length (task_ids rs) = 1%nat
  /\ tasks_in_state rs "COMPLETED" = 1%nat
  /\ (exists m, AnalyzeExperiments.analyze_task_completion Examples.observed_twice
                = Ok [(Str "small_cost_stable_CostEfficient", m)]
                /\ (AnalyzeExperiments.completion_rate m == 1)%Q)
  /\ (exists m, MoreAnalysis.analyze_task_completion Examples.observed_twice = [m]
                /\ (MoreAnalysis.cm_completion_rate m == 50)%Q
                /\ ~ is_rate (MoreAnalysis.cm_completion_rate m) 1 1).
Proof.
  cbv zeta. split; [vm_compute; reflexivity|]. split; [vm_compute; reflexivity|].
  split.
  - eexists. split; [vm_compute; reflexivity|]. vm_compute. reflexivity.
  - eexists. split; [vm_compute; reflexivity|]. split; [vm_compute; reflexivity|].
    intros (_ & _ & _ & Hle). vm_compute in Hle. by apply Hle.
Qed.

(** * Properties of the loaders *)

Lemma for_each_app {S A} (l1 l2 : list A) (body : A -> ST S unit) (σ : S) :
  for_each (l1 ++ l2) body σ =
    match for_each l1 body σ with
    | (σ', Ok _) => for_each l2 body σ'
    | (σ', Raise e) => (σ', Raise e)
    end.
Proof.
  revert σ. induction l1 as [|x l1 IH]; intros σ; [done|].
  cbn [app for_each]. unfold mbind, ST_bind.
  destruct (body x σ) as [σ1 [[]|e]]; [apply IH|done].
Qed.

(** A loop whose bodies all leave the state as it is and return. *)
Lemma for_each_skip {S A} (l : list A) (body : A -> ST S unit) (σ : S) :
  (forall x, In x l -> body x σ = (σ, Ok tt)) -> for_each l body σ = (σ, Ok tt).
Proof.
  induction l as [|x l IH]; intros H; [done|].
  cbn [for_each]. unfold mbind, ST_bind. rewrite (H x) by by left.
  apply IH. intros y Hy. apply H. by right.
Qed.

Lemma is_digit_not_space (c : ascii) : is_digit c = true -> is_space c = false.
Proof.
  destruct c as [[] [] [] [] [] [] [] []]; intros H; try discriminate H; reflexivity.
Qed.

Lemma lstrip_digits (s : string) : all_chars is_digit s = true -> lstrip s = s.
Proof.
  destruct s as [|c s]; [done|]. simpl. intros H. apply andb_prop in H as [H _].
  by rewrite (is_digit_not_space c H).
Qed.

Lemma rstrip_digits (s : string) : all_chars is_digit s = true -> rstrip s = s.
Proof.
  induction s as [|c s IH]; [done|]. simpl. intros H. apply andb_prop in H as [Hc Hs].
  rewrite (IH Hs). destruct s; [|done]. by rewrite (is_digit_not_space c Hc).
Qed.

Lemma parse_digits_digits (s : string) (acc : Z) :
  all_chars is_digit s = true -> (0 <= acc)%Z ->
  exists v, parse_digits s acc true = Some v /\ (0 <= v)%Z.
Proof.
  revert acc. induction s as [|c s IH]; intros acc H Hacc; [by exists acc|].
  simpl in *. apply andb_prop in H as [Hc Hs]. rewrite Hc.
  apply IH; [done|].
  unfold is_digit, digit_value in *. apply andb_prop in Hc as [H1 _].
  apply Nat.leb_le in H1. lia.
Qed.

(** [int] of a directory name that [isdigit] accepts: a natural number. *)
Lemma py_int_isdigit (name : string) :
  isdigit name = true -> exists n, py_int name = Ok n /\ (0 <= n)%Z.
Proof.
  intros H. assert (all_chars is_digit name = true) as Hall by by destruct name.
  unfold py_int. rewrite (lstrip_digits _ Hall), (rstrip_digits _ Hall).
  destruct name as [|c s]; [done|].
  assert (parse_digits (String c s) 0 false = parse_digits (String c s) 0 true) as Hp.
  { simpl in *. apply andb_prop in Hall as [-> _]. done. }
  destruct (parse_digits_digits (String c s) 0 Hall) as (v & Hv & Hpos); [done|].
  assert (match String c s with
          | String "+" t' => parse_digits t' 0 false
          | String "-" t' => Z.opp <$> parse_digits t' 0 false
          | _ => parse_digits (String c s) 0 false
          end = Some v) as ->.
  { rewrite <- Hv, <- Hp. simpl in Hall. apply andb_prop in Hall as [Hc _].
    destruct c as [[] [] [] [] [] [] [] []]; try discriminate Hc; reflexivity. }
  eauto.
Qed.

Lemma list_index_out_of_range {A} (l : list A) (n : Z) :
  (Z.of_nat (length l) <= n)%Z -> list_index l n = Raise IndexError.
Proof.
  intros H. unfold list_index.
  replace (n <? 0)%Z with false by (symmetry; apply Z.ltb_ge; lia).
  replace (n <? Z.of_nat (length l))%Z with false by (symmetry; apply Z.ltb_ge; lia).
  by rewrite andb_false_r.
Qed.

(** C5, as the loader has it: when the listing of [raw-output] reaches a
    directory whose number is not below the number of registry entries,
    [read_parquet_files] raises [IndexError], whatever the entries before
    it gave and whatever follows it.  The call returns no table: the
    tables collected from the entries before the failing one, which are
    what the call returns when the listing ends there, are lost. *)
Theorem read_parquet_files_index_out_of_range (fs : FS)
    (base_path cost_pattern file_type : string) (trackr_data : list ScenarioInfo)
    (before after : list (string * ScenarioNode)) (name : string) (node : ScenarioNode)
    (n : Z) (dfs : list DataFrame) :
  trackr (fs base_path cost_pattern) = TrackrLoaded trackr_data ->
  raw_output (fs base_path cost_pattern) = Some (before ++ (name, node) :: after) ->
  isdigit name = true ->
  py_int name = Ok n ->
  (Z.of_nat (length trackr_data) <= n)%Z ->
  Util.collect_tables trackr_data file_type before [] = (dfs, Ok tt) ->
  Util.read_parquet_files fs base_path cost_pattern file_type = Raise IndexError
  /\ forall fs' : FS,
       trackr (fs' base_path cost_pattern) = TrackrLoaded trackr_data ->
       raw_output (fs' base_path cost_pattern) = Some before ->
       dfs <> [] ->
       Util.read_parquet_files fs' base_path cost_pattern file_type
       = Ok (concat_frames dfs).
Proof.
  intros Htrackr Hraw Hdigit Hint Hrange Hbefore. split.
  - assert (Util.collect_tables trackr_data file_type (before ++ (name, node) :: after) []
            = (dfs, Raise IndexError)) as Hloop.
    { unfold Util.collect_tables in *. rewrite for_each_app, Hbefore.
      cbn [for_each]. unfold mbind at 1, ST_bind at 1.
      unfold Util.read_scenario. rewrite Hdigit. cbn [negb].
      unfold mbind, ST_bind, lift. rewrite Hint.
      rewrite (list_index_out_of_range _ _ Hrange). reflexivity. }
    unfold Util.read_parquet_files, Util.read_trackr, listdir_root.
    rewrite Htrackr, Hraw. cbn [mbind Result_bind rbind]. rewrite Hloop.
    by destruct dfs.
  - intros fs' Htrackr' Hraw' Hne.
    unfold Util.read_parquet_files, Util.read_trackr, listdir_root.
    rewrite Htrackr', Hraw'. cbn [mbind Result_bind rbind]. rewrite Hbefore.
    by destruct dfs.
Qed.

(** A loop whose bodies all return and keep [f] of the state returns and
    keeps it. *)
Lemma for_each_preserve {S A B} (f : S -> B) (l : list A) (body : A -> ST S unit) (σ : S) :
  (forall x τ, In x l -> exists τ', body x τ = (τ', Ok tt) /\ f τ' = f τ) ->
  exists σ', for_each l body σ = (σ', Ok tt) /\ f σ' = f σ.
Proof.
  revert σ. induction l as [|x l IH]; intros σ H; [by exists σ|].
  cbn [for_each]. unfold mbind, ST_bind.
  destruct (H x σ) as (σ1 & -> & H1); [by left|].
  destruct (IH σ1) as (σ2 & -> & H2); [intros y τ Hy; apply H; by right|].
  exists σ2. split; [done|]. by rewrite H2.
Qed.

Lemma no_table_seed (kind : string) (seeds : list (string * SeedDir))
    (seed_dir : string) (files : SeedDir) :
  no_table kind seeds = true -> In (seed_dir, files) seeds ->
  String.prefix "seed=" seed_dir = false \/ files !! (kind +:+ ".parquet") = None.
Proof.
  unfold no_table. rewrite forallb_forall. intros H Hin.
  specialize (H _ Hin). cbn [fst snd] in H.
  apply orb_prop in H as [H|H]; [left; by apply negb_true_iff|right].
  apply negb_true_iff, bool_decide_eq_false in H.
  destruct (files !! _); [|done]. exfalso. apply H. eauto.
Qed.

Lemma read_seed_no_table (file_type topology scheduler scenario_num : string)
    (seed_dir : string) (files : SeedDir) (dfs : list DataFrame) :
  String.prefix "seed=" seed_dir = false \/ files !! (file_type +:+ ".parquet") = None ->
  Util.read_seed file_type topology scheduler scenario_num (seed_dir, files) dfs
  = (dfs, Ok tt).
Proof.
  unfold Util.read_seed. intros [->| ->]; [done|].
  by destruct (String.prefix "seed=" seed_dir).
Qed.

Lemma read_scenario_no_table (trackr_data : list ScenarioInfo) (file_type : string)
    (entry : string * ScenarioNode) (dfs : list DataFrame) :
  walked_without_table trackr_data file_type entry = true ->
  Util.read_scenario trackr_data file_type entry dfs = (dfs, Ok tt).
Proof.
  destruct entry as [name node]. unfold walked_without_table, Util.read_scenario.
  cbn [fst snd]. destruct (isdigit name); cbn [negb orb]; [|done].
  intros H. apply andb_prop in H as [Hreg Hnode].
  unfold registered in Hreg. unfold mbind, ST_bind, lift.
  destruct (py_int name) as [n|]; [|done].
  destruct (list_index trackr_data n) as [info|]; [|done].
  unfold Util.scheduler_of.
  destruct (topology info) as [topo|]; [|done].
  destruct (allocationPolicy info) as [policy|]; [|done].
  apply andb_prop in Hreg as [Hp Hs].
  apply bool_decide_eq_true in Hp as [path Hp], Hs as [sched Hs].
  cbn [dict_get mbind Result_bind rbind]. rewrite Hp, Hs.
  cbn [dict_get mbind Result_bind rbind].
  destruct node as [|seeds]; [done|]. cbn [listdir].
  apply for_each_skip. intros [seed_dir files] Hin.
  apply read_seed_no_table. by eapply no_table_seed.
Qed.

Lemma load_seed_spec (trackr_file : TrackrFile) (scenario_path scenario : string)
    (seed_dir : string) (files : SeedDir) (σ : MoreAnalysis.Loaded) :
  exists σ',
    MoreAnalysis.load_seed trackr_file scenario_path scenario (seed_dir, files) σ
    = (σ', Ok tt)
    /\ (String.prefix "seed=" seed_dir = false \/ files !! "host.parquet" = None ->
        σ'.1 = σ.1)
    /\ (String.prefix "seed=" seed_dir = false \/ files !! "task.parquet" = None ->
        σ'.2 = σ.2).
Proof.
  unfold MoreAnalysis.load_seed.
  destruct (String.prefix "seed=" seed_dir); cbn [negb].
  2:{ exists σ. by repeat split. }
  unfold MoreAnalysis.catch. eexists. split; [reflexivity|].
  unfold mbind, ST_bind, lift, modify.
  destruct (files !! "host.parquet") as [hc|];
    [destruct (MoreAnalysis.load_table trackr_file scenario_path scenario seed_dir hc)|];
    (destruct (files !! "task.parquet") as [tc|];
     [destruct (MoreAnalysis.load_table trackr_file scenario_path scenario seed_dir tc)|]);
    cbn; split; intros [?|?]; done.
Qed.

Lemma load_scenario_spec (kind : string) (trackr_file : TrackrFile) (root : string)
    (entry : string * ScenarioNode) (σ : MoreAnalysis.Loaded) :
  kind = "host" \/ kind = "task" ->
  listed_without_table kind entry = true ->
  exists σ',
    MoreAnalysis.load_scenario trackr_file root entry σ = (σ', Ok tt)
    /\ (if String.eqb kind "host" then σ'.1 = σ.1 else σ'.2 = σ.2).
Proof.
  intros Hkind. destruct entry as [name node].
  unfold listed_without_table, MoreAnalysis.load_scenario. cbn [fst snd].
  destruct (isdigit name); cbn [negb orb].
  2:{ intros _. exists σ. split; [done|]. by destruct (String.eqb kind "host"). }
  destruct node as [|seeds]; [done|]. intros Hno.
  unfold mbind, ST_bind, lift. cbn [listdir].
  destruct (for_each_preserve
              (fun τ : MoreAnalysis.Loaded => if String.eqb kind "host" then τ.1 else τ.2)
              seeds
              (MoreAnalysis.load_seed trackr_file (path_join root name) name) σ)
    as (σ' & Hrun & Hkeep).
  { intros [seed_dir files] τ Hin.
    destruct (load_seed_spec trackr_file (path_join root name) name seed_dir files τ)
      as (τ' & Hτ & Hhost & Htask).
    exists τ'. split; [done|].
    pose proof (no_table_seed kind seeds seed_dir files Hno Hin) as Hnone.
    destruct Hkind as [-> | ->]; cbn [String.eqb Ascii.eqb Bool.eqb];
      [by apply Hhost | by apply Htask]. }
  exists σ'. split; [done|].
  by destruct (String.eqb kind "host").
Qed.

Lemma load_data_no_table (kind : string) (fs : FS) (base_path cost_pattern : string)
    (entries : list (string * ScenarioNode)) :
  kind = "host" \/ kind = "task" ->
  raw_output (fs base_path cost_pattern) = Some entries ->
  forallb (listed_without_table kind) entries = true ->
  MoreAnalysis.load_data fs base_path cost_pattern = Raise (ValueError "No data loaded").
Proof.
  intros Hkind Hraw Hno. unfold MoreAnalysis.load_data. rewrite Hraw.
  destruct (for_each_preserve
              (fun τ : MoreAnalysis.Loaded => if String.eqb kind "host" then τ.1 else τ.2)
              entries
              (MoreAnalysis.load_scenario (trackr (fs base_path cost_pattern))
                 (pattern_path base_path cost_pattern)) ([], []))
    as ([hs ts] & -> & Hkeep).
  { intros entry τ Hin. rewrite forallb_forall in Hno.
    destruct (load_scenario_spec kind (trackr (fs base_path cost_pattern))
                (pattern_path base_path cost_pattern) entry τ Hkind (Hno _ Hin))
      as (τ' & Hτ & Hk).
    exists τ'. split; [done|]. by destruct (String.eqb kind "host"). }
  destruct Hkind as [-> | ->]; cbn in Hkeep; subst; [done|by destruct hs].
Qed.

(** C6: when the walk of [raw-output] finds no table of the requested
    kind (so in particular when no scenario directory has a [seed=...]
    entry), [read_parquet_files] raises the [ValueError] of the empty
    result instead of returning a table; [load_data] does the same when
    the host tables or the task tables are missing. *)
Theorem no_table_found_raises (fs : FS) (base_path cost_pattern : string)
    (entries : list (string * ScenarioNode)) :
  raw_output (fs base_path cost_pattern) = Some entries ->
  (forall file_type trackr_data,
     trackr (fs base_path cost_pattern) = TrackrLoaded trackr_data ->
     forallb (walked_without_table trackr_data file_type) entries = true ->
     Util.read_parquet_files fs base_path cost_pattern file_type
     = Raise (ValueError ("No " +:+ file_type +:+ ".parquet files found for "
                          +:+ cost_pattern +:+ " pattern.")))
  /\ (forall kind,
        kind = "host" \/ kind = "task" ->
        forallb (listed_without_table kind) entries = true ->
        MoreAnalysis.load_data fs base_path cost_pattern
        = Raise (ValueError "No data loaded")).
Proof.
  intros Hraw. split.
  - intros file_type trackr_data Htrackr Hno.
    unfold Util.read_parquet_files, Util.read_trackr, listdir_root.
    rewrite Htrackr, Hraw. cbn [mbind Result_bind rbind].
    unfold Util.collect_tables. rewrite for_each_skip; [done|].
    intros entry Hin. rewrite forallb_forall in Hno.
    by apply read_scenario_no_table, Hno.
  - intros kind Hkind Hno. by eapply load_data_no_table.
Qed.

Lemma read_parquet_files_index_out_of_range_witness :
  Util.read_parquet_files Examples.fs_stray "output" "stable" "host" = Raise IndexError
  /\ forall fs' : FS,
       trackr (fs' "output" "stable") = TrackrLoaded Examples.registry ->
       raw_output (fs' "output" "stable") = Some [("0", ScenarioDir [Examples.seed0])] ->
       Examples.loaded_before_stray <> [] ->
       Util.read_parquet_files fs' "output" "stable" "host"
       = Ok (concat_frames Examples.loaded_before_stray).
Proof.
  apply (read_parquet_files_index_out_of_range Examples.fs_stray "output" "stable" "host"
           Examples.registry [("0", ScenarioDir [Examples.seed0])]
           [("1", ScenarioDir [Examples.seed0])] "5" (ScenarioDir [Examples.seed0]) 5);
    [reflexivity | reflexivity | reflexivity | reflexivity | vm_compute; discriminate
    | vm_compute; reflexivity].
Defined.

(** The claim of C5 fails: in [stray_dir] the tables of scenario 0 are
    loaded before directory 5 is reached and scenario 1, after it, is in
    the registry, yet the call returns no table, so the failure is not
    confined to directory 5; without that directory the same call returns
    the tables of the two scenarios. *)
Lemma read_parquet_files_discards_loaded_tables :
  Examples.loaded_before_stray <> []
  /\ Util.read_parquet_files Examples.fs_stray "output" "stable" "host" = Raise IndexError
  /\ ~ (exists df, Util.read_parquet_files Examples.fs_stray "output" "stable" "host" = Ok df)
  /\ (exists df, Util.read_parquet_files Examples.fs_complete "output" "stable" "host" = Ok df
                 /\ length (rows df) = 4%nat).
Proof.
  split; [vm_compute; discriminate|].
  assert (Util.read_parquet_files Examples.fs_stray "output" "stable" "host"
          = Raise IndexError) as Hraise by (vm_compute; reflexivity).
  split; [exact Hraise|]. split.
  - intros [df Hdf]. rewrite Hraise in Hdf. discriminate.
  - eexists. split; [vm_compute; reflexivity|]. vm_compute. reflexivity.
Qed.

Lemma no_table_found_raises_witness :
  Util.read_parquet_files Examples.fs_empty "output" "stable" "host"
  = Raise (ValueError "No host.parquet files found for stable pattern.")
  /\ MoreAnalysis.load_data Examples.fs_empty "output" "stable"
     = Raise (ValueError "No data loaded").
Proof.
  destruct (no_table_found_raises Examples.fs_empty "output" "stable"
              [("0", ScenarioDir []); ("1", ScenarioDir [("notes", ∅)])] eq_refl)
    as [Hutil Hmore].
  split.
  - apply (Hutil "host" Examples.registry); [reflexivity | vm_compute; reflexivity].
  - apply (Hmore "host"); [left; reflexivity | vm_compute; reflexivity].
Defined.

(** * The scheduler label of a registry entry *)

(** [get_scheduler_info] on a scenario directory that has a registry
    entry: the entry's policy type, or "Unknown" when the entry has none. *)
Lemma get_scheduler_info_registered (configs : list ScenarioInfo) (scenario_path : string)
    (n : Z) (config : ScenarioInfo) :
  py_int (basename scenario_path) = Ok n ->
  (0 <= n)%Z ->
  configs !! Z.to_nat n = Some config ->
  MoreAnalysis.get_scheduler_info (TrackrLoaded configs) scenario_path
  = match allocationPolicy config with
    | Some {| policyType := Some policy_type |} => policy_type
    | _ => "Unknown"
    end.
Proof.
  intros Hint Hpos Hcfg.
  unfold MoreAnalysis.get_scheduler_info, MoreAnalysis.registry_entry.
  rewrite Hint. cbn [mbind Result_bind rbind].
  pose proof (lookup_lt_Some _ _ _ Hcfg) as Hlt.
  replace (n <? Z.of_nat (length configs))%Z with true
    by (symmetry; apply Z.ltb_lt; lia).
  unfold list_index.
  replace (n <? 0)%Z with false by (symmetry; apply Z.ltb_ge; lia).
  replace (0 <=? n)%Z with true by (symmetry; apply Z.leb_le; lia).
  replace (n <? Z.of_nat (length configs))%Z with true
    by (symmetry; apply Z.ltb_lt; lia).
  cbn [andb]. rewrite Hcfg. cbn [mbind Result_bind rbind].
  unfold MoreAnalysis.scheduler_label_of.
  destruct (allocationPolicy config) as [[[policy_type|]]|]; reflexivity.
Qed.

Lemma get_scheduler_info_registered_witness :
  MoreAnalysis.get_scheduler_info (TrackrLoaded Examples.registry)
    "output/cost_comparison/stable/cost_experiment_stable/raw-output/1"
  = "PredictiveCost".
Proof.
  refine (get_scheduler_info_registered Examples.registry
            "output/cost_comparison/stable/cost_experiment_stable/raw-output/1" 1
            (nth 1 Examples.registry Examples.no_policy_type) _ _ _);
    [reflexivity | vm_compute; discriminate | reflexivity].
Defined.

(** C7 fails on [read_parquet_files]: for a registry entry whose
    allocation policy has no policy type the loader raises [KeyError]
    where [get_scheduler_info] answers "Unknown". *)
Theorem read_parquet_files_missing_policy_type :
  Util.scheduler_of Examples.no_policy_type = Raise (KeyError "policyType")
  /\ Util.read_parquet_files Examples.fs_untyped "output" "stable" "host"
     = Raise (KeyError "policyType")
  /\ MoreAnalysis.get_scheduler_info (TrackrLoaded [Examples.no_policy_type])
       "output/cost_comparison/stable/cost_experiment_stable/raw-output/0"
     = "Unknown".
Proof. repeat split; vm_compute; reflexivity. Qed.

(** * Properties of the drivers *)

Section MoreAnalysisMain.

Variable fs : FS.
Variable calculate : DataFrame -> DataFrame.
Variable visualize save :
  DataFrame -> list (string * MoreAnalysis.CompletionMetrics) -> string -> list string.
Variable cross :
  list DataFrame -> list (list (string * MoreAnalysis.CompletionMetrics))
  -> list string * Result unit.

Let analyze_pattern := MoreAnalysis.analyze_pattern fs calculate visualize save.

(** One turn of the loop: it returns, whatever the block did; it logs the
    pattern, and the failure if the block raised; it appends the
    pattern's contribution, if any, to the two lists. *)
Lemma analyze_pattern_spec (p : string) (s : MoreAnalysis.MainState) :
  exists s' added,
    analyze_pattern p s = (s', Ok tt)
    /\ MoreAnalysis.log s'
       = MoreAnalysis.log s ++ Info ("Analyzing " +:+ p +:+ " pattern") :: added
    /\ (forall e, prepared fs p = Raise e ->
        Error (("Error analyzing " +:+ p +:+ " pattern: ") +:+ exn_message e) ∈ added)
    /\ MoreAnalysis.all_efficiency_metrics s'
       = MoreAnalysis.all_efficiency_metrics s
         ++ option_list (fst <$> contribution fs calculate p)
    /\ MoreAnalysis.all_completion_metrics s'
       = MoreAnalysis.all_completion_metrics s
         ++ option_list (snd <$> contribution fs calculate p).
Proof.
  unfold analyze_pattern, MoreAnalysis.analyze_pattern, MoreAnalysis.catch_and_log,
    MoreAnalysis.pattern_body, contribution, prepared.
  unfold mbind at 1, ST_bind at 1. unfold MoreAnalysis.logger at 1, modify at 1.
  unfold mbind at 1, ST_bind at 1, lift at 1.
  destruct (MoreAnalysis.load_data fs "output" p) as [data|e] eqn:Hload.
  2:{ eexists _, _. split; [reflexivity|]. cbn. rewrite <- ?app_assoc. cbn.
      split; [reflexivity|]. split.
      - intros e' He'. inversion He'; subst. apply list_elem_of_singleton. done.
      - by rewrite !app_nil_r. }
  unfold mbind at 1, ST_bind at 1, lift at 1. cbn [mbind Result_bind rbind].
  destruct (MoreAnalysis.drop_isin "scheduler" MoreAnalysis.EXCLUDED data.1)
    as [host|e] eqn:Hhost.
  2:{ eexists _, _. split; [reflexivity|]. cbn. rewrite <- ?app_assoc. cbn.
      split; [reflexivity|]. split.
      - intros e' He'. inversion He'; subst. apply list_elem_of_singleton. done.
      - by rewrite !app_nil_r. }
  unfold mbind at 1, ST_bind at 1, lift at 1. cbn [mbind Result_bind rbind].
  destruct (MoreAnalysis.drop_isin "scheduler" MoreAnalysis.EXCLUDED data.2)
    as [task|e] eqn:Htask.
  2:{ eexists _, _. split; [reflexivity|]. cbn. rewrite <- ?app_assoc. cbn.
      split; [reflexivity|]. split.
      - intros e' He'. inversion He'; subst. apply list_elem_of_singleton. done.
      - by rewrite !app_nil_r. }
  cbn [mbind Result_bind rbind].
  destruct ((length (rows host) =? 0)%nat || (length (rows task) =? 0)%nat).
  - eexists _, _. split; [reflexivity|]. cbn. rewrite <- ?app_assoc. cbn.
    split; [reflexivity|]. split; [intros e' He'; discriminate|].
    by rewrite !app_nil_r.
  - eexists _, _. split; [reflexivity|]. cbn. rewrite <- ?app_assoc. cbn.
    split; [reflexivity|]. split; [intros e' He'; discriminate|]. done.
Qed.

Lemma patterns_loop_spec (ps : list string) (s : MoreAnalysis.MainState) :
  exists s' added,
    for_each ps analyze_pattern s = (s', Ok tt)
    /\ MoreAnalysis.log s' = MoreAnalysis.log s ++ added
    /\ (forall p, p ∈ ps -> Info ("Analyzing " +:+ p +:+ " pattern") ∈ added)
    /\ (forall p e, p ∈ ps -> prepared fs p = Raise e ->
        Error (("Error analyzing " +:+ p +:+ " pattern: ") +:+ exn_message e) ∈ added)
    /\ MoreAnalysis.all_efficiency_metrics s'
       = MoreAnalysis.all_efficiency_metrics s
         ++ map fst (omap (contribution fs calculate) ps)
    /\ MoreAnalysis.all_completion_metrics s'
       = MoreAnalysis.all_completion_metrics s
         ++ map snd (omap (contribution fs calculate) ps).
Proof.
  revert s. induction ps as [|p ps IH]; intros s.
  - exists s, []. cbn. rewrite !app_nil_r.
    split; [done|]. split; [done|].
    split; [intros p H; inversion H|]. split; [intros p e H; inversion H|done].
  - destruct (analyze_pattern_spec p s) as (s1 & added1 & Hrun1 & Hlog1 & Herr1 & Heff1 & Hcomp1).
    destruct (IH s1) as (s2 & added2 & Hrun2 & Hlog2 & Hvis2 & Herr2 & Heff2 & Hcomp2).
    exists s2, (Info ("Analyzing " +:+ p +:+ " pattern") :: added1 ++ added2).
    split. { cbn [for_each]. unfold mbind, ST_bind. by rewrite Hrun1. }
    split. { rewrite Hlog2, Hlog1, <- app_assoc. done. }
    split.
    { intros q Hq. apply elem_of_cons in Hq as [->|Hq]; [by left|].
      right. apply elem_of_app. right. by apply Hvis2. }
    split.
    { intros q e Hq He. right. apply elem_of_app.
      apply elem_of_cons in Hq as [->|Hq]; [left; by apply Herr1|right; by eapply Herr2]. }
    assert (omap (contribution fs calculate) (p :: ps)
            = option_list (contribution fs calculate p)
              ++ omap (contribution fs calculate) ps) as ->.
    { cbn. by destruct (contribution fs calculate p). }
    rewrite Heff2, Hcomp2, Heff1, Hcomp1, <- !app_assoc, !map_app.
    by destruct (contribution fs calculate p) as [[eff comp]|].
Qed.

Lemma cross_pattern_spec (s : MoreAnalysis.MainState) :
  exists s' added,
    MoreAnalysis.cross_pattern cross s = (s', Ok tt)
    /\ MoreAnalysis.log s' = MoreAnalysis.log s ++ added
    /\ MoreAnalysis.all_efficiency_metrics s' = MoreAnalysis.all_efficiency_metrics s
    /\ MoreAnalysis.all_completion_metrics s' = MoreAnalysis.all_completion_metrics s.
Proof.
  unfold MoreAnalysis.cross_pattern, MoreAnalysis.catch_and_log.
  unfold mbind at 1, ST_bind at 1.
  destruct (MoreAnalysis.all_efficiency_metrics s) as [|eff effs] eqn:He.
  { exists s, []. cbn. rewrite app_nil_r. done. }
  destruct (MoreAnalysis.all_completion_metrics s) as [|comp comps] eqn:Hc.
  { exists s, []. cbn. rewrite app_nil_r. done. }
  unfold mbind, ST_bind, MoreAnalysis.logger, MoreAnalysis.write_files, modify, lift.
  destruct (cross (eff :: effs) (comp :: comps)) as [out [[]|e]];
    eexists _, _; (split; [reflexivity|]); cbn; rewrite <- ?app_assoc; cbn;
    rewrite ?He, ?Hc; done.
Qed.

Lemma more_analysis_main_run (s : MoreAnalysis.MainState) :
  exists s' added,
    MoreAnalysis.main fs calculate visualize save cross s = (s', Ok tt)
    /\ MoreAnalysis.log s' = MoreAnalysis.log s ++ added
    /\ (forall p, p ∈ MoreAnalysis.patterns ->
        Info ("Analyzing " +:+ p +:+ " pattern") ∈ added)
    /\ (forall p e, p ∈ MoreAnalysis.patterns -> prepared fs p = Raise e ->
        Error (("Error analyzing " +:+ p +:+ " pattern: ") +:+ exn_message e) ∈ added)
    /\ MoreAnalysis.all_efficiency_metrics s'
       = MoreAnalysis.all_efficiency_metrics s
         ++ map fst (omap (contribution fs calculate) MoreAnalysis.patterns)
    /\ MoreAnalysis.all_completion_metrics s'
       = MoreAnalysis.all_completion_metrics s
         ++ map snd (omap (contribution fs calculate) MoreAnalysis.patterns).
Proof.
  unfold MoreAnalysis.main.
  unfold mbind at 1, ST_bind at 1. unfold MoreAnalysis.logger at 1, modify at 1.
  set (s0 := {| MoreAnalysis.log := _ |}).
  destruct (patterns_loop_spec MoreAnalysis.patterns s0)
    as (s1 & added1 & Hrun1 & Hlog1 & Hvis & Herr & Heff & Hcomp).
  fold analyze_pattern. unfold mbind at 1, ST_bind at 1. rewrite Hrun1.
  destruct (cross_pattern_spec s1) as (s2 & added2 & Hrun2 & Hlog2 & Heff2 & Hcomp2).
  unfold mbind at 1, ST_bind at 1. rewrite Hrun2.
  unfold mbind, ST_bind, MoreAnalysis.logger, modify.
  eexists _, _. split; [reflexivity|]. cbn.
  rewrite Hlog2, Hlog1, Heff2, Hcomp2, Heff, Hcomp. subst s0. cbn.
  rewrite <- !app_assoc.
  split; [reflexivity|]. split.
  { intros p Hp. right. rewrite !elem_of_app. left. by apply Hvis. }
  split; [|done].
  intros p e Hp He. right. rewrite !elem_of_app. left. by eapply Herr.
Qed.

End MoreAnalysisMain.

(** [analyze_experiments.main]: the first pattern whose analysis raises
    ends the run. *)
Lemma analyze_experiments_main_failure (fs : FS)
    (resource cost : AnalyzeExperiments.ExperimentAnalyzer -> Result DataFrame)
    (w w1 w2 : AnalyzeExperiments.World) (before after : list string) (p : string)
    (e : exn) :
  AnalyzeExperiments.patterns = before ++ p :: after ->
  for_each before (AnalyzeExperiments.analyze_pattern fs resource cost)
    {| AnalyzeExperiments.log :=
         AnalyzeExperiments.log w ++ [Info "Starting experiment analysis (main)..."];
       AnalyzeExperiments.files := AnalyzeExperiments.files w |}
  = (w1, Ok tt) ->
  AnalyzeExperiments.analyze_pattern fs resource cost p w1 = (w2, Raise e) ->
  AnalyzeExperiments.main fs resource cost w
  = ({| AnalyzeExperiments.log :=
          AnalyzeExperiments.log w2
          ++ [Error ("Error in main analysis: " +:+ exn_message e)];
        AnalyzeExperiments.files := AnalyzeExperiments.files w2 |},
     Raise e).
Proof.
  intros Hps Hbefore Hp.
  unfold AnalyzeExperiments.main, AnalyzeExperiments.log_and_reraise.
  unfold mbind at 1, ST_bind at 1.
  unfold AnalyzeExperiments.logger at 1, modify at 1.
  unfold mbind at 1, ST_bind at 1.
  rewrite Hps, for_each_app, Hbefore. cbn [for_each].
  unfold mbind at 1, ST_bind at 1. by rewrite Hp.
Qed.

(** C9, as the two drivers have it.  [more_analysis.main] returns
    (exit status 0) whatever the patterns do: every pattern of its list is
    started, the failure of a pattern is logged, and the cross-pattern
    lists receive exactly the contributions of the patterns that did not
    fail.  [analyze_experiments.main] logs the failure of a pattern and
    raises it again: nothing is logged or written for the patterns after
    it and the exit status is 1. *)
Theorem drivers_on_pattern_failure :
  (forall (fs : FS) (calculate : DataFrame -> DataFrame)
          (visualize save :
             DataFrame -> list (string * MoreAnalysis.CompletionMetrics) -> string
             -> list string)
          (cross :
             list DataFrame -> list (list (string * MoreAnalysis.CompletionMetrics))
             -> list string * Result unit)
          (s : MoreAnalysis.MainState),
     let r := MoreAnalysis.main fs calculate visualize save cross s in
     exit_status r.2 = 0%Z
     /\ (forall p, p ∈ MoreAnalysis.patterns ->
         Info ("Analyzing " +:+ p +:+ " pattern") ∈ MoreAnalysis.log r.1)
     /\ (forall p e, p ∈ MoreAnalysis.patterns -> prepared fs p = Raise e ->
         Error (("Error analyzing " +:+ p +:+ " pattern: ") +:+ exn_message e)
         ∈ MoreAnalysis.log r.1)
     /\ MoreAnalysis.all_efficiency_metrics r.1
        = MoreAnalysis.all_efficiency_metrics s
          ++ map fst (omap (contribution fs calculate) MoreAnalysis.patterns)
     /\ MoreAnalysis.all_completion_metrics r.1
        = MoreAnalysis.all_completion_metrics s
          ++ map snd (omap (contribution fs calculate) MoreAnalysis.patterns))
  /\ (forall (fs : FS)
             (resource cost : AnalyzeExperiments.ExperimentAnalyzer -> Result DataFrame)
             (w w1 w2 : AnalyzeExperiments.World) (before after : list string)
             (p : string) (e : exn),
        AnalyzeExperiments.patterns = before ++ p :: after ->
        for_each before (AnalyzeExperiments.analyze_pattern fs resource cost)
          {| AnalyzeExperiments.log :=
               AnalyzeExperiments.log w ++ [Info "Starting experiment analysis (main)..."];
             AnalyzeExperiments.files := AnalyzeExperiments.files w |}
        = (w1, Ok tt) ->
        AnalyzeExperiments.analyze_pattern fs resource cost p w1 = (w2, Raise e) ->
        let r := AnalyzeExperiments.main fs resource cost w in
        exit_status r.2 = 1%Z
        /\ r.2 = Raise e
        /\ AnalyzeExperiments.log r.1
           = AnalyzeExperiments.log w2
             ++ [Error ("Error in main analysis: " +:+ exn_message e)]
        /\ AnalyzeExperiments.files r.1 = AnalyzeExperiments.files w2).
Proof.
  split.
  - intros fs calculate visualize save cross s. cbv zeta.
    destruct (more_analysis_main_run fs calculate visualize save cross s)
      as (s' & added & -> & Hlog & Hvis & Herr & Heff & Hcomp).
    cbn [fst snd exit_status]. rewrite Hlog.
    split; [done|]. split.
    { intros p Hp. apply elem_of_app. right. by apply Hvis. }
    split; [|done].
    intros p e Hp He. apply elem_of_app. right. by eapply Herr.
  - intros fs resource cost w w1 w2 before after p e Hps Hbefore Hp. cbv zeta.
    rewrite (analyze_experiments_main_failure fs resource cost w w1 w2 before after p e)
      by done.
    done.
Qed.

Lemma drivers_on_pattern_failure_witness :
  exit_status (MoreAnalysis.main Examples.fs_stable_empty Examples.table_stage
                 (Examples.writer_stage ".png")
                 (Examples.writer_stage ".csv") Examples.cross_stage Examples.state0).2
  = 0%Z
  /\ exit_status (AnalyzeExperiments.main Examples.fs_stable_empty Examples.resource_stage
                    Examples.cost_stage Examples.world0).2
     = 1%Z.
Proof.
  split.
  - exact (proj1 (proj1 drivers_on_pattern_failure Examples.fs_stable_empty
                    Examples.table_stage
                    (Examples.writer_stage ".png") (Examples.writer_stage ".csv")
                    Examples.cross_stage Examples.state0)).
  - refine (proj1 (proj2 drivers_on_pattern_failure Examples.fs_stable_empty
                     Examples.resource_stage Examples.cost_stage Examples.world0
                     _ _ [] ["volatile"; "diurnal"; "spike"] "stable" _ _ _ _));
      [reflexivity | reflexivity | vm_compute; reflexivity].
Defined.

(** The claim of C9 fails on [analyze_experiments.main]: with no seed
    directory under the first pattern, [stable], and complete runs under
    the other three, the driver logs the failure of [stable] and exits
    with status 1; none of the other patterns is started, and nothing is
    written, although each of them is analysed without failure when
    started. *)
Lemma analyze_experiments_main_aborts :
  let main := AnalyzeExperiments.main Examples.fs_stable_empty Examples.resource_stage
                Examples.cost_stage in
  let analyze_pattern :=
    AnalyzeExperiments.analyze_pattern Examples.fs_stable_empty Examples.resource_stage
      Examples.cost_stage in
  exit_status (main Examples.world0).2 = 1%Z
  /\ AnalyzeExperiments.log (main Examples.world0).1
     = [Info "Starting experiment analysis (main)...";
        Info (newline +:+ "Analyzing 'stable' cost pattern...");
        Error "Error in main analysis: No host.parquet files found for stable pattern."]
  /\ AnalyzeExperiments.files (main Examples.world0).1 = []
  /\ Forall (fun p => (analyze_pattern p Examples.world0).2 = Ok tt)
            ["volatile"; "diurnal"; "spike"].
Proof.
  cbv zeta. split; [vm_compute; reflexivity|]. split; [vm_compute; reflexivity|].
  split; [vm_compute; reflexivity|].
  repeat constructor; vm_compute; reflexivity.
Qed.

(** * Further properties of the scripts *)

(** ** The topology of a registry path *)

Lemma topology_of_path_step (path : string) :
  Util.topology_of_path path =
    if String.prefix "topology_small" path then "small"
    else if String.prefix "topology_medium" path then "medium"
    else if String.prefix "topology_large" path then "large"
    else match path with
         | EmptyString => "unknown"
         | String _ path' => Util.topology_of_path path'
         end.
Proof. by destruct path. Qed.

Lemma str_contains_step (needle hay : string) :
  str_contains needle hay =
    String.prefix needle hay
    || match hay with
       | EmptyString => false
       | String _ hay' => str_contains needle hay'
       end.
Proof. by destruct hay. Qed.

(** X1.  The topology that [read_parquet_files] and
    [get_experiment_mapping] read from a registry path is one of [small],
    [medium], [large] and [unknown]; a size is returned only when the path
    contains [topology_<size>], and [unknown] exactly when the path
    contains none of the three. *)
Theorem topology_of_path_values (path : string) :
  Util.topology_of_path path ∈ ["small"; "medium"; "large"; "unknown"]
  /\ (Util.topology_of_path path = "small" -> str_contains "topology_small" path = true)
  /\ (Util.topology_of_path path = "medium" -> str_contains "topology_medium" path = true)
  /\ (Util.topology_of_path path = "large" -> str_contains "topology_large" path = true)
  /\ (Util.topology_of_path path = "unknown" <->
      str_contains "topology_small" path = false
      /\ str_contains "topology_medium" path = false
      /\ str_contains "topology_large" path = false).
Proof.
  induction path as [|c path IH].
  - repeat split; try discriminate; try done.
    apply (bool_decide_unpack _). vm_compute. exact I.
  - rewrite topology_of_path_step.
    rewrite (str_contains_step "topology_small"), (str_contains_step "topology_medium"),
      (str_contains_step "topology_large").
    destruct (String.prefix "topology_small" (String c path)) eqn:Hs.
    { repeat split; try discriminate; try done.
      - apply (bool_decide_unpack _). vm_compute. exact I.
      - intros (? & _); discriminate. }
    destruct (String.prefix "topology_medium" (String c path)) eqn:Hm.
    { repeat split; try discriminate; try done.
      - apply (bool_decide_unpack _). vm_compute. exact I.
      - intros (? & ? & _); discriminate. }
    destruct (String.prefix "topology_large" (String c path)) eqn:Hl.
    { repeat split; try discriminate; try done.
      - apply (bool_decide_unpack _). vm_compute. exact I.
      - intros (? & ? & ?); discriminate. }
    cbn [orb]. exact IH.
Qed.
(** ** Loops, columns and rows: general facts *)

(** A property of the state that every turn of a loop keeps, whether the
    turn returns or raises, holds when the loop ends. *)
Lemma for_each_invariant {S A} (P : S -> Prop) (l : list A) (body : A -> ST S unit) (σ : S) :
  (forall x τ, In x l -> P τ -> P (body x τ).1) ->
  P σ -> P (for_each l body σ).1.
Proof.
  revert σ. induction l as [|x l IH]; intros σ Hbody Hσ; [done|].
  cbn [for_each]. unfold mbind, ST_bind.
  pose proof (Hbody x σ (or_introl eq_refl) Hσ) as Hx.
  destruct (body x σ) as [τ [[]|e]]; cbn [fst] in *; [|done].
  apply IH; [|done]. intros y τ' Hy. apply Hbody. by right.
Qed.

Lemma get_cell_insert (c : string) (v : cell) (r : row) : get_cell (<[c := v]> r) c = v.
Proof. unfold get_cell. by rewrite lookup_insert_eq. Qed.

Lemma get_cell_insert_ne (c c' : string) (v : cell) (r : row) :
  c <> c' -> get_cell (<[c := v]> r) c' = get_cell r c'.
Proof. intros H. unfold get_cell. by rewrite lookup_insert_ne. Qed.

Lemma has_column_set_column (c c' : string) (v : cell) (df : DataFrame) :
  has_column (set_column c v df) c' = has_column df c' || bool_decide (c' = c).
Proof.
  unfold has_column at 1. unfold set_column. cbn [columns].
  destruct (has_column df c) eqn:Hc.
  - unfold has_column in *. apply bool_decide_eq_true in Hc.
    destruct (bool_decide (c' ∈ columns df)) eqn:H; [done|].
    cbn [orb]. apply bool_decide_eq_false in H. symmetry.
    apply bool_decide_eq_false. by intros ->.
  - unfold has_column. rewrite <- bool_decide_or. apply bool_decide_ext.
    rewrite elem_of_app, list_elem_of_singleton. done.
Qed.

Lemma has_column_concat_frames (dfs : list DataFrame) (c : string) :
  has_column (concat_frames dfs) c = existsb (fun df => has_column df c) dfs.
Proof.
  unfold has_column at 1. unfold concat_frames. cbn [columns].
  induction dfs as [|df dfs IH]; [done|].
  cbn [map concat existsb]. rewrite <- IH. unfold has_column.
  rewrite <- bool_decide_or. apply bool_decide_ext.
  rewrite !elem_of_dict_keys, elem_of_app. done.
Qed.

Lemma rows_concat_frames (dfs : list DataFrame) (r : row) :
  r ∈ rows (concat_frames dfs) <-> exists df, df ∈ dfs /\ r ∈ rows df.
Proof.
  unfold concat_frames. cbn [rows]. rewrite list_elem_of_In, in_concat. split.
  - intros (rs & Hrs & Hr). apply in_map_iff in Hrs as (df & <- & Hdf).
    exists df. by rewrite !list_elem_of_In.
  - intros (df & Hdf & Hr). exists (rows df). rewrite in_map_iff.
    apply list_elem_of_In in Hdf. apply list_elem_of_In in Hr. eauto.
Qed.
(** ** The tags of the loader of [Utils/util.py] *)

Lemma list_index_lookup {A} (l : list A) (i : Z) (a : A) :
  (0 <= i)%Z -> list_index l i = Ok a -> l !! Z.to_nat i = Some a.
Proof.
  intros Hi. unfold list_index.
  destruct (i <? 0)%Z eqn:Hneg; [lia|].
  destruct ((0 <=? i) && (i <? Z.of_nat (length l)))%Z; [|discriminate].
  destruct (l !! Z.to_nat i); [|discriminate]. by intros [= ->].
Qed.

Lemma tagged_columns (tags : list (string * cell)) (df : DataFrame) :
  map fst tags = tag_columns ->
  forallb (has_column (fold_left (fun d t => set_column t.1 t.2 d) tags df)) tag_columns
  = true.
Proof.
  destruct tags as [|[c1 v1] [|[c2 v2] [|[c3 v3] [|[c4 v4] [|]]]]]; try discriminate.
  intros [= -> -> -> ->]. cbn [fold_left fst snd forallb tag_columns].
  rewrite !has_column_set_column.
  repeat (rewrite ?bool_decide_eq_true_2 by done; rewrite ?orb_true_r; cbn [andb]).
  done.
Qed.

Lemma read_seed_tagged (trackr_data : list ScenarioInfo) (n : Z) (info : ScenarioInfo)
    (path scheduler file_type scenario_num : string) (entry : string * SeedDir)
    (dfs : list DataFrame) :
  (0 <= n)%Z ->
  py_int scenario_num = Ok n ->
  trackr_data !! Z.to_nat n = Some info ->
  topology info ≫= pathToFile = Some path ->
  allocationPolicy info ≫= policyType = Some scheduler ->
  Forall (tagged_frame trackr_data) dfs ->
  Forall (tagged_frame trackr_data)
    (Util.read_seed file_type (Util.topology_of_path path) scheduler scenario_num entry dfs).1.
Proof.
  intros Hn Hint Hinfo Hpath Hsched Hdfs. destruct entry as [seed_dir files].
  unfold Util.read_seed.
  destruct (negb (String.prefix "seed=" seed_dir)); [done|].
  destruct (files !! (file_type +:+ ".parquet")) as [content|]; [|done].
  unfold mbind, ST_bind, lift. destruct (read_parquet content) as [df|]; [|done].
  rewrite Hint. destruct (seed_of seed_dir) as [seed|]; [|done].
  cbn. apply Forall_app. split; [done|]. constructor; [|constructor].
  split.
  - apply (tagged_columns [("topology", _); ("scheduler", _); ("scenario", _); ("seed", _)]).
    done.
  - intros r Hr. exists (Z.to_nat n), info, path, scheduler, seed.
    rewrite Z2Nat.id by done.
    repeat (split; [done|]).
    cbn [set_column rows] in Hr. rewrite !map_map in Hr.
    apply list_elem_of_fmap in Hr as (r0 & -> & _).
    rewrite get_cell_insert.
    rewrite !(get_cell_insert_ne "seed") by done. rewrite get_cell_insert.
    rewrite !(get_cell_insert_ne "scenario") by done. rewrite get_cell_insert.
    rewrite !(get_cell_insert_ne "scheduler") by done. rewrite get_cell_insert.
    done.
Qed.

Lemma read_scenario_tagged (trackr_data : list ScenarioInfo) (file_type : string)
    (entry : string * ScenarioNode) (dfs : list DataFrame) :
  Forall (tagged_frame trackr_data) dfs ->
  Forall (tagged_frame trackr_data) (Util.read_scenario trackr_data file_type entry dfs).1.
Proof.
  intros Hdfs. destruct entry as [scenario_num node]. unfold Util.read_scenario.
  destruct (isdigit scenario_num) eqn:Hd; [|done]. cbn [negb].
  destruct (py_int_isdigit _ Hd) as (n & Hint & Hn).
  unfold mbind at 1, ST_bind, lift. rewrite Hint.
  unfold mbind at 1. destruct (list_index trackr_data n) as [info|] eqn:Hinfo; [|done].
  apply list_index_lookup in Hinfo; [|done].
  unfold mbind at 1. destruct (topology info) as [topo|] eqn:Ht; [|done]. cbn [dict_get].
  unfold mbind at 1. destruct (pathToFile topo) as [path|] eqn:Hp; [|done]. cbn [dict_get].
  unfold mbind at 1. unfold Util.scheduler_of.
  destruct (allocationPolicy info) as [policy|] eqn:Ha; [|done].
  cbn [dict_get mbind Result_bind rbind].
  destruct (policyType policy) as [scheduler|] eqn:Hs; [|done]. cbn [dict_get].
  unfold mbind at 1. destruct (listdir node) as [seeds|]; [|done].
  apply (for_each_invariant (Forall (tagged_frame trackr_data))); [|done].
  intros seed τ _ Hτ.
  apply (read_seed_tagged trackr_data n info path scheduler); try done.
  - by rewrite Ht.
  - by rewrite Ha.
Qed.

Lemma collect_tables_tagged (trackr_data : list ScenarioInfo) (file_type : string)
    (entries : list (string * ScenarioNode)) (dfs : list DataFrame) :
  Forall (tagged_frame trackr_data) dfs ->
  Forall (tagged_frame trackr_data) (Util.collect_tables trackr_data file_type entries dfs).1.
Proof.
  intros Hdfs. apply (for_each_invariant (Forall (tagged_frame trackr_data))); [|done].
  intros entry τ _. apply read_scenario_tagged.
Qed.

(** What [read_parquet_files] returns is the concatenation of tagged
    tables, at least one. *)
Lemma read_parquet_files_inv (fs : FS) (base_path cost_pattern file_type : string)
    (df : DataFrame) :
  Util.read_parquet_files fs base_path cost_pattern file_type = Ok df ->
  exists trackr_data dfs,
    trackr (fs base_path cost_pattern) = TrackrLoaded trackr_data
    /\ dfs <> [] /\ df = concat_frames dfs
    /\ Forall (tagged_frame trackr_data) dfs.
Proof.
  unfold Util.read_parquet_files, Util.read_trackr. intros H.
  destruct (trackr (fs base_path cost_pattern)) as [| |trackr_data]; try discriminate.
  cbn [mbind Result_bind rbind] in H.
  destruct (listdir_root _) as [entries|]; [|discriminate].
  cbn [mbind Result_bind rbind] in H.
  pose proof (collect_tables_tagged trackr_data file_type entries [] (List.Forall_nil _))
    as Hinv.
  destruct (Util.collect_tables trackr_data file_type entries []) as [dfs r].
  cbn [fst] in Hinv. destruct dfs as [|df0 dfs]; destruct r as [[]|]; try discriminate.
  injection H as <-. exists trackr_data, (df0 :: dfs). done.
Qed.
(** X2.  A table that [read_parquet_files] returns has the columns
    [topology], [scheduler], [scenario] and [seed], and each of its rows
    carries the tags of one entry of the registry: the entry's number as
    [scenario], the topology found in the entry's path, the entry's policy
    type as [scheduler], and an integer [seed]. *)
Theorem read_parquet_files_tags (fs : FS) (base_path cost_pattern file_type : string)
    (df : DataFrame) :
  Util.read_parquet_files fs base_path cost_pattern file_type = Ok df ->
  exists trackr_data,
    Util.read_trackr fs base_path cost_pattern = Ok trackr_data
    /\ forallb (has_column df) tag_columns = true
    /\ forall r, r ∈ rows df -> exists n, tagged_by trackr_data n r.
Proof.
  intros H. apply read_parquet_files_inv in H as (trackr_data & dfs & Ht & Hne & -> & Hdfs).
  exists trackr_data. split; [unfold Util.read_trackr; by rewrite Ht|]. split.
  - destruct dfs as [|df0 dfs]; [done|]. apply Forall_cons in Hdfs as [[Hcols _] _].
    apply forallb_forall. intros c Hc. rewrite has_column_concat_frames.
    cbn [existsb]. rewrite forallb_forall in Hcols. by rewrite (Hcols c Hc).
  - intros r Hr. apply rows_concat_frames in Hr as (df & Hdf & Hr).
    rewrite Forall_forall in Hdfs. by apply (Hdfs df Hdf).
Qed.

Lemma read_parquet_files_tags_witness :
  exists trackr_data,
    Util.read_trackr Examples.fs_complete "output" "stable" = Ok trackr_data
    /\ forallb (has_column Examples.loaded_hosts) tag_columns = true
    /\ forall r, r ∈ rows Examples.loaded_hosts -> exists n, tagged_by trackr_data n r.
Proof.
  apply (read_parquet_files_tags Examples.fs_complete "output" "stable" "host").
  vm_compute. reflexivity.
Defined.
(** ** [get_experiment_mapping] *)

Lemma enumerate_lookup {A} (l : list A) (i : nat) (a : A) :
  l !! i = Some a -> Util.enumerate l !! i = Some (i, a).
Proof. intros H. unfold Util.enumerate. rewrite list_lookup_imap, H. done. Qed.

Lemma enumerate_elem {A} (l : list A) (p : nat * A) :
  p ∈ Util.enumerate l -> l !! p.1 = Some p.2.
Proof.
  unfold Util.enumerate. intros H. apply list_elem_of_lookup in H as [i H].
  rewrite list_lookup_imap in H. destruct (l !! i) eqn:Hi; [|discriminate].
  injection H as <-. done.
Qed.

(** The dict of a complete entry. *)
Lemma mapping_entry_complete (i : nat) (info : ScenarioInfo) (path scheduler : string) :
  topology info ≫= pathToFile = Some path ->
  allocationPolicy info ≫= policyType = Some scheduler ->
  Util.mapping_entry i info
  = Ok (<["scenario" := Num (inject_Z (Z.of_nat i))]>
          (<["topology" := Str (Util.topology_of_path path)]>
             (<["scheduler" := Str scheduler]> ∅))).
Proof.
  intros Hp Hs. unfold Util.mapping_entry, Util.scheduler_of.
  destruct (topology info) as [[[p|]]|]; try discriminate. injection Hp as ->.
  destruct (allocationPolicy info) as [[[s|]]|]; try discriminate. injection Hs as ->.
  reflexivity.
Qed.

Lemma mapping_entry_ok (i : nat) (info : ScenarioInfo) (m : row) :
  Util.mapping_entry i info = Ok m ->
  complete_entry info = true /\ get_cell m "scenario" = Num (inject_Z (Z.of_nat i)).
Proof.
  unfold Util.mapping_entry, Util.scheduler_of, complete_entry.
  destruct (topology info) as [[[path|]]|]; try discriminate.
  destruct (allocationPolicy info) as [[[scheduler|]]|]; try discriminate.
  cbn. intros [= <-]. done.
Qed.

Lemma mapping_entry_incomplete (i : nat) (info : ScenarioInfo) :
  complete_entry info = false ->
  exists key, key ∈ entry_keys /\ Util.mapping_entry i info = Raise (KeyError key).
Proof.
  unfold Util.mapping_entry, Util.scheduler_of, complete_entry.
  destruct (topology info) as [[[path|]]|]; cbn.
  - destruct (allocationPolicy info) as [[[scheduler|]]|]; cbn.
    + discriminate.
    + intros _. exists "policyType". split; [|done].
      apply (bool_decide_unpack _). vm_compute. exact I.
    + intros _. exists "allocationPolicy". split; [|done].
      apply (bool_decide_unpack _). vm_compute. exact I.
  - intros _. exists "pathToFile". split; [|done].
    apply (bool_decide_unpack _). vm_compute. exact I.
  - intros _. exists "topology". split; [|done].
    apply (bool_decide_unpack _). vm_compute. exact I.
Qed.

(** The first failing element decides what [mapM] raises. *)
Lemma mapM_raise {A B} (f : A -> Result B) (l : list A) (e : exn) :
  mapM f l = Raise e -> exists x, x ∈ l /\ f x = Raise e.
Proof.
  induction l as [|x l IH]; [discriminate|]. cbn [mapM].
  destruct (f x) as [y|e'] eqn:Hx; cbn.
  - destruct (mapM f l) as [ys|e'] eqn:Hl; cbn; [discriminate|].
    intros [= ->]. destruct (IH eq_refl) as (x' & Hx' & Hf).
    exists x'. split; [by right|done].
  - intros [= ->]. exists x. split; [left|done].
Qed.

(** X3.  The mapping agrees with the loader: when both
    [read_parquet_files] and [get_experiment_mapping] return for a cost
    pattern, every loaded row has the topology and the scheduler that the
    mapping lists for the row's scenario number. *)
Theorem get_experiment_mapping_agrees_with_loader (fs : FS)
    (base_path cost_pattern file_type : string) (df mapping : DataFrame) :
  Util.read_parquet_files fs base_path cost_pattern file_type = Ok df ->
  Util.get_experiment_mapping fs base_path cost_pattern = Ok mapping ->
  forall r, r ∈ rows df ->
    exists n m,
      rows mapping !! n = Some m
      /\ get_cell r "scenario" = Num (inject_Z (Z.of_nat n))
      /\ get_cell m "scenario" = Num (inject_Z (Z.of_nat n))
      /\ get_cell m "topology" = get_cell r "topology"
      /\ get_cell m "scheduler" = get_cell r "scheduler".
Proof.
  intros Hload Hmap r Hr.
  apply read_parquet_files_inv in Hload as (trackr_data & dfs & Ht & _ & -> & Hdfs).
  apply rows_concat_frames in Hr as (df & Hdf & Hr).
  rewrite Forall_forall in Hdfs.
  destruct (Hdfs df Hdf) as [_ Htag].
  destruct (Htag r Hr) as (n & info & path & scheduler & seed & Hn & Hp & Hs & Hrt & Hrs & Hrn & _).
  unfold Util.get_experiment_mapping, Util.read_trackr in Hmap. rewrite Ht in Hmap.
  cbn [mbind Result_bind rbind] in Hmap.
  destruct (mapM _ (Util.enumerate trackr_data)) as [ms|] eqn:Hms; [|discriminate].
  cbn [mbind Result_bind rbind] in Hmap. injection Hmap as <-.
  destruct (mapM_lookup _ _ _ _ _ Hms (enumerate_lookup _ _ _ Hn)) as (m & Hm & Hentry).
  cbn [fst snd] in Hentry.
  rewrite (mapping_entry_complete n info path scheduler Hp Hs) in Hentry.
  injection Hentry as <-.
  exists n, (<["scenario" := Num (inject_Z (Z.of_nat n))]>
               (<["topology" := Str (Util.topology_of_path path)]>
                  (<["scheduler" := Str scheduler]> ∅))).
  split; [done|]. split; [done|].
  rewrite Hrt, Hrs, get_cell_insert.
  rewrite !(get_cell_insert_ne "scenario") by done. rewrite get_cell_insert.
  rewrite !(get_cell_insert_ne "topology") by done. rewrite get_cell_insert.
  done.
Qed.

Lemma get_experiment_mapping_agrees_with_loader_witness :
  exists n m,
    rows Examples.mapping !! n = Some m
    /\ get_cell Examples.last_loaded_host "scenario" = Num (inject_Z (Z.of_nat n))
    /\ get_cell m "scenario" = Num (inject_Z (Z.of_nat n))
    /\ get_cell m "topology" = get_cell Examples.last_loaded_host "topology"
    /\ get_cell m "scheduler" = get_cell Examples.last_loaded_host "scheduler".
Proof.
  apply (get_experiment_mapping_agrees_with_loader Examples.fs_complete "output" "stable"
           "host" Examples.loaded_hosts Examples.mapping);
    [vm_compute; reflexivity | vm_compute; reflexivity |].
  apply (list_elem_of_lookup_2 _ 3%nat). vm_compute. reflexivity.
Defined.

(** X4.  [get_experiment_mapping] returns exactly when every entry of
    the registry has a topology path and a policy type, also the entries
    without a scenario directory; the mapping then has one row per entry,
    row [i] numbered [i].  Otherwise it raises the [KeyError] of a missing
    key. *)
Theorem get_experiment_mapping_needs_complete_registry (fs : FS)
    (base_path cost_pattern : string) (trackr_data : list ScenarioInfo) :
  Util.read_trackr fs base_path cost_pattern = Ok trackr_data ->
  (forallb complete_entry trackr_data = true ->
   exists mapping,
     Util.get_experiment_mapping fs base_path cost_pattern = Ok mapping
     /\ length (rows mapping) = length trackr_data
     /\ forall i m, rows mapping !! i = Some m ->
          get_cell m "scenario" = Num (inject_Z (Z.of_nat i)))
  /\ (forallb complete_entry trackr_data = false ->
      exists key,
        key ∈ entry_keys
        /\ Util.get_experiment_mapping fs base_path cost_pattern = Raise (KeyError key)).
Proof.
  intros Ht. unfold Util.get_experiment_mapping. rewrite Ht.
  cbn [mbind Result_bind rbind].
  destruct (mapM _ (Util.enumerate trackr_data)) as [ms|e] eqn:Hms;
    cbn [mbind Result_bind rbind].
  - assert (forallb complete_entry trackr_data = true) as Hall.
    { apply forallb_forall. intros info Hinfo.
      apply list_elem_of_In, list_elem_of_lookup in Hinfo as [i Hi].
      destruct (mapM_lookup _ _ _ _ _ Hms (enumerate_lookup _ _ _ Hi)) as (m & _ & Hm).
      by apply mapping_entry_ok in Hm as [? _]. }
    split; [|by rewrite Hall]. intros _. eexists. split; [done|].
    cbn [Util.frame_of_records rows]. split.
    + rewrite (mapM_length _ _ _ Hms). unfold Util.enumerate. by rewrite length_imap.
    + intros i m Hm. apply mapM_Forall2 in Hms.
      destruct (Forall2_lookup_r _ _ _ _ _ Hms Hm) as ([j info] & Hj & Hentry).
      cbn [fst snd] in Hentry. apply mapping_entry_ok in Hentry as [_ ->].
      unfold Util.enumerate in Hj. rewrite list_lookup_imap in Hj.
      destruct (trackr_data !! i); [|discriminate]. by injection Hj as <- _.
  - apply mapM_raise in Hms as ([i info] & Hin & Hentry). cbn [fst snd] in Hentry.
    apply enumerate_elem in Hin. cbn [fst snd] in Hin.
    assert (complete_entry info = false) as Hinc.
    { destruct (complete_entry info) eqn:Hc; [|done].
      unfold complete_entry in Hc. apply andb_true_iff in Hc as [Hp Hs].
      apply bool_decide_eq_true in Hp as [path Hp].
      apply bool_decide_eq_true in Hs as [scheduler Hs].
      by rewrite (mapping_entry_complete i info path scheduler Hp Hs) in Hentry. }
    assert (forallb complete_entry trackr_data = false) as Hall.
    { apply not_true_is_false. rewrite forallb_forall. intros Hall.
      apply list_elem_of_lookup_2, list_elem_of_In in Hin.
      rewrite (Hall info Hin) in Hinc. discriminate. }
    split; [by rewrite Hall|]. intros _.
    destruct (mapping_entry_incomplete i info Hinc) as (key & Hkey & Hraise).
    rewrite Hraise in Hentry. injection Hentry as <-. eauto.
Qed.

Lemma get_experiment_mapping_needs_complete_registry_witness :
  (forallb complete_entry Examples.registry = true ->
   exists mapping,
     Util.get_experiment_mapping Examples.fs_complete "output" "stable" = Ok mapping
     /\ length (rows mapping) = length Examples.registry
     /\ forall i m, rows mapping !! i = Some m ->
          get_cell m "scenario" = Num (inject_Z (Z.of_nat i)))
  /\ (forallb complete_entry Examples.registry = false ->
      exists key,
        key ∈ entry_keys
        /\ Util.get_experiment_mapping Examples.fs_complete "output" "stable"
           = Raise (KeyError key)).
Proof.
  apply (get_experiment_mapping_needs_complete_registry Examples.fs_complete "output"
           "stable" Examples.registry).
  reflexivity.
Defined.
(** ** The groups of [aggregate_runs] *)

(** The names [aggregate_runs] appends are columns. *)
Lemma grouping_keys_columns (df : DataFrame) (keys : list string) :
  forallb (has_column df) keys = true ->
  forallb (has_column df) (grouping_keys df keys) = true.
Proof.
  intros H. unfold grouping_keys, appended_key. rewrite !forallb_app, H.
  destruct (bool_decide ("topology" ∈ keys)), (has_column df "topology") eqn:Ht;
    destruct (bool_decide ("scheduler" ∈ keys)), (has_column df "scheduler") eqn:Hs;
    cbn; rewrite ?Ht, ?Hs; done.
Qed.

(** The table [aggregate_runs] returns when the caller's keys are
    columns, row by row. *)
Lemma aggregate_runs_ok (df : DataFrame) (l : loc) (metrics : list string) (σ : store)
    (out : AggTable) :
  forallb (has_column df) (deref l σ) = true ->
  (Util.aggregate_runs df l metrics σ).2 = Ok out ->
  let ks := grouping_keys df (deref l σ) in
  (ks <> [] -> agg_index out = NamedLevels ks)
  /\ index_names out = ks
  /\ Forall2 (fun k o =>
                group_key o = k
                /\ mapM (agg_metric (group_rows ks k (rows df))) (dict_keys metrics)
                   = Ok (metrics_of o))
             (group_keys_of ks (rows df)) (agg_rows out).
Proof.
  intros Hcols Hrun. cbv zeta.
  rewrite (aggregate_runs_unfold df l metrics σ _ eq_refl) in Hrun. cbn [snd] in Hrun.
  apply grouping_keys_columns in Hcols. unfold grouping_keys in *. revert Hcols Hrun.
  generalize (deref l σ ++ appended_key df (deref l σ) "topology"
                ++ appended_key df (deref l σ) "scheduler").
  intros ks Hcols Hrun. destruct ks as [|k0 ks'].
  - unfold groupby in Hrun. cbn [forallb negb andb length] in Hrun.
    rewrite andb_false_r in Hrun. unfold group_keys_of.
    destruct (rows df); [|discriminate]. cbn [mbind Result_bind rbind] in Hrun.
    apply agg_mean_std_inv in Hrun as [Hidx Hrows]. cbn [gb_index gb_groups] in *.
    unfold index_names. rewrite Hidx. split; [done|]. split; [done|].
    inversion Hrows. constructor.
  - rewrite groupby_columns in Hrun by done. cbn [mbind Result_bind rbind] in Hrun.
    apply agg_mean_std_inv in Hrun as [Hidx Hrows]. cbn [gb_index gb_groups] in *.
    unfold index_names. rewrite Hidx. split; [done|]. split; [done|].
    by apply Forall2_fmap_l in Hrows.
Qed.

Lemma Forall2_map_eq {A B} (f : B -> A) (l : list A) (l' : list B) :
  Forall2 (fun a b => f b = a) l l' -> map f l' = l.
Proof. induction 1 as [|a b l l' H _ IH]; [done|]. cbn. by rewrite H, IH. Qed.

(** X5.  When the caller's keys are columns of the table, the table
    [aggregate_runs] returns is indexed by these keys followed by the
    appended names; every row of the input whose keys are all non-null
    falls in exactly one row of the table; every row of the table is the
    group of some input row, has no null key, and lists each requested
    metric once, in the order of first request. *)
Theorem aggregate_runs_one_row_per_group (df : DataFrame) (keys metrics : list string)
    (l : loc) (σ : store) (out : AggTable) :
  σ !! l = Some keys ->
  forallb (has_column df) keys = true ->
  (Util.aggregate_runs df l metrics σ).2 = Ok out ->
  let ks := grouping_keys df keys in
  index_names out = ks
  /\ (forall r, r ∈ rows df -> key_valid (row_key ks r) = true ->
      length (List.filter (fun o => key_eqb (group_key o) (row_key ks r)) (agg_rows out))
      = 1%nat)
  /\ (forall o, o ∈ agg_rows out ->
      key_valid (group_key o) = true
      /\ (exists r, r ∈ rows df /\ group_key o = row_key ks r)
      /\ map metric (metrics_of o) = dict_keys metrics).
Proof.
  intros Hl Hcols Hrun. cbv zeta. apply aggregate_runs_ok in Hrun.
  2:{ by rewrite (deref_lookup _ _ _ Hl). }
  rewrite (deref_lookup _ _ _ Hl) in Hrun. destruct Hrun as (_ & Hidx & Hrows).
  set (ks := grouping_keys df keys) in *.
  assert (map group_key (agg_rows out) = group_keys_of ks (rows df)) as Hkeys.
  { apply Forall2_map_eq. eapply Forall2_impl; [exact Hrows|]. by intros k o [? _]. }
  split; [done|]. split.
  - intros r Hr Hv.
    transitivity (length (List.filter (fun k => key_eqb k (row_key ks r))
                                      (map group_key (agg_rows out)))).
    { by rewrite filter_map_comm, length_map. }
    rewrite Hkeys, group_keys_of_count.
    assert (existsb (fun r' => key_eqb (row_key ks r') (row_key ks r)) (rows df) = true)
      as ->; [|done].
    apply existsb_exists. exists r. split; [by apply list_elem_of_In|].
    by apply key_eqb_refl.
  - intros o Ho. apply list_elem_of_lookup in Ho as [i Ho].
    destruct (Forall2_lookup_r _ _ _ _ _ Hrows Ho) as (k & Hk & Hgk & Hms).
    apply list_elem_of_lookup_2, group_keys_of_valid in Hk as [Hv Hr].
    rewrite Hgk. split; [done|]. split; [done|].
    revert Hms. generalize (group_rows ks k (rows df)) (metrics_of o) (dict_keys metrics).
    intros rs ms cols Hms. by apply (mapM_map_metric rs).
Qed.

Lemma aggregate_runs_one_row_per_group_witness :
  let ks := grouping_keys Examples.hosts ["scenario"] in
  index_names Examples.hosts_agg = ks
  /\ (forall r, r ∈ rows Examples.hosts -> key_valid (row_key ks r) = true ->
      length (List.filter (fun o => key_eqb (group_key o) (row_key ks r))
                          (agg_rows Examples.hosts_agg))
      = 1%nat)
  /\ (forall o, o ∈ agg_rows Examples.hosts_agg ->
      key_valid (group_key o) = true
      /\ (exists r, r ∈ rows Examples.hosts /\ group_key o = row_key ks r)
      /\ map metric (metrics_of o) = dict_keys ["cost"; "cpu_utilization"]).
Proof.
  apply (aggregate_runs_one_row_per_group Examples.hosts ["scenario"]
           ["cost"; "cpu_utilization"] 1%positive Examples.short_keys Examples.hosts_agg);
    [reflexivity | reflexivity | vm_compute; reflexivity].
Defined.

(** Once appended, a name is not appended again. *)
Lemma appended_key_grouping_keys (df : DataFrame) (keys : list string) (c : string) :
  c = "topology" \/ c = "scheduler" ->
  appended_key df (grouping_keys df keys) c = [].
Proof.
  intros Hc. unfold appended_key at 1.
  destruct (has_column df c) eqn:Hcol; [|by rewrite andb_false_r].
  rewrite andb_true_r.
  assert (c ∈ grouping_keys df keys) as Hin; [|by rewrite bool_decide_eq_true_2].
  unfold grouping_keys. destruct (decide (c ∈ keys)) as [Hk|Hk].
  { apply elem_of_app. by left. }
  apply elem_of_app. right.
  assert (appended_key df keys c = [c]) as Happ.
  { unfold appended_key. by rewrite bool_decide_eq_false_2, Hcol. }
  destruct Hc as [-> | ->]; rewrite Happ; apply elem_of_app; [left|right]; left.
Qed.

(** X6.  A second call of [aggregate_runs] with the same list object
    appends nothing more and returns what the first call returned. *)
Theorem aggregate_runs_second_call (df : DataFrame) (keys metrics : list string)
    (l : loc) (σ : store) :
  σ !! l = Some keys ->
  let first := Util.aggregate_runs df l metrics σ in
  Util.aggregate_runs df l metrics first.1 = first.
Proof.
  intros Hl. cbv zeta.
  rewrite (aggregate_runs_unfold df l metrics σ keys (deref_lookup _ _ _ Hl)).
  fold (grouping_keys df keys). set (ks := grouping_keys df keys). cbn [fst].
  set (σ1 := if decide (ks = keys) then σ else <[l := ks]> σ).
  assert (deref l σ1 = ks) as Hσ1.
  { unfold σ1. destruct (decide (ks = keys)) as [->|_].
    - by apply deref_lookup.
    - unfold deref. by rewrite lookup_insert_eq. }
  rewrite (aggregate_runs_unfold df l metrics σ1 ks Hσ1).
  assert (appended_key df ks "topology" = []) as ->
    by (apply appended_key_grouping_keys; auto).
  assert (appended_key df ks "scheduler" = []) as ->
    by (apply appended_key_grouping_keys; auto).
  rewrite !app_nil_r. by rewrite decide_True.
Qed.

Lemma aggregate_runs_second_call_witness :
  let first := Util.aggregate_runs Examples.hosts 1%positive ["cost"] Examples.short_keys in
  Util.aggregate_runs Examples.hosts 1%positive ["cost"] first.1 = first.
Proof.
  apply (aggregate_runs_second_call Examples.hosts ["scenario"] ["cost"] 1%positive
           Examples.short_keys).
  reflexivity.
Defined.
(** ** The host stages of [ExperimentAnalyzer] *)

Lemma aggregate_fresh_ok (df : DataFrame) (keys metrics : list string) (avg : AggTable) :
  keys <> [] ->
  forallb (has_column df) keys = true ->
  AnalyzeExperiments.aggregate_fresh df keys metrics = Ok avg ->
  let ks := grouping_keys df keys in
  agg_index avg = NamedLevels ks
  /\ Forall2 (fun k o =>
                group_key o = k
                /\ length k = length ks
                /\ Forall2 (fun c m => agg_metric (group_rows ks k (rows df)) c = Ok m)
                           (dict_keys metrics) (metrics_of o))
             (group_keys_of ks (rows df)) (agg_rows avg).
Proof.
  unfold AnalyzeExperiments.aggregate_fresh. intros Hne Hcols H.
  assert (deref 1%positive ({[1%positive := keys]} : store) = keys) as Hd.
  { unfold deref. by rewrite lookup_singleton_eq. }
  apply aggregate_runs_ok in H; [|by rewrite Hd]. cbv zeta in H.
  rewrite Hd in H. destruct H as (Hidx & _ & Hrows). cbv zeta. split.
  { apply Hidx. unfold grouping_keys. by destruct keys. }
  apply Forall2_same_length_lookup_2; [by eapply Forall2_length|].
  intros i k o Hk Ho.
  destruct (Forall2_lookup_l _ _ _ _ _ Hrows Hk) as (o' & Ho' & Hgk & Hms).
  rewrite Ho in Ho'. injection Ho' as <-. split; [done|]. split.
  - apply list_elem_of_lookup_2, group_keys_of_valid in Hk as [_ (r & _ & ->)].
    unfold row_key. by rewrite length_map.
  - by apply mapM_Forall2.
Qed.

Lemma flatten_reset_index_columns (agg : AggTable) (agg_dict names : list string) :
  agg_index agg = NamedLevels names ->
  AnalyzeExperiments.flatten_columns (AnalyzeExperiments.reset_index_columns agg agg_dict)
  = names ++ flat_map (fun m => [m +:+ "_mean"; m +:+ "_std"]) agg_dict.
Proof.
  intros Hidx.
  unfold AnalyzeExperiments.flatten_columns, AnalyzeExperiments.reset_index_columns.
  rewrite Hidx, map_app, map_map. f_equal.
  - cbn [fst snd String.eqb negb]. apply map_id.
  - induction agg_dict as [|m ms IH]; [done|]. cbn [flat_map map app].
    by rewrite IH.
Qed.

(** The mean and the standard deviation of a metric are those of the
    numeric values of its column. *)
Lemma agg_metric_mean (rs : list row) (c : string) (m : MetricAgg) :
  agg_metric rs c = Ok m ->
  exists xs,
    numeric_values (map (fun r : row => get_cell r c) rs) = Ok xs
    /\ mean m = agg_mean xs /\ std m = agg_std xs.
Proof.
  unfold agg_metric. destruct (numeric_values _) as [xs|]; [|discriminate].
  cbn. intros [= <-]. by exists xs.
Qed.

(** A list of a given length, spelled out. *)
Ltac spell H :=
  lazymatch type of H with
  | length ?l = S _ =>
      let x := fresh "x" in
      let l' := fresh "l" in
      destruct l as [|x l']; [discriminate H|];
      cbn [length] in H; apply Nat.succ_inj in H; spell H
  | length ?l = 0%nat => apply length_zero_iff_nil in H; try subst l
  end.

Lemma utilization_keys (df : DataFrame) :
  grouping_keys df ["scenario_label"; "datetime"]
  = ["scenario_label"; "datetime"]
    ++ (if has_column df "topology" then ["topology"] else [])
    ++ (if has_column df "scheduler" then ["scheduler"] else []).
Proof.
  unfold grouping_keys, appended_key.
  destruct (has_column df "topology"), (has_column df "scheduler"); vm_compute; reflexivity.
Qed.

(** X7.  On a host table with the columns [scenario_label] and
    [datetime], [analyze_resource_utilization] raises exactly when
    [aggregate_runs] raises, and with that exception; the check for a
    missing [scenario_label] column does not fire.  The table it returns
    has one row per group of the grouping keys; its columns are these
    keys, [scenario_label] first, followed by the mean and the standard
    deviation of each of the three metrics, and the row of a group holds
    the group's label as [scenario_label] and, as [cpu_utilization_mean],
    the mean of the numeric values of [cpu_utilization] over the host rows
    of the group. *)
Theorem analyze_resource_utilization_returns (self : AnalyzeExperiments.ExperimentAnalyzer) :
  let host := AnalyzeExperiments.host_df self in
  let keys := grouping_keys host ["scenario_label"; "datetime"] in
  let aggregate :=
    AnalyzeExperiments.aggregate_fresh host
      ["scenario_label"; "datetime"] ["cpu_utilization"; "guests_running"; "cpu_time_steal"] in
  has_column host "scenario_label" = true ->
  has_column host "datetime" = true ->
  (forall e, aggregate = Raise e ->
     AnalyzeExperiments.analyze_resource_utilization self = Raise e)
  /\ (forall avg, aggregate = Ok avg ->
      exists out,
        AnalyzeExperiments.analyze_resource_utilization self = Ok out
        /\ columns out = keys ++ utilization_columns
        /\ Forall2 (fun k r =>
                      get_cell r "scenario_label" = nth 0 k NaN
                      /\ exists xs,
                           numeric_values
                             (map (fun h : row => get_cell h "cpu_utilization")
                                  (group_rows keys k (rows host)))
                           = Ok xs
                           /\ get_cell r "cpu_utilization_mean" = agg_mean xs)
                   (group_keys_of keys (rows host)) (rows out)).
Proof.
  cbv zeta. intros Hlabel Hdatetime.
  unfold AnalyzeExperiments.analyze_resource_utilization.
  split; [by intros e ->|]. intros avg Havg. rewrite Havg.
  cbn [mbind Result_bind rbind]. cbv zeta.
  assert (forallb (has_column (AnalyzeExperiments.host_df self))
                  ["scenario_label"; "datetime"] = true) as Hkeys
    by (cbn [forallb]; by rewrite Hlabel, Hdatetime).
  destruct (aggregate_fresh_ok (AnalyzeExperiments.host_df self)
              ["scenario_label"; "datetime"] _ avg ltac:(done) Hkeys Havg) as [Hidx Hrows].
  set (out := AnalyzeExperiments.reset_and_flatten avg _).
  assert (columns out
          = grouping_keys (AnalyzeExperiments.host_df self) ["scenario_label"; "datetime"]
            ++ utilization_columns) as Hcols.
  { unfold out, AnalyzeExperiments.reset_and_flatten. cbn [columns].
    by rewrite (flatten_reset_index_columns _ _ _ Hidx). }
  assert (forall c, c = "scenario_label" \/ c = "datetime" \/ c = "cpu_utilization_mean" ->
                    has_column out c = true) as Hhas.
  { intros c Hc. unfold has_column. rewrite Hcols. apply bool_decide_eq_true.
    unfold grouping_keys. rewrite <- !app_assoc. cbn [app].
    destruct Hc as [->|[->| ->]]; [left|right; left|].
    do 2 right. rewrite !elem_of_app. do 2 right. left. }
  exists out. rewrite (Hhas "scenario_label") by auto. cbn [negb].
  assert (column out "scenario_label"
          = Ok (map (fun r : row => get_cell r "scenario_label") (rows out))) as ->.
  { unfold column. by rewrite Hhas by auto. }
  cbn [mbind Result_bind rbind].
  destruct (mapM_total
              (fun label =>
                 let scenario_data :=
                   filter_rows (fun r => cell_eqb (get_cell r "scenario_label") label) out in
                 _ ← column scenario_data "datetime";
                 column scenario_data "cpu_utilization_mean")
              (unique (map (fun r : row => get_cell r "scenario_label") (rows out))))
    as [ys Hys].
  { intros label _. cbv zeta. unfold column. rewrite !has_column_filter_rows.
    rewrite !Hhas by auto. cbn [mbind Result_bind rbind]. eauto. }
  cbv zeta in Hys. rewrite Hys. cbn [mbind Result_bind rbind].
  split; [done|]. split; [done|].
  unfold out, AnalyzeExperiments.reset_and_flatten. cbn [rows].
  rewrite (flatten_reset_index_columns _ _ _ Hidx).
  apply Forall2_fmap_r. eapply Forall2_impl; [exact Hrows|].
  intros k o (Hgk & Hlen & Hms). unfold compose. cbn beta.
  unfold AnalyzeExperiments.reset_index_values. rewrite Hgk.
  assert (dict_keys ["cpu_utilization"; "guests_running"; "cpu_time_steal"]
          = ["cpu_utilization"; "guests_running"; "cpu_time_steal"]) as Hdk
    by (vm_compute; reflexivity).
  rewrite Hdk in Hms.
  destruct (metrics_of o) as [|m1 [|m2 [|m3 [|]]]];
    try (exfalso; apply Forall2_length in Hms; discriminate Hms).
  apply Forall2_cons_1 in Hms as [Hm1 _].
  apply agg_metric_mean in Hm1 as (xs & Hxs & Hmean & _).
  assert (get_cell
            (list_to_map
               (zip (grouping_keys (AnalyzeExperiments.host_df self)
                       ["scenario_label"; "datetime"]
                     ++ flat_map (fun m => [m +:+ "_mean"; m +:+ "_std"])
                          ["cpu_utilization"; "guests_running"; "cpu_time_steal"])
                    (k ++ flat_map (fun m => [mean m; std m]) [m1; m2; m3])))
            "scenario_label" = nth 0 k NaN
          /\ get_cell
               (list_to_map
                  (zip (grouping_keys (AnalyzeExperiments.host_df self)
                          ["scenario_label"; "datetime"]
                        ++ flat_map (fun m => [m +:+ "_mean"; m +:+ "_std"])
                             ["cpu_utilization"; "guests_running"; "cpu_time_steal"])
                       (k ++ flat_map (fun m => [mean m; std m]) [m1; m2; m3])))
               "cpu_utilization_mean" = mean m1) as [Hsl Hcpu].
  { clear -Hlen. rewrite utilization_keys in Hlen |- *.
    destruct (has_column _ "topology"), (has_column _ "scheduler");
      cbn [app length] in Hlen |- *; spell Hlen; split; vm_compute; reflexivity. }
  split; [exact Hsl|]. exists xs. split; [exact Hxs|]. by rewrite Hcpu.
Qed.

Lemma agg_metric_not_str (rs : list row) (c : string) (m : MetricAgg) :
  agg_metric rs c = Ok m -> is_str (mean m) = false /\ is_str (std m) = false.
Proof.
  unfold agg_metric. destruct (numeric_values _) as [xs|]; [|discriminate].
  cbn. intros [= <-]. cbn. split.
  - by destruct xs.
  - by destruct xs as [|x [|y xs]].
Qed.

(** The means and the standard deviations of an aggregate are numbers
    or null. *)
Lemma aggregate_fresh_not_str (df : DataFrame) (keys metrics : list string)
    (avg : AggTable) :
  keys <> [] ->
  forallb (has_column df) keys = true ->
  AnalyzeExperiments.aggregate_fresh df keys metrics = Ok avg ->
  Forall (fun o => Forall (fun m => is_str (mean m) = false /\ is_str (std m) = false)
                          (metrics_of o))
         (agg_rows avg).
Proof.
  intros Hne Hcols H. destruct (aggregate_fresh_ok _ _ _ _ Hne Hcols H) as [_ Hrows].
  apply Forall_forall. intros o Ho. apply list_elem_of_lookup in Ho as [i Ho].
  destruct (Forall2_lookup_r _ _ _ _ _ Hrows Ho) as (k & _ & _ & _ & Hms).
  apply Forall_forall. intros m Hm. apply list_elem_of_lookup in Hm as [j Hm].
  destruct (Forall2_lookup_r _ _ _ _ _ Hms Hm) as (c & _ & Hc).
  by apply agg_metric_not_str in Hc.
Qed.

Lemma cost_keys (df : DataFrame) :
  grouping_keys df ["scenario_label"; "topology"; "scheduler"]
  = ["scenario_label"; "topology"; "scheduler"].
Proof. vm_compute. reflexivity. Qed.

Lemma zip_div_rows (rs : list row) (c1 c2 : string) :
  Forall (fun r : row => is_str (get_cell r c1) = false /\ is_str (get_cell r c2) = false)
         rs ->
  exists zs,
    AnalyzeExperiments.zip_div (map (fun r : row => get_cell r c1) rs)
                               (map (fun r : row => get_cell r c2) rs)
    = Ok zs
    /\ Forall2 (fun (r : row) e =>
                  AnalyzeExperiments.float_div (get_cell r c1) (get_cell r c2) = Ok e)
               rs zs.
Proof.
  induction 1 as [|r rs [H1 H2] _ (zs & Hzs & IH)]; [by exists []|].
  cbn [map AnalyzeExperiments.zip_div].
  assert (exists e, AnalyzeExperiments.float_div (get_cell r c1) (get_cell r c2) = Ok e)
    as [e He].
  { unfold AnalyzeExperiments.float_div.
    destruct (get_cell r c1), (get_cell r c2); try discriminate; eauto.
    destruct (Qeq_bool _ _); eauto. }
  rewrite He, Hzs. cbn. exists (e :: zs). split; [done|]. by constructor.
Qed.

(** X8.  On a host table with the columns [scenario_label], [topology]
    and [scheduler], [analyze_cost_metrics] raises exactly when
    [aggregate_runs] raises, and with that exception: the check of the
    required columns does not fire and the division does not raise.  The
    flattened table has the three keys and the mean and standard deviation
    of [cost] and [cpu_utilization], one row per group of the three keys;
    the row of a group holds the group's label and the means of the
    numeric values of [cost] and of [cpu_utilization] over the host rows
    of the group, and its entry of [cost_efficiency] is its
    [cpu_utilization_mean] divided by its [cost_mean]. *)
Theorem analyze_cost_metrics_returns (self : AnalyzeExperiments.ExperimentAnalyzer) :
  let host := AnalyzeExperiments.host_df self in
  let keys := ["scenario_label"; "topology"; "scheduler"] in
  let aggregate :=
    AnalyzeExperiments.aggregate_fresh host keys ["cost"; "cpu_utilization"] in
  forallb (has_column host) keys = true ->
  (forall e, aggregate = Raise e ->
     AnalyzeExperiments.analyze_cost_metrics self = Raise e)
  /\ (forall avg, aggregate = Ok avg ->
      exists out,
        AnalyzeExperiments.analyze_cost_metrics self = Ok out
        /\ columns (AnalyzeExperiments.avg_costs_reset out)
           = keys ++ ["cost_mean"; "cost_std"; "cpu_utilization_mean"; "cpu_utilization_std"]
        /\ Forall2 (fun k r =>
                      get_cell r "scenario_label" = nth 0 k NaN
                      /\ exists costs cpus,
                           numeric_values
                             (map (fun h : row => get_cell h "cost")
                                  (group_rows keys k (rows host)))
                           = Ok costs
                           /\ numeric_values
                                (map (fun h : row => get_cell h "cpu_utilization")
                                     (group_rows keys k (rows host)))
                              = Ok cpus
                           /\ get_cell r "cost_mean" = agg_mean costs
                           /\ get_cell r "cpu_utilization_mean" = agg_mean cpus)
                   (group_keys_of keys (rows host))
                   (rows (AnalyzeExperiments.avg_costs_reset out))
        /\ Forall2 (fun (r : row) e =>
                      AnalyzeExperiments.float_div (get_cell r "cpu_utilization_mean")
                                                   (get_cell r "cost_mean")
                      = Ok e)
                   (rows (AnalyzeExperiments.avg_costs_reset out))
                   (AnalyzeExperiments.cost_efficiency out)).
Proof.
  cbv zeta. intros Hkeys. unfold AnalyzeExperiments.analyze_cost_metrics.
  split; [by intros e ->|]. intros avg Havg. rewrite Havg.
  cbn [mbind Result_bind rbind]. cbv zeta.
  destruct (aggregate_fresh_ok (AnalyzeExperiments.host_df self)
              ["scenario_label"; "topology"; "scheduler"] _ avg ltac:(done) Hkeys Havg)
    as [Hidx Hrows].
  rewrite cost_keys in Hidx, Hrows.
  set (t := AnalyzeExperiments.reset_and_flatten avg _).
  assert (columns t
          = ["scenario_label"; "topology"; "scheduler"; "cost_mean"; "cost_std";
             "cpu_utilization_mean"; "cpu_utilization_std"]) as Hcols.
  { unfold t, AnalyzeExperiments.reset_and_flatten. cbn [columns].
    by rewrite (flatten_reset_index_columns _ _ _ Hidx). }
  assert (forall c, c ∈ columns t -> has_column t c = true) as Hhas.
  { intros c Hc. by apply bool_decide_eq_true. }
  assert (Forall2 (fun k (r : row) =>
                     (get_cell r "scenario_label" = nth 0 k NaN
                      /\ exists costs cpus,
                           numeric_values
                             (map (fun h : row => get_cell h "cost")
                                  (group_rows ["scenario_label"; "topology"; "scheduler"] k
                                     (rows (AnalyzeExperiments.host_df self))))
                           = Ok costs
                           /\ numeric_values
                                (map (fun h : row => get_cell h "cpu_utilization")
                                     (group_rows ["scenario_label"; "topology"; "scheduler"] k
                                        (rows (AnalyzeExperiments.host_df self))))
                              = Ok cpus
                           /\ get_cell r "cost_mean" = agg_mean costs
                           /\ get_cell r "cpu_utilization_mean" = agg_mean cpus)
                     /\ is_str (get_cell r "cpu_utilization_mean") = false
                     /\ is_str (get_cell r "cost_mean") = false)
                  (group_keys_of ["scenario_label"; "topology"; "scheduler"]
                     (rows (AnalyzeExperiments.host_df self)))
                  (rows t)) as Hrs.
  { unfold t, AnalyzeExperiments.reset_and_flatten. cbn [rows].
    rewrite (flatten_reset_index_columns _ _ _ Hidx).
    apply Forall2_fmap_r. eapply Forall2_impl; [exact Hrows|].
    intros k o (Hgk & Hlen & Hms). unfold compose. cbn beta.
    unfold AnalyzeExperiments.reset_index_values. rewrite Hgk.
    assert (dict_keys ["cost"; "cpu_utilization"] = ["cost"; "cpu_utilization"]) as Hdk
      by (vm_compute; reflexivity).
    rewrite Hdk in Hms.
    destruct (metrics_of o) as [|m1 [|m2 [|]]];
      try (exfalso; apply Forall2_length in Hms; discriminate Hms).
    apply Forall2_cons_1 in Hms as [Hm1 Hms]. apply Forall2_cons_1 in Hms as [Hm2 _].
    destruct (agg_metric_not_str _ _ _ Hm1) as [Hs1 _].
    destruct (agg_metric_not_str _ _ _ Hm2) as [Hs2 _].
    apply agg_metric_mean in Hm1 as (costs & Hcosts & Hmean1 & _).
    apply agg_metric_mean in Hm2 as (cpus & Hcpus & Hmean2 & _).
    assert (forall c v,
              (c = "scenario_label" /\ v = nth 0 k NaN)
              \/ (c = "cost_mean" /\ v = mean m1)
              \/ (c = "cpu_utilization_mean" /\ v = mean m2) ->
              get_cell
                (list_to_map
                   (zip (["scenario_label"; "topology"; "scheduler"]
                         ++ flat_map (fun m => [m +:+ "_mean"; m +:+ "_std"])
                              ["cost"; "cpu_utilization"])
                        (k ++ flat_map (fun m => [mean m; std m]) [m1; m2])))
                c = v) as Hget.
    { clear -Hlen. cbn [length] in Hlen. spell Hlen.
      intros c v [[-> ->]|[[-> ->]|[-> ->]]]; vm_compute; reflexivity. }
    rewrite (Hget "scenario_label" (nth 0 k NaN)) by auto.
    rewrite (Hget "cost_mean" (mean m1)) by auto.
    rewrite (Hget "cpu_utilization_mean" (mean m2)) by auto.
    split; [|done]. split; [done|]. by exists costs, cpus. }
  assert (forall c, c ∈ columns t ->
            column t c = Ok (map (fun r : row => get_cell r c) (rows t))) as Hcol.
  { intros c Hc. unfold column. by rewrite Hhas. }
  assert (forall c r, c ∈ columns t ->
            AnalyzeExperiments.row_get t r c = Ok (get_cell r c)) as Hget.
  { intros c r Hc. unfold AnalyzeExperiments.row_get. by rewrite Hhas. }
  assert (forall c, In c ["scenario_label"; "topology"; "scheduler"; "cost_mean"; "cost_std";
                          "cpu_utilization_mean"; "cpu_utilization_std"] ->
                    c ∈ columns t) as Hin.
  { intros c Hc. rewrite Hcols. by apply list_elem_of_In. }
  cbn [List.find]. rewrite !Hhas by (apply Hin; cbn; tauto). cbn [negb].
  rewrite !Hcol by (apply Hin; cbn; tauto). cbn [mbind Result_bind rbind].
  destruct (zip_div_rows (rows t) "cpu_utilization_mean" "cost_mean") as (eff & Heff & Hdiv).
  { apply Forall_forall. intros r Hr. apply list_elem_of_lookup in Hr as [i Hr].
    by destruct (Forall2_lookup_r _ _ _ _ _ Hrs Hr) as (o & _ & _ & ?). }
  rewrite Heff. cbn [mbind Result_bind rbind].
  destruct (mapM_total
              (fun r : row =>
                 _ ← AnalyzeExperiments.row_get t r "scenario_label";
                 _ ← AnalyzeExperiments.row_get t r "topology";
                 _ ← AnalyzeExperiments.row_get t r "scheduler";
                 _ ← AnalyzeExperiments.row_get t r "cost_mean";
                 AnalyzeExperiments.row_get t r "cost_std")
              (rows t)) as [ys Hys].
  { intros r _. rewrite !Hget by (apply Hin; cbn; tauto).
    cbn [mbind Result_bind rbind]. eauto. }
  rewrite Hys. cbn [mbind Result_bind rbind].
  eexists. split; [reflexivity|]. cbn [AnalyzeExperiments.avg_costs_reset
                                       AnalyzeExperiments.cost_efficiency].
  split; [done|]. split; [|done].
  eapply Forall2_impl; [exact Hrs|]. by intros o r [? _].
Qed.
(** ** [ExperimentAnalyzer.__init__] *)

Lemma string_app_assoc (a b c : string) : (a +:+ b) +:+ c = a +:+ (b +:+ c).
Proof.
  induction a as [|x a IH]; [done|].
  change (String x ((a +:+ b) +:+ c) = String x (a +:+ (b +:+ c))). by f_equal.
Qed.

Lemma keep_isin_ok (col : string) (values : list string) (df df' : DataFrame) :
  AnalyzeExperiments.keep_isin col values df = Ok df' ->
  has_column df col = true
  /\ df' = filter_rows (fun r => isin (get_cell r col) values) df.
Proof.
  unfold AnalyzeExperiments.keep_isin, column.
  destruct (has_column df col); [|discriminate]. cbn. by intros [= <-].
Qed.

Lemma assign_ok (c : string) (f : row -> Result cell) (df df' : DataFrame) :
  AnalyzeExperiments.assign c f df = Ok df' ->
  (forall c', has_column df' c' = has_column df c' || bool_decide (c' = c))
  /\ forall r', r' ∈ rows df' -> exists r v, r ∈ rows df /\ f r = Ok v /\ r' = <[c := v]> r.
Proof.
  unfold AnalyzeExperiments.assign.
  destruct (mapM _ (rows df)) as [rs|] eqn:Hrs; [|discriminate].
  cbn. intros [= <-]. split.
  - intros c'. apply (has_column_set_column c c' NaN df).
  - cbn [rows]. intros r' Hr'.
    destruct (mapM_elem _ _ _ _ Hrs Hr') as (r & Hr & Hf).
    destruct (f r) as [v|] eqn:Hv; [|discriminate]. cbn in Hf. injection Hf as <-.
    by exists r, v.
Qed.

Lemma add_datetime_ok (df df' : DataFrame) :
  AnalyzeExperiments.add_datetime df = Ok df' ->
  has_column df "timestamp_absolute" = true
  /\ (forall c, has_column df' c = has_column df c || bool_decide (c = "datetime"))
  /\ forall r', r' ∈ rows df' -> exists r v, r ∈ rows df /\ r' = <["datetime" := v]> r.
Proof.
  unfold AnalyzeExperiments.add_datetime, column.
  destruct (has_column df "timestamp_absolute"); [|discriminate].
  cbn [mbind Result_bind rbind]. intros H. apply assign_ok in H as [Hc Hr].
  split; [done|]. split; [done|]. intros r' Hr'.
  destruct (Hr r' Hr') as (r & v & ? & _ & ?). eauto.
Qed.

Lemma add_scenario_label_ok (pattern : string) (df df' : DataFrame) :
  AnalyzeExperiments.add_scenario_label pattern df = Ok df' ->
  (forall c, has_column df' c = has_column df c || bool_decide (c = "scenario_label"))
  /\ forall r', r' ∈ rows df' ->
       exists r v, r ∈ rows df /\ r' = <["scenario_label" := v]> r
         /\ forall t s, get_cell r "topology" = Str t -> get_cell r "scheduler" = Str s ->
              v = Str (Util.get_scenario_label t pattern s).
Proof.
  unfold AnalyzeExperiments.add_scenario_label.
  destruct (column df "topology"); [|discriminate]. cbn [mbind Result_bind rbind].
  destruct (mapM _ (rows df)); [|discriminate]. cbn [mbind Result_bind rbind].
  destruct (column df "scheduler"); [|discriminate]. cbn [mbind Result_bind rbind].
  intros H. apply assign_ok in H as [Hc Hr]. split; [done|]. intros r' Hr'.
  destruct (Hr r' Hr') as (r & v & Hin & Hv & ->). exists r, v.
  split; [done|]. split; [done|]. intros t s Ht Hs. rewrite Ht, Hs in Hv.
  cbn in Hv. injection Hv as <-. f_equal. unfold Util.get_scenario_label.
  by rewrite !string_app_assoc.
Qed.

(** The table of an analyzer made from a loaded table. *)
Lemma analyzer_table (trackr_data : list ScenarioInfo) (pattern : string)
    (df0 df1 df2 df3 : DataFrame) :
  forallb (has_column df0) tag_columns = true ->
  (forall r, r ∈ rows df0 -> exists n, tagged_by trackr_data n r) ->
  AnalyzeExperiments.keep_isin "scheduler" AnalyzeExperiments.VALID_SCHEDULERS df0 = Ok df1 ->
  AnalyzeExperiments.add_datetime df1 = Ok df2 ->
  AnalyzeExperiments.add_scenario_label pattern df2 = Ok df3 ->
  forallb (has_column df3) analyzer_columns = true
  /\ forall r, r ∈ rows df3 -> labelled pattern r.
Proof.
  intros Hcols Htag H1 H2 H3.
  apply keep_isin_ok in H1 as [_ ->].
  apply add_datetime_ok in H2 as (Hts & Hc2 & Hr2).
  apply add_scenario_label_ok in H3 as (Hc3 & Hr3).
  rewrite has_column_filter_rows in Hts. split.
  - apply forallb_forall. intros c Hc. rewrite Hc3, Hc2, has_column_filter_rows.
    rewrite forallb_forall in Hcols. unfold analyzer_columns in Hc.
    apply in_app_or in Hc as [Hc|Hc]; [by rewrite (Hcols c Hc)|].
    destruct Hc as [<-|[<-|[<-|[]]]]; [by rewrite Hts| |];
      rewrite ?bool_decide_eq_true_2, ?orb_true_r by done; done.
  - intros r3 Hr.
    destruct (Hr3 r3 Hr) as (r2 & label & Hin2 & -> & Hlabel).
    destruct (Hr2 r2 Hin2) as (r1 & dt & Hin1 & ->).
    cbn [filter_rows rows] in Hin1. apply list_elem_of_In, List.filter_In in Hin1 as [Hin0 Hv].
    apply list_elem_of_In in Hin0.
    destruct (Htag r1 Hin0) as (n & info & path & s & seed & _ & _ & _ & Ht & Hs & _).
    rewrite Hs in Hv. cbn [isin] in Hv. apply bool_decide_eq_true in Hv.
    exists (Util.topology_of_path path), s.
    rewrite get_cell_insert.
    rewrite !(get_cell_insert_ne "scenario_label"), !(get_cell_insert_ne "datetime") by done.
    repeat (split; [done|]). f_equal.
    rewrite (Hlabel (Util.topology_of_path path) s); [done| |];
      by rewrite (get_cell_insert_ne "datetime").
Qed.

Lemma experiment_analyzer_init_ok (fs : FS) (base_path cost_pattern : string)
    (self : AnalyzeExperiments.ExperimentAnalyzer) :
  AnalyzeExperiments.ExperimentAnalyzer_init fs base_path cost_pattern = Ok self ->
  exists host0 task0 host1 task1 host2 task2,
    Util.read_parquet_files fs base_path cost_pattern "host" = Ok host0
    /\ Util.read_parquet_files fs base_path cost_pattern "task" = Ok task0
    /\ AnalyzeExperiments.keep_isin "scheduler" AnalyzeExperiments.VALID_SCHEDULERS host0
       = Ok host1
    /\ AnalyzeExperiments.keep_isin "scheduler" AnalyzeExperiments.VALID_SCHEDULERS task0
       = Ok task1
    /\ AnalyzeExperiments.add_datetime host1 = Ok host2
    /\ AnalyzeExperiments.add_datetime task1 = Ok task2
    /\ AnalyzeExperiments.add_scenario_label cost_pattern host2
       = Ok (AnalyzeExperiments.host_df self)
    /\ AnalyzeExperiments.add_scenario_label cost_pattern task2
       = Ok (AnalyzeExperiments.task_df self).
Proof.
  unfold AnalyzeExperiments.ExperimentAnalyzer_init. intros H.
  destruct (Util.read_parquet_files fs base_path cost_pattern "host") as [host0|] eqn:Hh0;
    [|discriminate]. cbn [mbind Result_bind rbind] in H.
  destruct (Util.read_parquet_files fs base_path cost_pattern "task") as [task0|] eqn:Ht0;
    [|discriminate]. cbn [mbind Result_bind rbind] in H.
  destruct (AnalyzeExperiments.keep_isin _ _ host0) as [host1|] eqn:Hh1; [|discriminate].
  cbn [mbind Result_bind rbind] in H.
  destruct (AnalyzeExperiments.keep_isin _ _ task0) as [task1|] eqn:Ht1; [|discriminate].
  cbn [mbind Result_bind rbind] in H.
  destruct (Util.read_trackr fs base_path cost_pattern); [|discriminate].
  cbn [mbind Result_bind rbind] in H.
  destruct (AnalyzeExperiments.add_datetime host1) as [host2|] eqn:Hh2; [|discriminate].
  cbn [mbind Result_bind rbind] in H.
  destruct (AnalyzeExperiments.add_datetime task1) as [task2|] eqn:Ht2; [|discriminate].
  cbn [mbind Result_bind rbind] in H.
  destruct (AnalyzeExperiments.add_scenario_label _ host2) as [host3|] eqn:Hh3;
    [|discriminate]. cbn [mbind Result_bind rbind] in H.
  destruct (AnalyzeExperiments.add_scenario_label _ task2) as [task3|] eqn:Ht3;
    [|discriminate]. cbn [mbind Result_bind rbind] in H. injection H as <-.
  exists host0, task0, host1, task1, host2, task2. done.
Qed.

(** The tags of a loaded table, without the registry. *)
Lemma read_parquet_files_tagged (fs : FS) (base_path cost_pattern file_type : string)
    (df : DataFrame) :
  Util.read_parquet_files fs base_path cost_pattern file_type = Ok df ->
  exists trackr_data,
    forallb (has_column df) tag_columns = true
    /\ forall r, r ∈ rows df -> exists n, tagged_by trackr_data n r.
Proof.
  intros H. apply read_parquet_files_inv in H as (trackr_data & dfs & Ht & Hne & -> & Hdfs).
  exists trackr_data. split.
  - destruct dfs as [|df0 dfs]; [done|]. apply Forall_cons in Hdfs as [[Hcols _] _].
    apply forallb_forall. intros c Hc. rewrite has_column_concat_frames.
    cbn [existsb]. rewrite forallb_forall in Hcols. by rewrite (Hcols c Hc).
  - intros r Hr. apply rows_concat_frames in Hr as (df & Hdf & Hr).
    rewrite Forall_forall in Hdfs. by apply (Hdfs df Hdf).
Qed.

(** X9.  The two tables of an [ExperimentAnalyzer] have the tag columns,
    [timestamp_absolute], [datetime] and [scenario_label]; every row has
    one of the two compared schedulers, and its scenario label is
    [get_scenario_label] of its topology, the cost pattern and its
    scheduler. *)
Theorem experiment_analyzer_init_tables (fs : FS) (base_path cost_pattern : string)
    (self : AnalyzeExperiments.ExperimentAnalyzer) :
  AnalyzeExperiments.ExperimentAnalyzer_init fs base_path cost_pattern = Ok self ->
  forall df,
    df = AnalyzeExperiments.host_df self \/ df = AnalyzeExperiments.task_df self ->
    forallb (has_column df) analyzer_columns = true
    /\ forall r, r ∈ rows df -> labelled cost_pattern r.
Proof.
  intros H df Hdf.
  apply experiment_analyzer_init_ok in H
    as (host0 & task0 & host1 & task1 & host2 & task2 & Hh0 & Ht0 & Hh1 & Ht1 & Hh2 & Ht2
        & Hh3 & Ht3).
  destruct Hdf as [-> | ->].
  - apply read_parquet_files_tagged in Hh0 as (trackr_data & Hcols & Htag).
    by apply (analyzer_table trackr_data cost_pattern host0 host1 host2).
  - apply read_parquet_files_tagged in Ht0 as (trackr_data & Hcols & Htag).
    by apply (analyzer_table trackr_data cost_pattern task0 task1 task2).
Qed.
Lemma analyze_resource_utilization_returns_witness :
  let keys := grouping_keys Examples.measured_hosts ["scenario_label"; "datetime"] in
  exists out,
    AnalyzeExperiments.analyze_resource_utilization Examples.measured_analyzer = Ok out
    /\ columns out = keys ++ utilization_columns
    /\ Forall2 (fun k r =>
                  get_cell r "scenario_label" = nth 0 k NaN
                  /\ exists xs,
                       numeric_values
                         (map (fun h : row => get_cell h "cpu_utilization")
                              (group_rows keys k (rows Examples.measured_hosts)))
                       = Ok xs
                       /\ get_cell r "cpu_utilization_mean" = agg_mean xs)
               (group_keys_of keys (rows Examples.measured_hosts)) (rows out).
Proof.
  refine (proj2 (analyze_resource_utilization_returns Examples.measured_analyzer _ _)
                Examples.utilization_agg _); vm_compute; reflexivity.
Defined.

Lemma analyze_cost_metrics_returns_witness :
  let keys := ["scenario_label"; "topology"; "scheduler"] in
  exists out,
    AnalyzeExperiments.analyze_cost_metrics Examples.measured_analyzer = Ok out
    /\ columns (AnalyzeExperiments.avg_costs_reset out)
       = keys ++ ["cost_mean"; "cost_std"; "cpu_utilization_mean"; "cpu_utilization_std"]
    /\ Forall2 (fun k r =>
                  get_cell r "scenario_label" = nth 0 k NaN
                  /\ exists costs cpus,
                       numeric_values
                         (map (fun h : row => get_cell h "cost")
                              (group_rows keys k (rows Examples.measured_hosts)))
                       = Ok costs
                       /\ numeric_values
                            (map (fun h : row => get_cell h "cpu_utilization")
                                 (group_rows keys k (rows Examples.measured_hosts)))
                          = Ok cpus
                       /\ get_cell r "cost_mean" = agg_mean costs
                       /\ get_cell r "cpu_utilization_mean" = agg_mean cpus)
               (group_keys_of keys (rows Examples.measured_hosts))
               (rows (AnalyzeExperiments.avg_costs_reset out))
    /\ Forall2 (fun (r : row) e =>
                  AnalyzeExperiments.float_div (get_cell r "cpu_utilization_mean")
                                               (get_cell r "cost_mean")
                  = Ok e)
               (rows (AnalyzeExperiments.avg_costs_reset out))
               (AnalyzeExperiments.cost_efficiency out).
Proof.
  refine (proj2 (analyze_cost_metrics_returns Examples.measured_analyzer _)
                Examples.cost_agg _); vm_compute; reflexivity.
Defined.

Lemma experiment_analyzer_init_tables_witness :
  forallb (has_column (AnalyzeExperiments.task_df Examples.stable_analyzer)) analyzer_columns
  = true
  /\ forall r, r ∈ rows (AnalyzeExperiments.task_df Examples.stable_analyzer) ->
       labelled "stable" r.
Proof.
  apply (experiment_analyzer_init_tables Examples.fs_complete "output" "stable"
           Examples.stable_analyzer); [vm_compute; reflexivity | by right].
Defined.

Lemma assign_rows_nil (c : string) (f : row -> Result cell) (df df' : DataFrame) :
  AnalyzeExperiments.assign c f df = Ok df' -> rows df = [] -> rows df' = [].
Proof.
  unfold AnalyzeExperiments.assign. intros H Hnil. rewrite Hnil in H.
  cbn in H. by injection H as <-.
Qed.

(** X10.  When no loaded task row has one of the two compared
    schedulers, the analyzer is still built, with an empty task table, and
    [analyze_task_completion] raises [KeyError('completion_rate')]: the
    frame of the statistics has no column to plot. *)
Theorem no_compared_scheduler_no_statistics (fs : FS) (base_path cost_pattern : string)
    (self : AnalyzeExperiments.ExperimentAnalyzer) (tasks : DataFrame) :
  AnalyzeExperiments.ExperimentAnalyzer_init fs base_path cost_pattern = Ok self ->
  Util.read_parquet_files fs base_path cost_pattern "task" = Ok tasks ->
  (forall r, r ∈ rows tasks ->
     isin (get_cell r "scheduler") AnalyzeExperiments.VALID_SCHEDULERS = false) ->
  rows (AnalyzeExperiments.task_df self) = []
  /\ AnalyzeExperiments.analyze_task_completion (AnalyzeExperiments.task_df self)
     = Raise (KeyError "completion_rate").
Proof.
  intros Hinit Htasks Hnone.
  apply experiment_analyzer_init_ok in Hinit
    as (host0 & task0 & host1 & task1 & host2 & task2 & _ & Ht0 & _ & Ht1 & _ & Ht2
        & _ & Ht3).
  rewrite Htasks in Ht0. injection Ht0 as <-.
  apply keep_isin_ok in Ht1 as [_ ->].
  assert (rows (filter_rows
                  (fun r => isin (get_cell r "scheduler") AnalyzeExperiments.VALID_SCHEDULERS)
                  tasks) = []) as Hnil1.
  { cbn [filter_rows rows]. induction (rows tasks) as [|r rs IH]; [done|].
    cbn [List.filter]. rewrite (Hnone r) by left.
    apply IH. intros r' Hr'. apply Hnone. by right. }
  assert (rows task2 = []) as Hnil2.
  { unfold AnalyzeExperiments.add_datetime in Ht2.
    destruct (column _ "timestamp_absolute"); [|discriminate].
    by apply (assign_rows_nil _ _ _ _ Ht2). }
  pose proof Ht3 as Hlabel. apply add_scenario_label_ok in Hlabel as [Hc _].
  assert (rows (AnalyzeExperiments.task_df self) = []) as Hnil3.
  { unfold AnalyzeExperiments.add_scenario_label in Ht3.
    destruct (column task2 "topology"); [|discriminate]. cbn [mbind Result_bind rbind] in Ht3.
    destruct (mapM _ (rows task2)); [|discriminate]. cbn [mbind Result_bind rbind] in Ht3.
    destruct (column task2 "scheduler"); [|discriminate].
    by apply (assign_rows_nil _ _ _ _ Ht3). }
  split; [done|].
  unfold AnalyzeExperiments.analyze_task_completion, column.
  rewrite Hc, bool_decide_eq_true_2, orb_true_r by done. by rewrite Hnil3.
Qed.

Lemma no_compared_scheduler_no_statistics_witness :
  rows (AnalyzeExperiments.task_df Examples.simple_cost_analyzer) = []
  /\ AnalyzeExperiments.analyze_task_completion
       (AnalyzeExperiments.task_df Examples.simple_cost_analyzer)
     = Raise (KeyError "completion_rate").
Proof.
  apply (no_compared_scheduler_no_statistics Examples.fs_simple_cost "output" "stable"
           Examples.simple_cost_analyzer Examples.simple_cost_tasks);
    [vm_compute; reflexivity | vm_compute; reflexivity |].
  intros r Hr. apply list_elem_of_In in Hr. apply negb_true_iff.
  revert r Hr. apply forallb_forall. vm_compute. reflexivity.
Defined.
(** ** More on the task statistics *)

Lemma zipM_length (f : cell -> cell -> Result cell) (xs ys zs : list cell) :
  zipM f xs ys = Ok zs -> length zs = Nat.min (length xs) (length ys).
Proof.
  revert ys zs. induction xs as [|x xs IH]; intros [|y ys] zs; cbn; try by intros [= <-].
  destruct (f x y); [|discriminate]. cbn.
  destruct (zipM f xs ys) as [zs'|] eqn:Hzs; [|discriminate]. cbn.
  intros [= <-]. cbn. by rewrite (IH ys zs').
Qed.

Section CompletionTimes.

Variable df : DataFrame.
Variable s : cell.
Hypothesis Hok : task_table_ok df = true.

(** With at least one task whose final state is COMPLETED, the five
    statistics of the completion time are computed. *)
Lemma scenario_metrics_times :
  tasks_in_state (rows_of_label df s) "COMPLETED" <> 0%nat ->
  exists m,
    AnalyzeExperiments.scenario_metrics df s = Ok m
    /\ Forall is_Some (time_statistics m)
    /\ (tasks_in_state (rows_of_label df s) "COMPLETED" = 1%nat ->
        AnalyzeExperiments.std_completion_time m = Some SNaN).
Proof.
  intros Hn. unfold AnalyzeExperiments.scenario_metrics.
  assert (column df "scenario_label"
          = Ok (map (fun r : row => get_cell r "scenario_label") (rows df))) as ->.
  { unfold column. rewrite (has_column_task df "scenario_label" Hok); [done|].
    apply task_columns_mem. simpl. tauto. }
  cbn [mbind Result_bind rbind].
  rewrite (groupby_task_id df s Hok). cbn [mbind Result_bind rbind].
  rewrite (tfs_column df s Hok "task_state"); [|apply task_columns_mem; simpl; tauto|done].
  cbn [mbind Result_bind rbind].
  cbn [rows filter_rows]. rewrite (completed_length df s Hok).
  destruct (tasks_in_state (rows_of_label df s) "COMPLETED") as [|n] eqn:Hc; [done|].
  replace (0 <? S n)%nat with true by done.
  unfold column. rewrite !has_column_filter_rows.
  rewrite (tfs_has df s Hok "finish_time"), (tfs_has df s Hok "creation_time");
    [|apply task_columns_mem; simpl; tauto|done|apply task_columns_mem; simpl; tauto|done].
  cbn [mbind Result_bind rbind rows filter_rows].
  match goal with
  | |- context [zipM cell_sub ?xs ?ys] =>
      destruct (zipM_cell_sub_ok xs ys) as [zs Hzs];
        [apply Forall_map_filter, (tfs_times_not_str df s Hok); by left
        |apply Forall_map_filter, (tfs_times_not_str df s Hok); by right|];
      pose proof (zipM_length _ _ _ _ Hzs) as Hlen
  end.
  rewrite !length_map, (completed_length df s Hok), Hc, Nat.min_id in Hlen.
  rewrite Hzs. cbn [mbind Result_bind rbind]. eexists. split; [reflexivity|].
  destruct zs as [|z zs]; [discriminate|]. split.
  - unfold time_statistics. cbn. repeat constructor; eauto.
  - intros [= ->]. destruct zs; [|discriminate]. cbn. by destruct z.
Qed.

End CompletionTimes.

(** X11.  For a task table in which some task has a final state,
    [analyze_task_completion] returns statistics in which the five
    statistics of the completion time of a scenario label are all [None]
    when no task of the label has COMPLETED as its final state, and all
    present when at least one has; with exactly one such task the standard
    deviation is present and NaN. *)
Theorem completion_time_statistics_present (df : DataFrame) :
  task_table_ok df = true ->
  has_final_state df = true ->
  exists stats,
    AnalyzeExperiments.analyze_task_completion df = Ok stats
    /\ forall label m, (label, m) ∈ stats ->
         let completed := tasks_in_state (rows_of_label df label) "COMPLETED" in
         (completed = 0%nat -> Forall (fun t => t = None) (time_statistics m))
         /\ (completed <> 0%nat -> Forall is_Some (time_statistics m))
         /\ (completed = 1%nat ->
             AnalyzeExperiments.std_completion_time m = Some SNaN).
Proof.
  intros Hok Hfinal.
  destruct (analyze_task_completion_total df Hok Hfinal) as (stats & Hrun & _ & Hstats).
  exists stats. split; [done|]. intros label m Hm. cbv zeta.
  specialize (Hstats label m Hm). split; [|split].
  - intros Hc. destruct (scenario_metrics_spec df label Hok) as (m' & Hm' & _ & _ & _ & _ & Hnone).
    rewrite Hstats in Hm'. injection Hm' as <-.
    destruct (Hnone Hc) as (? & ? & ? & ? & ?). unfold time_statistics.
    repeat constructor; done.
  - intros Hc. destruct (scenario_metrics_times df label Hok Hc) as (m' & Hm' & Hsome & _).
    rewrite Hstats in Hm'. by injection Hm' as <-.
  - intros Hc. destruct (scenario_metrics_times df label Hok) as (m' & Hm' & _ & Hstd).
    { by rewrite Hc. }
    rewrite Hstats in Hm'. injection Hm' as <-. by apply Hstd.
Qed.

Lemma completion_time_statistics_present_witness :
  exists stats,
    AnalyzeExperiments.analyze_task_completion Examples.tasks = Ok stats
    /\ forall label m, (label, m) ∈ stats ->
         let completed := tasks_in_state (rows_of_label Examples.tasks label) "COMPLETED" in
         (completed = 0%nat -> Forall (fun t => t = None) (time_statistics m))
         /\ (completed <> 0%nat -> Forall is_Some (time_statistics m))
         /\ (completed = 1%nat ->
             AnalyzeExperiments.std_completion_time m = Some SNaN).
Proof.
  apply (completion_time_statistics_present Examples.tasks); [reflexivity|reflexivity].
Defined.

Lemma filter3_length {A} (p q r : A -> bool) (l : list A) :
  (forall x, p x = true -> q x = false /\ r x = false) ->
  (forall x, q x = true -> r x = false) ->
  (length (List.filter p l) + length (List.filter q l) + length (List.filter r l)
   <= length l)%nat.
Proof.
  intros Hp Hq. induction l as [|x l IH]; [done|]. cbn [List.filter length].
  destruct (p x) eqn:Hpx.
  - destruct (Hp x Hpx) as [-> ->]. cbn [length]. lia.
  - destruct (q x) eqn:Hqx.
    + rewrite (Hq x Hqx). cbn [length]. lia.
    + destruct (r x); cbn [length]; lia.
Qed.

Lemma tasks_in_three_states (rs : list row) :
  (tasks_in_state rs "COMPLETED" + tasks_in_state rs "TERMINATED"
   + tasks_in_state rs "ERROR" <= length (task_ids rs))%nat.
Proof.
  unfold tasks_in_state. apply filter3_length.
  - intros tid H. apply cell_eqb_Str in H. by rewrite H.
  - intros tid H. apply cell_eqb_Str in H. by rewrite H.
Qed.

Lemma rate_plus (a b n : nat) :
  (AnalyzeExperiments.rate a n + AnalyzeExperiments.rate b n
   == AnalyzeExperiments.rate (a + b) n)%Q.
Proof.
  unfold AnalyzeExperiments.rate. destruct (0 <? n)%nat; [|reflexivity].
  rewrite Nat2Z.inj_add, inject_Z_plus. unfold Qdiv. ring.
Qed.

(** X12.  For a task table in which some task has a final state,
    [analyze_task_completion] returns statistics in which the completion,
    termination and error rates of every scenario label add up to at
    most 1. *)
Theorem task_rates_sum_at_most_one (df : DataFrame) :
  task_table_ok df = true ->
  has_final_state df = true ->
  exists stats,
    AnalyzeExperiments.analyze_task_completion df = Ok stats
    /\ forall label m, (label, m) ∈ stats ->
         (AnalyzeExperiments.completion_rate m + AnalyzeExperiments.termination_rate m
          + AnalyzeExperiments.error_rate m <= 1)%Q.
Proof.
  intros Hok Hrows.
  destruct (analyze_task_completion_total df Hok Hrows) as (stats & Hrun & _ & Hstats).
  exists stats. split; [done|]. intros label m Hm.
  specialize (Hstats label m Hm).
  destruct (scenario_metrics_spec df label Hok) as (m' & Hm' & _ & Hc & Ht & He & _).
  rewrite Hstats in Hm'. injection Hm' as <-. rewrite Hc, Ht, He, !rate_plus.
  apply (rate_is_rate _ _ (tasks_in_three_states (rows_of_label df label))).
Qed.

Lemma task_rates_sum_at_most_one_witness :
  exists stats,
    AnalyzeExperiments.analyze_task_completion Examples.tasks = Ok stats
    /\ forall label m, (label, m) ∈ stats ->
         (AnalyzeExperiments.completion_rate m + AnalyzeExperiments.termination_rate m
          + AnalyzeExperiments.error_rate m <= 1)%Q.
Proof.
  apply (task_rates_sum_at_most_one Examples.tasks); [reflexivity|reflexivity].
Defined.

(** Without a final state no task is counted in a state. *)
Lemma tasks_in_state_no_final_state (df : DataFrame) (label : cell) (st : string) :
  has_final_state df = false ->
  tasks_in_state (rows_of_label df label) st = 0%nat.
Proof.
  intros Hfinal. unfold tasks_in_state.
  rewrite (List.filter_ext_in _ (fun _ => false)); [by rewrite filter_false|].
  intros tid _.
  assert (final_state (rows_of_label df label) tid = NaN) as ->; [|done].
  unfold final_state. rewrite filter_map_comm.
  rewrite (List.filter_ext_in _ (fun _ => false)); [by rewrite filter_false|].
  intros r Hr. apply negb_false_iff.
  apply filter_In in Hr as [Hr Hid]. apply filter_In in Hr as [Hr Hlabel].
  destruct (has_final_state_none df r Hfinal Hr) as [Hl|[Hi|Hs]]; [| |done].
  - by destruct (get_cell r "scenario_label").
  - destruct (get_cell r "task_id"); [|done|done]. by destruct tid.
Qed.

(** X20.  On a task table with the columns the statistics read and at
    least one row, [analyze_task_completion] returns exactly when some
    task has a final state.  Otherwise the statistics of every label are
    computed, with no task in any state and no completion time, and the
    call raises [TypeError] at the third chart: the frame of the state
    distributions has no column to plot. *)
Theorem task_completion_needs_final_state (df : DataFrame) :
  task_table_ok df = true ->
  rows df <> [] ->
  is_ok (AnalyzeExperiments.analyze_task_completion df) = has_final_state df
  /\ (has_final_state df = false ->
      AnalyzeExperiments.analyze_task_completion df
      = Raise (TypeError "no numeric data to plot")
      /\ forall label,
           exists m,
             AnalyzeExperiments.scenario_metrics df label = Ok m
             /\ (AnalyzeExperiments.completion_rate m == 0)%Q
             /\ Forall (fun t => t = None) (time_statistics m)).
Proof.
  intros Hok Hrows. split.
  - destruct (has_final_state df) eqn:Hfinal.
    + by destruct (analyze_task_completion_total df Hok Hfinal) as (stats & -> & _).
    + by rewrite (analyze_task_completion_no_state df Hok Hrows Hfinal).
  - intros Hfinal. split; [by apply analyze_task_completion_no_state|].
    intros label.
    destruct (scenario_metrics_spec df label Hok) as (m & Hm & _ & Hrate & _ & _ & Hnone).
    exists m. split; [done|].
    rewrite (tasks_in_state_no_final_state df label "COMPLETED" Hfinal) in Hrate, Hnone.
    split.
    + rewrite Hrate. unfold AnalyzeExperiments.rate.
      destruct (0 <? _)%nat; [|reflexivity]. cbn. unfold Qdiv. by rewrite Qmult_0_l.
    + destruct (Hnone eq_refl) as (? & ? & ? & ? & ?). unfold time_statistics.
      repeat constructor; done.
Qed.

Lemma task_completion_needs_final_state_witness :
  AnalyzeExperiments.analyze_task_completion Examples.submitted_tasks
  = Raise (TypeError "no numeric data to plot")
  /\ forall label,
       exists m,
         AnalyzeExperiments.scenario_metrics Examples.submitted_tasks label = Ok m
         /\ (AnalyzeExperiments.completion_rate m == 0)%Q
         /\ Forall (fun t => t = None) (time_statistics m).
Proof.
  apply (task_completion_needs_final_state Examples.submitted_tasks);
    [reflexivity | discriminate | reflexivity].
Defined.
(** ** The statistics in the comparison *)

Lemma analyze_task_completion_labels (df : DataFrame)
    (stats : list (cell * AnalyzeExperiments.TaskMetrics)) :
  AnalyzeExperiments.analyze_task_completion df = Ok stats ->
  map fst stats = unique (map (fun r : row => get_cell r "scenario_label") (rows df)).
Proof.
  unfold AnalyzeExperiments.analyze_task_completion, column. intros H.
  destruct (has_column df "scenario_label"); cbn [mbind Result_bind rbind] in H;
    [|discriminate].
  destruct (mapM (fun s => m ← AnalyzeExperiments.scenario_metrics df s; Ok (s, m)) _)
    as [ss|] eqn:Hss; cbn [mbind Result_bind rbind] in H; [|discriminate].
  assert (stats = ss) as ->.
  { destruct ss; [discriminate|].
    destruct (mapM (AnalyzeExperiments.boxplot_times df) _);
      cbn [mbind Result_bind rbind] in H; [|discriminate].
    destruct (mapM (AnalyzeExperiments.state_distribution df) _) as [ds|];
      cbn [mbind Result_bind rbind] in H; [|discriminate].
    destruct (AnalyzeExperiments.state_columns ds); [discriminate|].
    by injection H as <-. }
  clear H. apply Forall2_map_eq. apply mapM_Forall2 in Hss.
  eapply Forall2_impl; [exact Hss|]. intros s p Hp. cbv beta in Hp.
  destruct (AnalyzeExperiments.scenario_metrics df s); cbn in Hp; [|discriminate].
  by injection Hp as <-.
Qed.

(** The strings among the distinct values of a series are pairwise
    different. *)
Lemma unique_strings_NoDup (cs : list cell) :
  NoDup (omap (fun c => match c with Str s => Some s | _ => None end) (unique cs)).
Proof.
  induction cs as [|c cs IH]; [constructor|]. cbn [unique].
  assert (NoDup (omap (fun c => match c with Str s => Some s | _ => None end)
                      (List.filter (fun c' => negb (cell_same c c')) (unique cs)))) as Hrest.
  { revert IH. generalize (unique cs). intros l. induction l as [|x l IHl]; [done|].
    cbn [List.filter omap]. intros Hl.
    assert (NoDup (omap (fun c => match c with Str s => Some s | _ => None end) l)) as Hl'.
    { destruct x; cbn in Hl; try done. by apply NoDup_cons in Hl as [_ ?]. }
    destruct (negb (cell_same c x)); [|by apply IHl].
    destruct x as [| |s]; cbn [omap]; try by apply IHl.
    cbn in Hl. apply NoDup_cons in Hl as [Hs _]. apply NoDup_cons. split; [|by apply IHl].
    intros Hin. apply Hs. apply list_elem_of_omap in Hin as (y & Hy & Hys).
    apply list_elem_of_omap. exists y. split; [|done].
    apply list_elem_of_In in Hy. apply List.filter_In in Hy as [Hy _].
    by apply list_elem_of_In. }
  destruct c as [| |s]; cbn [omap]; try done.
  apply NoDup_cons. split; [|done].
  intros Hin. apply list_elem_of_omap in Hin as (y & Hy & Hys).
  destruct y as [| |s']; try discriminate. injection Hys as ->.
  apply list_elem_of_In, List.filter_In in Hy as [_ Hy].
  cbn in Hy. by rewrite String.eqb_refl in Hy.
Qed.

Lemma mapM_ok_map {A B} (f : A -> Result B) (g : A -> B) (l : list A) :
  (forall x, f x = Ok (g x)) -> mapM f l = Ok (map g l).
Proof.
  intros H. induction l as [|x l IH]; [done|]. cbn [mapM map].
  by rewrite H, IH.
Qed.

(** The frame built from the statistics: a label's row holds the
    statistics computed for the label. *)
Lemma stats_frame_lookup (stats : list (cell * AnalyzeExperiments.TaskMetrics)) (s : string) :
  NoDup (omap (fun c => match c with Str s => Some s | _ => None end) (map fst stats)) ->
  (forall m, AnalyzeExperiments.stats_frame stats !! s = Some m <-> (Str s, m) ∈ stats)
  /\ (AnalyzeExperiments.stats_frame stats !! s = None <-> Str s ∉ map fst stats).
Proof.
  intros Hnd. unfold AnalyzeExperiments.stats_frame.
  set (g := fun p : cell * AnalyzeExperiments.TaskMetrics =>
              match p.1 with Str s => Some (s, p.2) | _ => None end).
  assert ((omap g (rev stats)).*1
          ≡ₚ omap (fun c => match c with Str s => Some s | _ => None end) (map fst stats))
    as Hkeys.
  { rewrite <- (Permutation_rev stats). clear Hnd.
    induction stats as [|[c m] stats IH]; [done|].
    destruct c; cbn; [exact IH|exact IH|by apply Permutation_skip]. }
  assert (forall i x, (i, x) ∈ omap g (rev stats) <-> (Str i, x) ∈ stats) as Hmem.
  { intros i x. rewrite list_elem_of_omap. split.
    - intros ([c m] & Hp & Hg). unfold g in Hg. cbn in Hg.
      destruct c; try discriminate. injection Hg as -> ->.
      apply list_elem_of_In in Hp. apply (proj2 (in_rev _ _)) in Hp.
      by apply list_elem_of_In.
    - intros Hp. exists (Str i, x). split; [|done].
      apply list_elem_of_In, (proj1 (in_rev _ _)). by apply list_elem_of_In. }
  rewrite <- Hkeys in Hnd. split.
  - intros m. rewrite <- elem_of_list_to_map by done. apply Hmem.
  - rewrite <- not_elem_of_list_to_map. split.
    + intros Hn Hin. apply Hn. apply list_elem_of_fmap in Hin as ([c m] & Hc & Hp).
      cbn in Hc. subst c. apply list_elem_of_fmap. exists (s, m). split; [done|].
      by apply Hmem.
    + intros Hn Hin. apply Hn. apply list_elem_of_fmap in Hin as ([i m] & Hi & Hp).
      cbn in Hi. subst i. apply list_elem_of_fmap. exists (Str s, m). split; [done|].
      by apply Hmem.
Qed.

(** X13.  In [main] the statistics of [analyze_task_completion] are
    handed to [comparative_analysis] as a frame indexed by the scenario
    labels: the comparison row of a cost row carries the completion rate
    computed for the row's label, and no rate for a label without task
    rows. *)
Theorem comparison_uses_task_statistics (task_df cost : DataFrame)
    (stats : list (cell * AnalyzeExperiments.TaskMetrics)) :
  AnalyzeExperiments.analyze_task_completion task_df = Ok stats ->
  forallb (has_column cost) cost_columns = true ->
  exists out,
    AnalyzeExperiments.comparative_analysis cost (AnalyzeExperiments.stats_frame stats)
    = Ok out
    /\ Forall2 (fun (r : row) o =>
                  forall s, get_cell r "scenario_label" = Str s ->
                    (forall m, (Str s, m) ∈ stats ->
                       AnalyzeExperiments.cmp_completion_rate o
                       = Some (AnalyzeExperiments.completion_rate m))
                    /\ (Str s ∉ map fst stats ->
                        AnalyzeExperiments.cmp_completion_rate o = None))
               (rows cost) out.
Proof.
  intros Hstats Hcols. apply analyze_task_completion_labels in Hstats.
  pose proof (unique_strings_NoDup
                (map (fun r : row => get_cell r "scenario_label") (rows task_df))) as Hnd.
  rewrite <- Hstats in Hnd.
  unfold AnalyzeExperiments.comparative_analysis.
  rewrite (mapM_ok_map _ _ _ (fun r => comparison_row_ok cost _ r Hcols)).
  eexists. split; [reflexivity|].
  apply Forall2_fmap_r, Forall_Forall2_diag, Forall_forall. intros r _ s Hs.
  unfold compose. cbn [AnalyzeExperiments.cmp_completion_rate]. rewrite Hs.
  cbn [AnalyzeExperiments.lookup_completion_rate].
  destruct (stats_frame_lookup stats s Hnd) as [Hsome Hnone]. split.
  - intros m Hm. apply Hsome in Hm. by rewrite Hm.
  - intros Hn. apply Hnone in Hn. by rewrite Hn.
Qed.

Lemma comparison_uses_task_statistics_witness :
  exists out,
    AnalyzeExperiments.comparative_analysis Examples.cost_stats
      (AnalyzeExperiments.stats_frame Examples.task_stats)
    = Ok out
    /\ Forall2 (fun (r : row) o =>
                  forall s, get_cell r "scenario_label" = Str s ->
                    (forall m, (Str s, m) ∈ Examples.task_stats ->
                       AnalyzeExperiments.cmp_completion_rate o
                       = Some (AnalyzeExperiments.completion_rate m))
                    /\ (Str s ∉ map fst Examples.task_stats ->
                        AnalyzeExperiments.cmp_completion_rate o = None))
               (rows Examples.cost_stats) out.
Proof.
  apply (comparison_uses_task_statistics Examples.tasks Examples.cost_stats
           Examples.task_stats); [vm_compute; reflexivity | reflexivity].
Defined.
(** ** The files of [analyze_experiments.main] *)

Section AnalyzeExperimentsMain.

Variable fs : FS.
Variable resource cost : AnalyzeExperiments.ExperimentAnalyzer -> Result DataFrame.

(** One turn of the loop: the analyses run before anything is written. *)
Lemma analyze_pattern_run (p : string) (w : AnalyzeExperiments.World) :
  AnalyzeExperiments.analyze_pattern fs resource cost p w
  = match analyses fs resource cost p with
    | Ok _ =>
        ({| AnalyzeExperiments.log :=
              AnalyzeExperiments.log w
              ++ [Info (newline +:+ "Analyzing '" +:+ p +:+ "' cost pattern...");
                  Info ("Saving results for '" +:+ p +:+ "' pattern...")];
            AnalyzeExperiments.files := AnalyzeExperiments.files w ++ csv_files p |},
         Ok tt)
    | Raise e =>
        ({| AnalyzeExperiments.log :=
              AnalyzeExperiments.log w
              ++ [Info (newline +:+ "Analyzing '" +:+ p +:+ "' cost pattern...")];
            AnalyzeExperiments.files := AnalyzeExperiments.files w |},
         Raise e)
    end.
Proof.
  unfold AnalyzeExperiments.analyze_pattern, analyses.
  unfold mbind, ST_bind, Result_bind, rbind, AnalyzeExperiments.logger,
    AnalyzeExperiments.to_csv, modify, lift, csv_files.
  destruct (AnalyzeExperiments.ExperimentAnalyzer_init fs "output" p) as [a|]; [|done].
  destruct (resource a); [|done].
  destruct (cost a) as [cost_stats|]; [|done].
  destruct (AnalyzeExperiments.analyze_task_completion _) as [task_stats|]; [|done].
  destruct (AnalyzeExperiments.comparative_analysis _ _); [|done].
  cbn [AnalyzeExperiments.log AnalyzeExperiments.files].
  by rewrite <- !app_assoc.
Qed.

Lemma patterns_loop_files (ps : list string) (w : AnalyzeExperiments.World) :
  let ok p := is_ok (analyses fs resource cost p) in
  let r := for_each ps (AnalyzeExperiments.analyze_pattern fs resource cost) w in
  AnalyzeExperiments.files r.1
  = AnalyzeExperiments.files w ++ flat_map csv_files (leading ok ps)
  /\ is_ok r.2 = forallb ok ps.
Proof.
  cbv zeta. revert w. induction ps as [|p ps IH]; intros w.
  - cbn. by rewrite app_nil_r.
  - cbn [for_each leading forallb]. unfold mbind, ST_bind.
    rewrite analyze_pattern_run.
    destruct (analyses fs resource cost p) as [[]|e]; cbn [is_ok andb fst snd].
    + destruct (IH {| AnalyzeExperiments.log :=
                        AnalyzeExperiments.log w
                        ++ [Info (newline +:+ "Analyzing '" +:+ p +:+ "' cost pattern...");
                            Info ("Saving results for '" +:+ p +:+ "' pattern...")];
                      AnalyzeExperiments.files :=
                        AnalyzeExperiments.files w ++ csv_files p |}) as [Hf Hok].
      split; [|done]. rewrite Hf. cbn [AnalyzeExperiments.files flat_map].
      by rewrite <- app_assoc.
    + cbn [flat_map]. by rewrite app_nil_r.
Qed.

End AnalyzeExperimentsMain.

(** X14.  [analyze_experiments.main] writes the four CSV files of each
    cost pattern that precedes the first pattern whose analyses raise, in
    the order of the patterns, and no other CSV file: a pattern has all
    four files or none.  It returns, exit status 0, exactly when no
    pattern raises. *)
Theorem analyze_experiments_main_files (fs : FS)
    (resource cost : AnalyzeExperiments.ExperimentAnalyzer -> Result DataFrame)
    (w : AnalyzeExperiments.World) :
  let ok p := is_ok (analyses fs resource cost p) in
  let r := AnalyzeExperiments.main fs resource cost w in
  AnalyzeExperiments.files r.1
  = AnalyzeExperiments.files w
    ++ flat_map csv_files (leading ok AnalyzeExperiments.patterns)
  /\ (exit_status r.2 = 0%Z <-> forallb ok AnalyzeExperiments.patterns = true).
Proof.
  cbv zeta.
  set (w0 := {| AnalyzeExperiments.log :=
                  AnalyzeExperiments.log w ++ [Info "Starting experiment analysis (main)..."];
                AnalyzeExperiments.files := AnalyzeExperiments.files w |}).
  destruct (patterns_loop_files fs resource cost AnalyzeExperiments.patterns w0)
    as [Hf Hok].
  assert (AnalyzeExperiments.main fs resource cost w
          = match for_each AnalyzeExperiments.patterns
                    (AnalyzeExperiments.analyze_pattern fs resource cost) w0 with
            | (w1, Ok _) =>
                ({| AnalyzeExperiments.log :=
                      AnalyzeExperiments.log w1 ++ [Info "Analysis completed successfully."];
                    AnalyzeExperiments.files := AnalyzeExperiments.files w1 |}, Ok tt)
            | (w1, Raise e) =>
                ({| AnalyzeExperiments.log :=
                      AnalyzeExperiments.log w1
                      ++ [Error ("Error in main analysis: " +:+ exn_message e)];
                    AnalyzeExperiments.files := AnalyzeExperiments.files w1 |}, Raise e)
            end) as ->.
  { unfold AnalyzeExperiments.main, AnalyzeExperiments.log_and_reraise.
    unfold mbind, ST_bind, AnalyzeExperiments.logger, modify. fold w0.
    by destruct (for_each AnalyzeExperiments.patterns _ w0) as [w1 [[]|e]]. }
  destruct (for_each AnalyzeExperiments.patterns _ w0) as [w1 [[]|e]];
    cbn [fst snd is_ok AnalyzeExperiments.files exit_status] in *;
    rewrite Hf, <- Hok; (split; [done|]); split; done.
Qed.
(** ** [load_data] *)

(** A loop raises what one of its turns raises. *)
Lemma for_each_raise {S A} (l : list A) (body : A -> ST S unit) (σ σ' : S) (e : exn) :
  for_each l body σ = (σ', Raise e) ->
  exists x τ τ', In x l /\ body x τ = (τ', Raise e).
Proof.
  revert σ. induction l as [|x l IH]; intros σ; [discriminate|].
  cbn [for_each]. unfold mbind, ST_bind.
  destruct (body x σ) as [τ [[]|e']] eqn:Hx.
  - intros H. destruct (IH _ H) as (y & τ1 & τ2 & Hy & Hb).
    exists y, τ1, τ2. split; [by right|done].
  - intros [= -> ->]. exists x, σ, σ'. split; [by left|done].
Qed.

Lemma load_scenario_raise (trackr_file : TrackrFile) (root : string)
    (entry : string * ScenarioNode) (σ σ' : MoreAnalysis.Loaded) (e : exn) :
  MoreAnalysis.load_scenario trackr_file root entry σ = (σ', Raise e) ->
  e = NotADirectoryError /\ isdigit entry.1 = true /\ entry.2 = NotADirectory.
Proof.
  destruct entry as [scenario node]. unfold MoreAnalysis.load_scenario. cbn [fst snd].
  destruct (isdigit scenario); [|discriminate]. cbn [negb].
  unfold mbind, ST_bind, lift. destruct node as [|seeds]; cbn [listdir].
  - by intros [= _ <-].
  - intros H. apply for_each_raise in H as ([seed_dir files] & τ & τ' & _ & H).
    destruct (load_seed_spec trackr_file (path_join root scenario) scenario seed_dir files τ)
      as (τ1 & Hok & _).
    rewrite Hok in H. discriminate.
Qed.

(** X15.  [load_data] raises nothing but [FileNotFoundError], when the
    directory [raw-output] does not exist; [NotADirectoryError], when an
    entry of [raw-output] with a numeric name is not a directory; and
    [ValueError('No data loaded')].  An unreadable table, a seed directory
    whose name has no number, a malformed registry or a scenario without a
    registry entry never make it raise. *)
Theorem load_data_exceptions (fs : FS) (base_path cost_pattern : string) (e : exn) :
  MoreAnalysis.load_data fs base_path cost_pattern = Raise e ->
  (e = FileNotFoundError /\ raw_output (fs base_path cost_pattern) = None)
  \/ (e = NotADirectoryError
      /\ exists entries name,
           raw_output (fs base_path cost_pattern) = Some entries
           /\ (name, NotADirectory) ∈ entries /\ isdigit name = true)
  \/ e = ValueError "No data loaded".
Proof.
  unfold MoreAnalysis.load_data.
  destruct (raw_output (fs base_path cost_pattern)) as [entries|]; [|intros [= <-]; by left].
  destruct (for_each entries
              (MoreAnalysis.load_scenario (trackr (fs base_path cost_pattern))
                 (pattern_path base_path cost_pattern)) ([], []))
    as [[host_dfs task_dfs] [[]|e']] eqn:Hloop.
  - destruct host_dfs, task_dfs; (intros [= <-] || discriminate); by do 2 right.
  - intros [= ->]. right. left.
    apply for_each_raise in Hloop as ([name node] & τ & τ' & Hin & Hraise).
    apply load_scenario_raise in Hraise as (-> & Hd & Hn). cbn [fst snd] in Hd, Hn.
    subst node. split; [done|]. exists entries, name.
    split; [done|]. split; [by apply list_elem_of_In|done].
Qed.

Lemma load_data_exceptions_witness :
  (ValueError "No data loaded" = FileNotFoundError
   /\ raw_output (Examples.fs_empty "output" "stable") = None)
  \/ (ValueError "No data loaded" = NotADirectoryError
      /\ exists entries name,
           raw_output (Examples.fs_empty "output" "stable") = Some entries
           /\ (name, NotADirectory) ∈ entries /\ isdigit name = true)
  \/ ValueError "No data loaded" = ValueError "No data loaded".
Proof.
  apply (load_data_exceptions Examples.fs_empty "output" "stable").
  reflexivity.
Defined.
Lemma load_table_tagged (trackr_file : TrackrFile) (root scenario seed_dir : string)
    (content : FileContent) (df : DataFrame) :
  isdigit scenario = true ->
  MoreAnalysis.load_table trackr_file (path_join root scenario) scenario seed_dir content
  = Ok df ->
  path_tagged_frame trackr_file root df.
Proof.
  intros Hd. unfold MoreAnalysis.load_table.
  destruct (read_parquet content) as [df0|]; [|discriminate].
  cbn [mbind Result_bind rbind].
  destruct (py_int scenario) as [n|] eqn:Hn; [|discriminate].
  cbn [mbind Result_bind rbind].
  destruct (seed_of seed_dir) as [seed|]; [|discriminate].
  cbn [mbind Result_bind rbind]. intros [= <-]. split.
  - cbn [forallb tag_columns]. rewrite !has_column_set_column.
    repeat (rewrite ?bool_decide_eq_true_2 by done; rewrite ?orb_true_r; cbn [andb]).
    done.
  - intros r Hr. exists scenario, n, seed. split; [done|]. split; [done|].
    cbn [set_column rows] in Hr. rewrite !map_map in Hr.
    apply list_elem_of_fmap in Hr as (r0 & -> & _).
    rewrite get_cell_insert.
    rewrite !(get_cell_insert_ne "seed") by done. rewrite get_cell_insert.
    rewrite !(get_cell_insert_ne "scenario") by done.
    rewrite (get_cell_insert_ne "topology" "scheduler") by done.
    rewrite !get_cell_insert. done.
Qed.

Lemma load_seed_tagged (trackr_file : TrackrFile) (root scenario : string)
    (entry : string * SeedDir) (σ : MoreAnalysis.Loaded) :
  isdigit scenario = true ->
  Forall (path_tagged_frame trackr_file root) σ.1 ->
  Forall (path_tagged_frame trackr_file root) σ.2 ->
  let σ' := (MoreAnalysis.load_seed trackr_file (path_join root scenario) scenario entry σ).1 in
  Forall (path_tagged_frame trackr_file root) σ'.1
  /\ Forall (path_tagged_frame trackr_file root) σ'.2.
Proof.
  intros Hd H1 H2. cbv zeta. destruct entry as [seed_dir files].
  unfold MoreAnalysis.load_seed.
  destruct (negb (String.prefix "seed=" seed_dir)); [done|].
  unfold MoreAnalysis.catch. cbn [fst]. unfold mbind, ST_bind, lift, modify, mret, ST_ret.
  destruct (files !! "host.parquet") as [host|].
  - destruct (MoreAnalysis.load_table _ _ _ _ host) as [hdf|] eqn:Hh; [|done].
    apply load_table_tagged in Hh; [|done].
    destruct (files !! "task.parquet") as [task|].
    + destruct (MoreAnalysis.load_table _ _ _ _ task) as [tdf|] eqn:Ht; cbn [fst snd].
      * apply load_table_tagged in Ht; [|done]. split; apply Forall_app; auto.
      * split; [apply Forall_app; auto|done].
    + cbn [fst snd]. split; [apply Forall_app; auto|done].
  - destruct (files !! "task.parquet") as [task|]; [|done].
    destruct (MoreAnalysis.load_table _ _ _ _ task) as [tdf|] eqn:Ht; cbn [fst snd]; [|done].
    apply load_table_tagged in Ht; [|done]. split; [done|apply Forall_app; auto].
Qed.

Lemma load_scenario_tagged (trackr_file : TrackrFile) (root : string)
    (entry : string * ScenarioNode) (σ : MoreAnalysis.Loaded) :
  Forall (path_tagged_frame trackr_file root) σ.1
  /\ Forall (path_tagged_frame trackr_file root) σ.2 ->
  let σ' := (MoreAnalysis.load_scenario trackr_file root entry σ).1 in
  Forall (path_tagged_frame trackr_file root) σ'.1
  /\ Forall (path_tagged_frame trackr_file root) σ'.2.
Proof.
  intros Hσ. cbv zeta. destruct entry as [scenario node].
  unfold MoreAnalysis.load_scenario.
  destruct (isdigit scenario) eqn:Hd; [|done]. cbn [negb].
  unfold mbind, ST_bind, lift. destruct (listdir node) as [seeds|]; [|done].
  apply (for_each_invariant
           (fun τ : MoreAnalysis.Loaded =>
              Forall (path_tagged_frame trackr_file root) τ.1
              /\ Forall (path_tagged_frame trackr_file root) τ.2)); [|done].
  intros seed τ _ [H1 H2]. by apply load_seed_tagged.
Qed.

Lemma size_from_range (s : string) (t : string) :
  MoreAnalysis.size_from s = Some t -> t ∈ topology_labels.
Proof.
  unfold MoreAnalysis.size_from.
  repeat (destruct (str_contains _ _); [intros [= <-]; apply (bool_decide_unpack _);
                                        vm_compute; exact I|]).
  discriminate.
Qed.

Lemma parse_topology_size_range (trackr_file : TrackrFile) (scenario_path : string) :
  MoreAnalysis.parse_topology_size trackr_file scenario_path ∈ topology_labels.
Proof.
  unfold MoreAnalysis.parse_topology_size.
  assert (default "unknown" (MoreAnalysis.size_from scenario_path) ∈ topology_labels) as Hd.
  { destruct (MoreAnalysis.size_from scenario_path) as [t|] eqn:Ht; cbn.
    - by apply (size_from_range scenario_path).
    - apply (bool_decide_unpack _). vm_compute. exact I. }
  destruct (MoreAnalysis.registry_entry trackr_file scenario_path) as [[config|]|]; try done.
  destruct (MoreAnalysis.size_from (MoreAnalysis.topology_path_of config)) as [t|] eqn:Ht;
    [|done].
  by apply (size_from_range _ _ Ht).
Qed.

(** X16.  The two tables [load_data] returns have the columns
    [topology], [scheduler], [scenario] and [seed]; every row carries the
    scheduler and the topology computed for the path of its scenario
    directory, the directory's number and an integer seed, and its
    topology is one of [small], [medium], [large] and [unknown]. *)
Theorem load_data_tags (fs : FS) (base_path cost_pattern : string)
    (host task : DataFrame) :
  MoreAnalysis.load_data fs base_path cost_pattern = Ok (host, task) ->
  forall df, df = host \/ df = task ->
    forallb (has_column df) tag_columns = true
    /\ forall r, r ∈ rows df ->
         tagged_by_path (trackr (fs base_path cost_pattern))
           (pattern_path base_path cost_pattern) r
         /\ exists t, get_cell r "topology" = Str t /\ t ∈ topology_labels.
Proof.
  unfold MoreAnalysis.load_data. intros H.
  destruct (raw_output (fs base_path cost_pattern)) as [entries|]; [|discriminate].
  set (tf := trackr (fs base_path cost_pattern)) in *.
  set (root := pattern_path base_path cost_pattern) in *.
  pose proof (for_each_invariant
                (fun τ : MoreAnalysis.Loaded =>
                   Forall (path_tagged_frame tf root) τ.1
                   /\ Forall (path_tagged_frame tf root) τ.2)
                entries (MoreAnalysis.load_scenario tf root) ([], [])) as Hinv.
  destruct (for_each entries (MoreAnalysis.load_scenario tf root) ([], []))
    as [[host_dfs task_dfs] [[]|]]; [|discriminate].
  cbn [fst snd] in Hinv. destruct Hinv as [Hh Ht].
  { intros entry τ _ Hτ. by apply load_scenario_tagged. }
  { split; constructor. }
  destruct host_dfs as [|h hs]; [discriminate|]. destruct task_dfs as [|t ts]; [discriminate|].
  injection H as <- <-.
  assert (forall dfs, dfs <> [] -> Forall (path_tagged_frame tf root) dfs ->
            forallb (has_column (concat_frames dfs)) tag_columns = true
            /\ forall r, r ∈ rows (concat_frames dfs) ->
                 tagged_by_path tf root r
                 /\ exists t, get_cell r "topology" = Str t /\ t ∈ topology_labels) as Hcat.
  { intros dfs Hne Hall. split.
    - destruct dfs as [|d0 dfs]; [done|]. apply Forall_cons in Hall as [[Hcols _] _].
      apply forallb_forall. intros c Hc. rewrite has_column_concat_frames.
      cbn [existsb]. rewrite forallb_forall in Hcols. by rewrite (Hcols c Hc).
    - intros r Hr. apply rows_concat_frames in Hr as (df & Hdf & Hr).
      rewrite Forall_forall in Hall. destruct (Hall df Hdf) as [_ Htag].
      specialize (Htag r Hr). split; [done|].
      destruct Htag as (scenario & n & seed & _ & _ & _ & Htopo & _).
      eexists. split; [exact Htopo|]. apply parse_topology_size_range. }
  intros df [-> | ->]; by apply Hcat.
Qed.

Lemma load_data_tags_witness :
  forallb (has_column Examples.loaded.2) tag_columns = true
  /\ forall r, r ∈ rows Examples.loaded.2 ->
       tagged_by_path (trackr (Examples.fs_complete "output" "stable"))
         (pattern_path "output" "stable") r
       /\ exists t, get_cell r "topology" = Str t /\ t ∈ topology_labels.
Proof.
  apply (load_data_tags Examples.fs_complete "output" "stable" Examples.loaded.1
           Examples.loaded.2); [vm_compute; reflexivity | by right].
Defined.
Lemma Forall2_map_eq' {A B C} (f : A -> C) (g : B -> C) (l : list A) (l' : list B) :
  Forall2 (fun a b => g b = f a) l l' -> map f l = map g l'.
Proof. induction 1 as [|a b l l' H _ IH]; [done|]. cbn. by rewrite H, IH. Qed.
(** ** The groups of [more_analysis.analyze_task_completion] *)

(** The rows the function keeps. *)
Lemma more_analysis_metrics_inv (task_df : DataFrame) (m : MoreAnalysis.CompletionMetrics) :
  m ∈ MoreAnalysis.analyze_task_completion task_df ->
  exists k,
    k ∈ group_keys_of ["scheduler"; "topology"]
          (List.filter (fun r : row => negb (isin (get_cell r "scheduler") MoreAnalysis.EXCLUDED))
                       (rows task_df))
    /\ MoreAnalysis.cm_scheduler m = nth 0 k NaN
    /\ MoreAnalysis.cm_topology m = nth 1 k NaN.
Proof.
  intros Hm. destruct (more_analysis_groups task_df m Hm) as (r & Hk & Hrun).
  cbv zeta in Hk. eexists. split; [exact Hk|].
  cbn [row_key map] in Hrun. apply group_metrics_inv in Hrun as (Hs & Ht & _).
  by rewrite Hs, Ht.
Qed.

(** X17.  Every row of the frame [more_analysis.analyze_task_completion]
    returns stands for a group with at least one task row, so the rate is
    never a division by zero; the completed tasks are at most the total,
    the rate lies between 0 and 100, and the scheduler and the topology
    of the group are not null, the scheduler neither SimpleCost nor
    Unknown. *)
Theorem more_analysis_groups_not_empty (task_df : DataFrame)
    (m : MoreAnalysis.CompletionMetrics) :
  m ∈ MoreAnalysis.analyze_task_completion task_df ->
  (1 <= MoreAnalysis.cm_total_tasks m)%nat
  /\ (MoreAnalysis.cm_completed_tasks m <= MoreAnalysis.cm_total_tasks m)%nat
  /\ (0 <= MoreAnalysis.cm_completion_rate m /\ MoreAnalysis.cm_completion_rate m <= 100)%Q
  /\ is_nan (MoreAnalysis.cm_scheduler m) = false
  /\ is_nan (MoreAnalysis.cm_topology m) = false
  /\ forall scheduler,
       MoreAnalysis.cm_scheduler m = Str scheduler -> scheduler ∉ MoreAnalysis.EXCLUDED.
Proof.
  intros Hm.
  destruct (more_analysis_completion_metrics task_df m Hm) as (Htotal & Hdone & Hrate).
  destruct (more_analysis_metrics_inv task_df m Hm) as (k & Hk & Hs & Ht).
  apply group_keys_of_valid in Hk as (Hvalid & r & Hr & Hkr).
  assert (k = [MoreAnalysis.cm_scheduler m; MoreAnalysis.cm_topology m]) as Hkey.
  { rewrite Hs, Ht, Hkr. done. }
  set (group := rows_of_group task_df (MoreAnalysis.cm_scheduler m) (MoreAnalysis.cm_topology m))
    in *.
  assert (r ∈ group) as Hin.
  { unfold group, rows_of_group, group_rows. apply list_elem_of_In, List.filter_In.
    split; [by apply list_elem_of_In|]. rewrite <- Hkey, Hkr.
    apply key_eqb_refl. by rewrite <- Hkr. }
  assert (1 <= length group)%nat as Hpos.
  { destruct group; [by apply elem_of_nil in Hin|cbn; lia]. }
  assert (length (completed_rows group) <= length group)%nat as Hle.
  { apply List.filter_length_le. }
  rewrite Htotal, Hdone, Hrate. split; [done|]. split; [done|].
  assert (0 < inject_Z (Z.of_nat (length group)))%Q as Hq.
  { change 0%Q with (inject_Z 0). rewrite <- Zlt_Qlt. lia. }
  split; [split|].
  - apply Qmult_le_0_compat; [|done]. apply Qle_shift_div_l; [done|].
    rewrite Qmult_0_l. change 0%Q with (inject_Z 0). rewrite <- Zle_Qle. lia.
  - rewrite <- (Qmult_1_l 100) at 2. apply Qmult_le_compat_r; [|done].
    apply Qle_shift_div_r; [done|]. rewrite Qmult_1_l, <- Zle_Qle. lia.
  - rewrite Hkey in Hvalid. cbn in Hvalid.
    apply andb_true_iff in Hvalid as [Hvs Hvt]. rewrite andb_true_r in Hvt.
    apply negb_true_iff in Hvs. apply negb_true_iff in Hvt.
    split; [done|]. split; [done|]. intros s Hsched.
    apply list_elem_of_In, List.filter_In in Hr as [_ Hkeep].
    assert (get_cell r "scheduler" = MoreAnalysis.cm_scheduler m) as Hcell.
    { rewrite Hs, Hkr. done. }
    rewrite Hcell, Hsched in Hkeep. cbn in Hkeep.
    by apply negb_true_iff, bool_decide_eq_false in Hkeep.
Qed.

Lemma more_analysis_groups_not_empty_witness :
  (1 <= MoreAnalysis.cm_total_tasks Examples.twice_metrics)%nat
  /\ (MoreAnalysis.cm_completed_tasks Examples.twice_metrics
      <= MoreAnalysis.cm_total_tasks Examples.twice_metrics)%nat
  /\ (0 <= MoreAnalysis.cm_completion_rate Examples.twice_metrics
      /\ MoreAnalysis.cm_completion_rate Examples.twice_metrics <= 100)%Q
  /\ is_nan (MoreAnalysis.cm_scheduler Examples.twice_metrics) = false
  /\ is_nan (MoreAnalysis.cm_topology Examples.twice_metrics) = false
  /\ forall scheduler,
       MoreAnalysis.cm_scheduler Examples.twice_metrics = Str scheduler ->
       scheduler ∉ MoreAnalysis.EXCLUDED.
Proof.
  apply (more_analysis_groups_not_empty Examples.observed_twice Examples.twice_metrics).
  apply (list_elem_of_lookup_2 _ 0%nat). vm_compute. reflexivity.
Defined.
(** ** Counting the rows of the groups *)

Lemma sum_list_map_plus {A} (f g : A -> nat) (l : list A) :
  sum_list (map (fun x => f x + g x)%nat l) = (sum_list (map f l) + sum_list (map g l))%nat.
Proof. induction l as [|x l IH]; [done|]. cbn. rewrite IH. lia. Qed.

Lemma sum_list_indicator {A} (p : A -> bool) (l : list A) :
  sum_list (map (fun x => if p x then 1 else 0)%nat l) = length (List.filter p l).
Proof. induction l as [|x l IH]; [done|]. cbn. destruct (p x); cbn; lia. Qed.

(** Counting the pairs of a relation by rows or by columns. *)
Lemma sum_filter_swap {A B} (P : A -> B -> bool) (xs : list A) (ys : list B) :
  sum_list (map (fun x => length (List.filter (P x) ys)) xs)
  = sum_list (map (fun y => length (List.filter (fun x => P x y) xs)) ys).
Proof.
  induction xs as [|x xs IH].
  - cbn. induction ys as [|y ys IHy]; [done|]. cbn. by rewrite <- IHy.
  - transitivity (sum_list (map (fun y => (if P x y then 1 else 0)
                                          + length (List.filter (fun x' => P x' y) xs))%nat
                                ys)).
    + rewrite sum_list_map_plus, sum_list_indicator, <- IH. done.
    + f_equal. apply map_ext. intros y. cbn [List.filter]. by destruct (P x y).
Qed.

Lemma filter_filter_andb {A} (p q : A -> bool) (l : list A) :
  List.filter p (List.filter q l) = List.filter (fun x => q x && p x) l.
Proof.
  induction l as [|x l IH]; [done|]. cbn [List.filter].
  destruct (q x); cbn [List.filter andb]; [|done]. by rewrite IH.
Qed.

(** The groups of [groupby] split the rows whose keys are all non-null. *)
Lemma group_rows_partition (keys : list string) (rs : list row) :
  sum_list (map (fun k => length (group_rows keys k rs)) (group_keys_of keys rs))
  = length (List.filter (fun r => key_valid (row_key keys r)) rs).
Proof.
  unfold group_rows.
  rewrite (sum_filter_swap (fun k r => key_eqb k (row_key keys r))).
  rewrite <- sum_list_indicator. f_equal. apply map_ext_in. intros r Hr.
  rewrite group_keys_of_count.
  destruct (key_valid (row_key keys r)) eqn:Hv.
  - assert (existsb (fun r' => key_eqb (row_key keys r') (row_key keys r)) rs = true) as ->;
      [|done].
    apply existsb_exists. exists r. split; [done|]. by apply key_eqb_refl.
  - assert (existsb (fun r' => key_eqb (row_key keys r') (row_key keys r)) rs = false) as ->;
      [|done].
    apply not_true_is_false. intros H. apply existsb_exists in H as (r' & _ & H).
    apply key_eqb_valid in H. by rewrite H in Hv.
Qed.

Lemma group_metrics_ok (cols : list string) (k : list cell) (group : list row) :
  length k = 2%nat ->
  Forall (fun c => c ∈ cols) ["task_state"; "finish_time"; "creation_time"] ->
  Forall (fun r : row => is_str (get_cell r "finish_time") = false
                         /\ is_str (get_cell r "creation_time") = false) group ->
  exists m, MoreAnalysis.group_metrics (NamedLevels ["scheduler"; "topology"]) cols
              (k, group) = Ok m
            /\ MoreAnalysis.cm_total_tasks m = length group.
Proof.
  intros Hk Hcols Htimes. destruct k as [|a [|b [|]]]; try discriminate Hk.
  unfold MoreAnalysis.group_metrics, MoreAnalysis.group_column.
  cbn [fst snd MoreAnalysis.unpack_pair mbind Result_bind rbind].
  apply Forall_cons in Hcols as [H1 Hcols]. apply Forall_cons in Hcols as [H2 Hcols].
  apply Forall_cons in Hcols as [H3 _].
  rewrite !bool_decide_eq_true_2 by done. cbn [mbind Result_bind rbind].
  match goal with
  | |- context [zipM cell_sub ?xs ?ys] => destruct (zipM_cell_sub_ok xs ys) as [d Hd]
  end.
  - apply Forall_forall. intros c Hc. apply list_elem_of_fmap in Hc as (r & -> & Hr).
    apply list_elem_of_In, List.filter_In in Hr as [Hr _].
    rewrite Forall_forall in Htimes. by destruct (Htimes r (proj2 (list_elem_of_In _ _) Hr)).
  - apply Forall_forall. intros c Hc. apply list_elem_of_fmap in Hc as (r & -> & Hr).
    apply list_elem_of_In, List.filter_In in Hr as [Hr _].
    rewrite Forall_forall in Htimes. by destruct (Htimes r (proj2 (list_elem_of_In _ _) Hr)).
  - rewrite Hd. cbn [mbind Result_bind rbind]. eexists. split; [reflexivity|done].
Qed.

(** X18.  On a task table with the columns it reads and numeric or
    null times, [more_analysis.analyze_task_completion] counts every task
    row whose scheduler is not excluded and whose scheduler and topology
    are not null in exactly one group: the totals of the groups add up to
    the number of these rows. *)
Theorem more_analysis_counts_every_row (task_df : DataFrame) :
  completion_table_ok task_df = true ->
  sum_list (map MoreAnalysis.cm_total_tasks (MoreAnalysis.analyze_task_completion task_df))
  = length (List.filter counted (rows task_df)).
Proof.
  intros Hok. unfold completion_table_ok in Hok. apply andb_true_iff in Hok as [Hcols Htimes].
  rewrite forallb_forall in Hcols, Htimes.
  assert (forall c, In c completion_columns -> has_column task_df c = true) as Hhas by done.
  assert (Forall (fun c => c ∈ columns task_df)
                 ["task_state"; "finish_time"; "creation_time"]) as Hread.
  { apply Forall_forall. intros c Hc.
    apply (bool_decide_eq_true_1 (c ∈ columns task_df)), Hhas.
    apply list_elem_of_In in Hc. cbn in Hc |- *. tauto. }
  unfold MoreAnalysis.analyze_task_completion, MoreAnalysis.drop_isin, column.
  rewrite (Hhas "scheduler") by (cbn; tauto). cbn [mbind Result_bind rbind].
  set (keep := fun r : row => negb (isin (get_cell r "scheduler") MoreAnalysis.EXCLUDED)).
  rewrite groupby_columns; [|done|].
  2:{ cbn [forallb]. rewrite !has_column_filter_rows.
      by rewrite (Hhas "scheduler"), (Hhas "topology") by (cbn; tauto). }
  cbn [negb mbind Result_bind rbind gb_index gb_columns gb_groups filter_rows rows columns].
  set (keys := ["scheduler"; "topology"]).
  set (kept := List.filter keep (rows task_df)).
  assert (forall k, k ∈ group_keys_of keys kept -> length k = 2%nat) as Hlen.
  { intros k Hk. apply group_keys_of_row_key in Hk as (r & ->). done. }
  destruct (mapM_total (MoreAnalysis.group_metrics (NamedLevels keys) (columns task_df))
              (map (fun k => (k, group_rows keys k kept)) (group_keys_of keys kept)))
    as [ms Hms].
  { intros kg Hkg. apply list_elem_of_fmap in Hkg as (k & -> & Hk).
    destruct (group_metrics_ok (columns task_df) k (group_rows keys k kept)) as (m & Hm & _);
      [by apply Hlen| | |by exists m].
    - exact Hread.
    - apply Forall_forall. intros r Hr. cbn [snd] in Hr.
      apply list_elem_of_In, List.filter_In in Hr as [Hr _].
      apply List.filter_In in Hr as [Hr _]. specialize (Htimes r Hr).
      apply andb_true_iff in Htimes as [H1 H2].
      by rewrite negb_true_iff in H1, H2. }
  rewrite Hms.
  assert (map MoreAnalysis.cm_total_tasks ms
          = map (fun k => length (group_rows keys k kept)) (group_keys_of keys kept)) as ->.
  { apply mapM_Forall2 in Hms. apply Forall2_fmap_l in Hms.
    symmetry. apply Forall2_map_eq'.
    apply Forall2_same_length_lookup_2; [by eapply Forall2_length|].
    intros i k m Hk Hm'.
    destruct (Forall2_lookup_l _ _ _ _ _ Hms Hk) as (m0 & Hm0 & Hm).
    rewrite Hm' in Hm0. injection Hm0 as <-. unfold compose in Hm.
    destruct (group_metrics_ok (columns task_df) k (group_rows keys k kept))
      as (m' & Hm'' & Htot).
    - by eapply Hlen, list_elem_of_lookup_2.
    - exact Hread.
    - apply Forall_forall. intros r Hr. cbn [snd] in Hr.
      apply list_elem_of_In, List.filter_In in Hr as [Hr _].
      apply List.filter_In in Hr as [Hr _]. specialize (Htimes r Hr).
      apply andb_true_iff in Htimes as [H1 H2].
      by rewrite negb_true_iff in H1, H2.
    - assert (Ok m = Ok m') as [= ->] by (rewrite <- Hm, <- Hm''; reflexivity). done. }
  rewrite group_rows_partition. unfold kept. by rewrite filter_filter_andb.
Qed.

Lemma more_analysis_counts_every_row_witness :
  sum_list (map MoreAnalysis.cm_total_tasks
                (MoreAnalysis.analyze_task_completion Examples.observed_twice))
  = length (List.filter counted (rows Examples.observed_twice)).
Proof.
  apply (more_analysis_counts_every_row Examples.observed_twice). reflexivity.
Defined.
(** ** The files of [more_analysis.main] *)

Section MoreAnalysisFiles.

Variable fs : FS.
Variable calculate : DataFrame -> DataFrame.
Variable visualize save :
  DataFrame -> list (string * MoreAnalysis.CompletionMetrics) -> string -> list string.
Variable cross :
  list DataFrame -> list (list (string * MoreAnalysis.CompletionMetrics))
  -> list string * Result unit.

(** One turn of the loop writes the files of the pattern, and warns
    when the filtered data of the pattern are empty. *)
Lemma analyze_pattern_files (p : string) (s : MoreAnalysis.MainState) :
  exists s',
    MoreAnalysis.analyze_pattern fs calculate visualize save p s = (s', Ok tt)
    /\ MoreAnalysis.files s'
       = MoreAnalysis.files s ++ pattern_files fs calculate visualize save p
    /\ (forall e, e ∈ MoreAnalysis.log s -> e ∈ MoreAnalysis.log s')
    /\ (forall tables, prepared fs p = Ok tables -> contribution fs calculate p = None ->
        Warning ("No valid data found for pattern " +:+ p +:+ " after filtering")
        ∈ MoreAnalysis.log s').
Proof.
  unfold MoreAnalysis.analyze_pattern, MoreAnalysis.catch_and_log,
    MoreAnalysis.pattern_body, pattern_files, contribution, prepared.
  unfold mbind at 1, ST_bind at 1. unfold MoreAnalysis.logger at 1, modify at 1.
  unfold mbind at 1, ST_bind at 1, lift at 1.
  destruct (MoreAnalysis.load_data fs "output" p) as [data|e] eqn:Hload.
  2:{ eexists. split; [reflexivity|]. cbn. rewrite app_nil_r. split; [done|].
      split; [|discriminate]. intros e' He'. rewrite !elem_of_app. auto. }
  unfold mbind at 1, ST_bind at 1, lift at 1. cbn [mbind Result_bind rbind].
  destruct (MoreAnalysis.drop_isin "scheduler" MoreAnalysis.EXCLUDED data.1)
    as [host|e] eqn:Hhost.
  2:{ eexists. split; [reflexivity|]. cbn. rewrite app_nil_r. split; [done|].
      split; [|discriminate]. intros e' He'. rewrite !elem_of_app. auto. }
  unfold mbind at 1, ST_bind at 1, lift at 1. cbn [mbind Result_bind rbind].
  destruct (MoreAnalysis.drop_isin "scheduler" MoreAnalysis.EXCLUDED data.2)
    as [task|e] eqn:Htask.
  2:{ eexists. split; [reflexivity|]. cbn. rewrite app_nil_r. split; [done|].
      split; [|discriminate]. intros e' He'. rewrite !elem_of_app. auto. }
  cbn [mbind Result_bind rbind].
  destruct ((length (rows host) =? 0)%nat || (length (rows task) =? 0)%nat).
  - eexists. split; [reflexivity|]. cbn. rewrite app_nil_r. split; [done|]. split.
    + intros e' He'. rewrite !elem_of_app. auto.
    + intros _ _ _. rewrite !elem_of_app. right. apply list_elem_of_singleton. done.
  - eexists. split; [reflexivity|]. cbn. rewrite <- !app_assoc. split; [done|].
    split; [|discriminate]. intros e' He'. rewrite !elem_of_app. auto.
Qed.

Lemma patterns_loop_files_more (ps : list string) (s : MoreAnalysis.MainState) :
  exists s',
    for_each ps (MoreAnalysis.analyze_pattern fs calculate visualize save) s = (s', Ok tt)
    /\ MoreAnalysis.files s'
       = MoreAnalysis.files s ++ flat_map (pattern_files fs calculate visualize save) ps
    /\ (forall e, e ∈ MoreAnalysis.log s -> e ∈ MoreAnalysis.log s')
    /\ (forall p tables, p ∈ ps ->
        prepared fs p = Ok tables -> contribution fs calculate p = None ->
        Warning ("No valid data found for pattern " +:+ p +:+ " after filtering")
        ∈ MoreAnalysis.log s').
Proof.
  revert s. induction ps as [|p ps IH]; intros s.
  - exists s. cbn. rewrite app_nil_r. repeat split; try done.
    intros p tables Hp. by apply elem_of_nil in Hp.
  - destruct (analyze_pattern_files p s) as (s1 & Hrun1 & Hf1 & Hl1 & Hw1).
    destruct (IH s1) as (s2 & Hrun2 & Hf2 & Hl2 & Hw2).
    exists s2. split. { cbn [for_each]. unfold mbind, ST_bind. by rewrite Hrun1. }
    split. { rewrite Hf2, Hf1. cbn [flat_map]. by rewrite <- app_assoc. }
    split. { auto. }
    intros q tables Hq Hprep Hnone. apply elem_of_cons in Hq as [->|Hq].
    + apply Hl2. by eapply Hw1.
    + by eapply Hw2.
Qed.

End MoreAnalysisFiles.

Lemma cross_pattern_files (cross :
    list DataFrame -> list (list (string * MoreAnalysis.CompletionMetrics))
    -> list string * Result unit)
    (contributions : list (DataFrame * list (string * MoreAnalysis.CompletionMetrics)))
    (s : MoreAnalysis.MainState) :
  MoreAnalysis.all_efficiency_metrics s = map fst contributions ->
  MoreAnalysis.all_completion_metrics s = map snd contributions ->
  exists s',
    MoreAnalysis.cross_pattern cross s = (s', Ok tt)
    /\ MoreAnalysis.files s' = MoreAnalysis.files s ++ cross_files cross contributions
    /\ (forall e, e ∈ MoreAnalysis.log s -> e ∈ MoreAnalysis.log s')
    /\ MoreAnalysis.all_efficiency_metrics s' = map fst contributions
    /\ MoreAnalysis.all_completion_metrics s' = map snd contributions.
Proof.
  intros He Hc. unfold MoreAnalysis.cross_pattern, MoreAnalysis.catch_and_log.
  unfold mbind at 1, ST_bind at 1. rewrite He, Hc.
  destruct contributions as [|c cs].
  { exists s. cbn. rewrite app_nil_r. done. }
  cbn [map cross_files].
  unfold mbind, ST_bind, MoreAnalysis.logger, MoreAnalysis.write_files, modify, lift.
  destruct (cross (c.1 :: map fst cs) (c.2 :: map snd cs)) as [out [[]|e]];
    eexists; (split; [reflexivity|]); cbn; rewrite ?He, ?Hc;
    (split; [done|]); (split; [|done]); intros e' He'; rewrite !elem_of_app; auto.
Qed.

(** X19.  [more_analysis.main] always returns.  The files it writes are
    those of the two writers for each cost pattern that contributes, in
    the order of the patterns, followed by those of the cross-pattern
    stage when at least one pattern contributed: a pattern whose data fail
    to load, or are empty once filtered, writes nothing.  The two lists of
    the cross-pattern analysis have the same length, and a pattern whose
    filtered data are empty is warned about. *)
Theorem more_analysis_main_files (fs : FS) (calculate : DataFrame -> DataFrame)
    (visualize save :
       DataFrame -> list (string * MoreAnalysis.CompletionMetrics) -> string -> list string)
    (cross :
       list DataFrame -> list (list (string * MoreAnalysis.CompletionMetrics))
       -> list string * Result unit) :
  let r := MoreAnalysis.main fs calculate visualize save cross initial_state in
  let contributions := omap (contribution fs calculate) MoreAnalysis.patterns in
  r.2 = Ok tt
  /\ MoreAnalysis.files r.1
     = flat_map (pattern_files fs calculate visualize save) MoreAnalysis.patterns
       ++ cross_files cross contributions
  /\ length (MoreAnalysis.all_efficiency_metrics r.1)
     = length (MoreAnalysis.all_completion_metrics r.1)
  /\ (forall p tables, p ∈ MoreAnalysis.patterns ->
      prepared fs p = Ok tables -> contribution fs calculate p = None ->
      Warning ("No valid data found for pattern " +:+ p +:+ " after filtering")
      ∈ MoreAnalysis.log r.1).
Proof.
  cbv zeta. unfold MoreAnalysis.main.
  set (s0 := {| MoreAnalysis.log :=
                  [Info "Starting cost analysis - Comparing CostEfficient vs PredictiveCost"];
                MoreAnalysis.all_efficiency_metrics := [];
                MoreAnalysis.all_completion_metrics := [];
                MoreAnalysis.files := [] |}).
  destruct (patterns_loop_files_more fs calculate visualize save MoreAnalysis.patterns s0)
    as (s1 & Hrun1 & Hf1 & Hl1 & Hw1).
  destruct (patterns_loop_spec fs calculate visualize save MoreAnalysis.patterns s0)
    as (s1' & added & Hrun1' & _ & _ & _ & Heff & Hcomp).
  rewrite Hrun1 in Hrun1'. injection Hrun1' as <-. cbn [s0 MoreAnalysis.all_efficiency_metrics
    MoreAnalysis.all_completion_metrics app] in Heff, Hcomp.
  destruct (cross_pattern_files cross _ s1 Heff Hcomp) as (s2 & Hrun2 & Hf2 & Hl2 & He2 & Hc2).
  assert (MoreAnalysis.main fs calculate visualize save cross initial_state
          = ({| MoreAnalysis.log :=
                  (MoreAnalysis.log s2 ++ [Info "Analysis completed"])
                  ++ [Info "Results saved in results"];
                MoreAnalysis.all_efficiency_metrics := MoreAnalysis.all_efficiency_metrics s2;
                MoreAnalysis.all_completion_metrics := MoreAnalysis.all_completion_metrics s2;
                MoreAnalysis.files := MoreAnalysis.files s2 |}, Ok tt)) as Hmain.
  { unfold MoreAnalysis.main.
    unfold mbind at 1, ST_bind at 1. unfold MoreAnalysis.logger at 1, modify at 1.
    change {| MoreAnalysis.log := MoreAnalysis.log initial_state ++ _;
              MoreAnalysis.all_efficiency_metrics := _;
              MoreAnalysis.all_completion_metrics := _;
              MoreAnalysis.files := _ |} with s0.
    unfold mbind at 1, ST_bind at 1. rewrite Hrun1.
    unfold mbind at 1, ST_bind at 1. rewrite Hrun2.
    reflexivity. }
  fold (MoreAnalysis.main fs calculate visualize save cross). rewrite Hmain.
  cbn [fst snd MoreAnalysis.files MoreAnalysis.log MoreAnalysis.all_efficiency_metrics
       MoreAnalysis.all_completion_metrics].
  split; [done|]. split; [by rewrite Hf2, Hf1|].
  split; [by rewrite He2, Hc2, !length_map|].
  intros p tables Hp Hprep Hnone. rewrite !elem_of_app. do 2 left.
  apply Hl2. by eapply Hw1.
Qed.
